(** * Room sessions of the chat server (chat app/app.py)

    A shallow embedding of the Flask-SocketIO event handlers of app.py and
    the properties of the room store they maintain.

    Conventions of the embedding.
    - Text is [string].  [str.strip], [str.upper] and [str.lower] are
      parameters of the handlers (the class [StrLib]): they follow the
      Unicode tables of the interpreter, and every theorem holds for every
      such library.  On ASCII text they are the functions of the module
      [Py], which the sample runs use.
    - [active_rooms] is the module-level dict, a [gmap] from room id to room.
      A room's ['users'] dict keeps its insertion order, so it is an
      association list with Python's dict operations.
    - A handler is a computation in the monad [M]: it threads the [World],
      collects the events passed to [emit] in order, and either returns,
      raises (a failed subscript is a [KeyError]) or runs out of fuel (the
      [while] loop of [handle_create_room]).
    - [get_timestamp] and [uuid.uuid4] read the outside world.  The [n]-th
      reading of the wall clock is [now n] and the [n]-th identifier drawn is
      [uuid4 n]; the world counts the readings made so far.
    - The socket.io room membership kept by the library ([join_room],
      [leave_room], [rooms]) is the [sio_rooms] component of the world.
    - [emit] serialises its payload when it is called, so an event carries
      the value its arguments had at that moment.  [print] is not modelled.
    - Handlers run one at a time. *)

From Stdlib Require Import ZArith Ascii.
From Stdlib Require String.
From stdpp Require Import gmap strings list fin_maps.

(* ===================================================================== *)
(** ** Python strings *)

Module Py.

(** [str.strip], [str.upper] and [str.lower] as they are on ASCII text.

    [str.isspace] on one ASCII character: TAB, LF, VT, FF, CR, the
    separators FS, GS, RS, US, and the space. *)
Definition isspace (c : ascii) : bool :=
  let n := nat_of_ascii c in
  ((9 <=? n) && (n <=? 13)) || ((28 <=? n) && (n <=? 32)).

Definition upper_char (c : ascii) : ascii :=
  let n := nat_of_ascii c in
  if (97 <=? n) && (n <=? 122) then ascii_of_nat (n - 32) else c.

Definition lower_char (c : ascii) : ascii :=
  let n := nat_of_ascii c in
  if (65 <=? n) && (n <=? 90) then ascii_of_nat (n + 32) else c.

Fixpoint map_chars (f : ascii -> ascii) (s : string) : string :=
  match s with
  | EmptyString => EmptyString
  | String c s' => String (f c) (map_chars f s')
  end.

Definition upper : string -> string := map_chars upper_char.
Definition lower : string -> string := map_chars lower_char.

Fixpoint lstrip (s : string) : string :=
  match s with
  | EmptyString => EmptyString
  | String c s' => if isspace c then lstrip s' else s
  end.

Definition rstrip (s : string) : string :=
  String.rev (lstrip (String.rev s)).

Definition strip (s : string) : string := rstrip (lstrip s).

(** Every character of the text is an ASCII character. *)
Fixpoint is_ascii (s : string) : bool :=
  match s with
  | EmptyString => true
  | String c s' => (nat_of_ascii c <? 128) && is_ascii s'
  end.

(** Truth value of a string: [not s] holds exactly for the empty one. *)
Definition falsy (s : string) : bool :=
  match s with EmptyString => true | String _ _ => false end.

(** [s[:n]] *)
Fixpoint take (n : nat) (s : string) : string :=
  match n, s with
  | S n', String c s' => String c (take n' s')
  | _, _ => EmptyString
  end.

(** [s.startswith(prefix)] *)
Fixpoint startswith (s prefix : string) {struct prefix} : bool :=
  match prefix with
  | EmptyString => true
  | String a prefix' =>
      match s with
      | EmptyString => false
      | String b s' => Ascii.eqb a b && startswith s' prefix'
      end
  end.

(** [s.endswith(suffix)] *)
Definition endswith (s suffix : string) : bool :=
  startswith (String.rev s) (String.rev suffix).

(** [len(s)] *)
Definition len (s : string) : Z := Z.of_nat (String.length s).

(** [x in l] for a list of strings. *)
Definition contains (x : string) (l : list string) : bool :=
  bool_decide (x ∈ l).

(** [l.remove(x)]: drops the first occurrence ([None]: [ValueError]). *)
Fixpoint remove (x : string) (l : list string) : option (list string) :=
  match l with
  | [] => None
  | y :: l' =>
      if decide (y = x) then Some l'
      else match remove x l' with
           | Some r => Some (y :: r)
           | None => None
           end
  end.

(** *** Insertion-ordered dicts with string keys *)

Definition dict (V : Type) : Type := list (string * V).

Fixpoint dict_get {V} (k : string) (d : dict V) : option V :=
  match d with
  | [] => None
  | (k', v) :: d' => if decide (k' = k) then Some v else dict_get k d'
  end.

(** [k in d] *)
Definition dict_mem {V} (k : string) (d : dict V) : bool :=
  match dict_get k d with Some _ => true | None => false end.

(** [d[k] = v]: an existing key keeps its place, a new key goes last. *)
Fixpoint dict_set {V} (k : string) (v : V) (d : dict V) : dict V :=
  match d with
  | [] => [(k, v)]
  | (k', v') :: d' =>
      if decide (k' = k) then (k, v) :: d' else (k', v') :: dict_set k v d'
  end.

(** [del d[k]] ([None]: [KeyError]). *)
Fixpoint dict_del {V} (k : string) (d : dict V) : option (dict V) :=
  match d with
  | [] => None
  | (k', v) :: d' =>
      if decide (k' = k) then Some d'
      else match dict_del k d' with
           | Some r => Some ((k', v) :: r)
           | None => None
           end
  end.

(** [list(d.values())] *)
Definition dict_values {V} (d : dict V) : list V := d.*2.

(** [list(d.keys())] *)
Definition dict_keys {V} (d : dict V) : list string := d.*1.

End Py.

Arguments Py.contains : simpl never.
Arguments Py.dict_mem : simpl never.
Arguments Py.dict_values : simpl never.
Arguments Py.dict_keys : simpl never.
Arguments Py.strip : simpl never.
Arguments Py.upper : simpl never.
Arguments Py.lower : simpl never.
Arguments Py.len : simpl never.
Arguments Py.take : simpl never.
Arguments Py.endswith : simpl never.

(** *** The string library

    [str.strip], [str.upper] and [str.lower] follow the Unicode tables of the
    interpreter, which are not part of app.py: the handlers take them as
    parameters.  What is known of them: on ASCII text they are the functions
    of [Py], and [upper] and [lower] give the empty text for the empty text
    only. *)
Class StrLib : Type := {
  str_strip : string -> string;
  str_upper : string -> string;
  str_lower : string -> string;
  str_strip_ascii : forall s, Py.is_ascii s = true -> str_strip s = Py.strip s;
  str_upper_ascii : forall s, Py.is_ascii s = true -> str_upper s = Py.upper s;
  str_lower_ascii : forall s, Py.is_ascii s = true -> str_lower s = Py.lower s;
  str_upper_empty : forall s, str_upper s = "" -> s = "";
  str_lower_empty : forall s, str_lower s = "" -> s = ""
}.

(* ===================================================================== *)
(** ** Data model *)

(** An entry of a room's ['messages'] list.  The three shapes of dict the
    handlers build, told apart by their ['type'] key; a system entry has
    ['username'] ['System']. *)
Inductive Message : Type :=
| system_msg (message timestamp : string)
| text_msg (username message timestamp sender_id : string)
| voice_msg (username audio_data : string) (duration : Z)
            (timestamp sender_id : string).

Inductive MessageType : Type := text | voice | system.

Definition message_type (m : Message) : MessageType :=
  match m with
  | system_msg _ _ => system
  | text_msg _ _ _ _ => text
  | voice_msg _ _ _ _ _ => voice
  end.

Definition message_username (m : Message) : string :=
  match m with
  | system_msg _ _ => "System"
  | text_msg u _ _ _ => u
  | voice_msg u _ _ _ _ => u
  end.

(** [{'active': bool, 'participants': []}] *)
Record VideoCall : Type := {
  active : bool;
  participants : list string
}.

(** [{'users': {sid: username}, 'messages': [], 'video_call': {...}}] *)
Record Room : Type := {
  users : Py.dict string;
  messages : list Message;
  video_call : VideoCall
}.

(** The room literal of [handle_create_room] and [handle_join_room]. *)
Definition new_room : Room :=
  {| users := [];
     messages := [];
     video_call := {| active := false; participants := [] |} |}.

Definition set_users (u : Py.dict string) (r : Room) : Room :=
  {| users := u; messages := messages r; video_call := video_call r |}.

Definition set_messages (ms : list Message) (r : Room) : Room :=
  {| users := users r; messages := ms; video_call := video_call r |}.

Definition set_active (b : bool) (r : Room) : Room :=
  {| users := users r; messages := messages r;
     video_call := {| active := b;
                      participants := participants (video_call r) |} |}.

Definition set_participants (ps : list string) (r : Room) : Room :=
  {| users := users r; messages := messages r;
     video_call := {| active := active (video_call r);
                      participants := ps |} |}.

(** The state the handlers share. *)
Record World : Type := {
  active_rooms : gmap string Room;
  (** socket.io rooms entered by each session, its own room left out *)
  sio_rooms : gmap string (list string);
  (** readings of the wall clock made so far *)
  clock_reads : nat;
  (** identifiers drawn from [uuid.uuid4] so far *)
  uuid_draws : nat
}.

Definition initial_world : World :=
  {| active_rooms := ∅; sio_rooms := ∅; clock_reads := 0; uuid_draws := 0 |}.

Definition set_active_rooms (m : gmap string Room) (w : World) : World :=
  {| active_rooms := m; sio_rooms := sio_rooms w;
     clock_reads := clock_reads w; uuid_draws := uuid_draws w |}.

Definition set_sio_rooms (s : gmap string (list string)) (w : World) : World :=
  {| active_rooms := active_rooms w; sio_rooms := s;
     clock_reads := clock_reads w; uuid_draws := uuid_draws w |}.

(** *** Inbound payloads *)

(** The [data] dict of an inbound event.  A key that is present holds a
    value of the type the client sends: text for every key but
    ['duration']. *)
Record Data : Type := {
  k_room_id : option string;
  k_username : option string;
  k_message : option string;
  k_audio_data : option string;
  k_duration : option Z;
  k_target_peer : option string;
  k_offer : option string;
  k_answer : option string;
  k_candidate : option string
}.

(** *** Outbound events *)

(** Where [emit] sends: to the session of the request (no [room]
    argument), or to a socket.io room, all its sessions but [skip_sid]. *)
Inductive Target : Type :=
| to_sid (sid : string)
| to_room (room : string) (skip_sid : option string).

(** Event name and payload, one constructor per name passed to [emit]. *)
Inductive Payload : Type :=
| room_created (room_id : string)
| error (message : string)
| room_joined (room_id username : string) (history : list Message)
              (names : list string) (video_call_active : bool)
| user_joined (username timestamp : string) (names : list string)
| user_left (username timestamp : string) (names : list string)
| left_room (room_id : string)
| new_message (m : Message)
| video_call_started (username peer_id timestamp : string)
| existing_participants (others : list (string * string))
| user_joined_call (peer_id username : string)
| user_left_call (peer_id username : string)
| video_call_ended
| webrtc_offer (offer : option string) (peer_id : string)
| webrtc_answer (answer : option string) (peer_id : string)
| webrtc_ice_candidate (candidate : option string) (peer_id : string).

Record Event : Type := { ev_body : Payload; ev_to : Target }.

(* ===================================================================== *)
(** ** The handler monad *)

Inductive Result (A : Type) : Type :=
| Ok (a : A)
| Raise (e : string)
| OutOfFuel.
Arguments Ok {A} a.
Arguments Raise {A} e.
Arguments OutOfFuel {A}.

Definition M (A : Type) : Type := World -> Result A * World * list Event.

Definition ret {A} (a : A) : M A := fun w => (Ok a, w, []).

Definition bind {A B} (m : M A) (k : A -> M B) : M B := fun w =>
  match m w with
  | (Ok a, w1, o1) =>
      match k a w1 with (r, w2, o2) => (r, w2, o1 ++ o2) end
  | (Raise e, w1, o1) => (Raise e, w1, o1)
  | (OutOfFuel, w1, o1) => (OutOfFuel, w1, o1)
  end.

Notation "'let*' x ':=' m 'in' k" := (bind m (fun x => k))
  (at level 10, x name, m at level 100, k at level 200).
Notation "m '>>' k" := (bind m (fun _ => k))
  (at level 100, k at level 200, right associativity).

Definition raise {A} (e : string) : M A := fun w => (Raise e, w, []).

(** [try: body except Exception as e: handler(str(e))] *)
Definition try_except (body : M unit) (handler : string -> M unit) : M unit :=
  fun w =>
    match body w with
    | (Raise e, w1, o1) =>
        match handler e w1 with (r, w2, o2) => (r, w2, o1 ++ o2) end
    | other => other
    end.

(** [for x in l: body(x)] *)
Fixpoint for_each {A} (l : list A) (body : A -> M unit) : M unit :=
  match l with
  | [] => ret tt
  | x :: l' => body x >> for_each l' body
  end.

(** [if c: body] *)
Definition when (c : bool) (body : M unit) : M unit :=
  if c then body else ret tt.

(** [d[k]] on the result of a lookup: a missing key raises [KeyError]. *)
Definition subscript {V} (k : string) (o : option V) : M V :=
  match o with
  | Some v => ret v
  | None => raise ("'" +:+ k +:+ "'")
  end.

(** [l.remove(x)] in place, handing back the list as it is afterwards: a
    value that is not in the list raises [ValueError]. *)
Definition list_remove (x : string) (l : list string) : M (list string) :=
  match Py.remove x l with
  | Some l' => ret l'
  | None => raise "list.remove(x): x not in list"
  end.

(** [room_id in active_rooms] *)
Definition in_active_rooms (room_id : string) : M bool :=
  fun w => (Ok (bool_decide (is_Some (active_rooms w !! room_id))), w, []).

(** [active_rooms[room_id]] *)
Definition room_at (room_id : string) : M Room :=
  fun w => subscript room_id (active_rooms w !! room_id) w.

(** [active_rooms[room_id] = room], also the write-back of an update made
    in place on the room. *)
Definition set_room (room_id : string) (room : Room) : M unit :=
  fun w => (Ok tt, set_active_rooms (<[room_id := room]> (active_rooms w)) w, []).

(** [del active_rooms[room_id]] *)
Definition del_room (room_id : string) : M unit :=
  fun w =>
    match active_rooms w !! room_id with
    | Some _ =>
        (Ok tt, set_active_rooms (delete room_id (active_rooms w)) w, [])
    | None => raise ("'" +:+ room_id +:+ "'") w
    end.

Module SocketIO.

(** [emit(event, payload)], [emit(event, payload, room=..., skip_sid=...)] *)
Definition emit (body : Payload) (to : Target) : M unit :=
  fun w => (Ok tt, w, [{| ev_body := body; ev_to := to |}]).

(** [rooms()] for the session [sid]: its own room and those it entered. *)
Definition rooms (sid : string) : M (list string) :=
  fun w => (Ok (sid :: default [] (sio_rooms w !! sid)), w, []).

(** The membership after [join_room(room)] by [sid]. *)
Definition entered (sid room : string) (w : World) : World :=
  let mine := default [] (sio_rooms w !! sid) in
  let mine' := if Py.contains room mine then mine else mine ++ [room] in
  set_sio_rooms (<[sid := mine']> (sio_rooms w)) w.

(** The membership after [leave_room(room)] by [sid]. *)
Definition left (sid room : string) (w : World) : World :=
  let mine := default [] (sio_rooms w !! sid) in
  set_sio_rooms (<[sid := filter (fun r => r ≠ room) mine]> (sio_rooms w)) w.

(** [join_room(room)] *)
Definition join_room (sid room : string) : M unit :=
  fun w => (Ok tt, entered sid room w, []).

(** [leave_room(room)] *)
Definition leave_room (sid room : string) : M unit :=
  fun w => (Ok tt, left sid room w, []).

(** What the library does once the disconnect handler has returned: the
    session leaves every room. *)
Definition close (sid : string) (w : World) : World :=
  set_sio_rooms (delete sid (sio_rooms w)) w.

End SocketIO.

(* ===================================================================== *)
(** ** The handlers of app.py *)

Section Handlers.
Context {lib : StrLib}.

(** [now n]: what the [n]-th call of [datetime.now().strftime('%H:%M')]
    returns; [uuid4 n]: [str] of the [n]-th [uuid.uuid4()]. *)
Variable now : nat -> string.
Variable uuid4 : nat -> string.

Definition get_timestamp : M string :=
  fun w =>
    (Ok (now (clock_reads w)),
     {| active_rooms := active_rooms w; sio_rooms := sio_rooms w;
        clock_reads := S (clock_reads w); uuid_draws := uuid_draws w |},
     []).

Definition generate_room_id : M string :=
  fun w =>
    (Ok (str_upper (Py.take 6 (uuid4 (uuid_draws w)))),
     {| active_rooms := active_rooms w; sio_rooms := sio_rooms w;
        clock_reads := clock_reads w; uuid_draws := S (uuid_draws w) |},
     []).

Definition add_system_message (room_id message : string) : M unit :=
  let* present := in_active_rooms room_id in
  when present (
    let* room := room_at room_id in
    let* timestamp := get_timestamp in
    set_room room_id
      (set_messages (messages room ++ [system_msg message timestamp]) room)).

(** [room_id in active_rooms and sid in active_rooms[room_id]['users']];
    the guards written with [not in ... or ... not in] are its negation. *)
Definition is_member (sid room_id : string) : M bool :=
  let* present := in_active_rooms room_id in
  if present then
    let* room := room_at room_id in
    ret (Py.dict_mem sid (users room))
  else ret false.

(** [data.get('room_id', '').strip().upper()], the first line of every
    handler that names a room. *)
Definition get_room_id (data : Data) : string :=
  str_upper (str_strip (default "" (k_room_id data))).
Arguments get_room_id : simpl never.

Definition handle_connect (sid : string) : M unit := ret tt.

(** The body of the [for] loop of [handle_disconnect]. *)
Definition leave_on_disconnect (sid room_id : string) : M unit :=
  let* present := in_active_rooms room_id in
  when present (
    let* room := room_at room_id in
    let username := default "Unknown User" (Py.dict_get sid (users room)) in
    (* every room holds the 'video_call' key *)
    when (Py.contains sid (participants (video_call room))) (
      let* ps := list_remove sid (participants (video_call room)) in
      set_room room_id (set_participants ps room) >>
      SocketIO.emit (user_left_call sid username) (to_room room_id None)) >>
    let* room := room_at room_id in
    when (Py.dict_mem sid (users room)) (
      let* us := subscript sid (Py.dict_del sid (users room)) in
      set_room room_id (set_users us room)) >>
    add_system_message room_id (username +:+ " has left the room") >>
    let* timestamp := get_timestamp in
    let* room := room_at room_id in
    SocketIO.emit (user_left username timestamp (Py.dict_values (users room)))
                  (to_room room_id None) >>
    let* room := room_at room_id in
    when (length (users room) =? 0) (del_room room_id)).

Definition handle_disconnect (sid : string) : M unit :=
  let* all_rooms := SocketIO.rooms sid in
  let user_rooms := filter (fun room => room ≠ sid) all_rooms in
  for_each user_rooms (leave_on_disconnect sid).

(** The [while room_id in active_rooms] loop: [fuel] bounds the number of
    further identifiers drawn. *)
Fixpoint unique_room_id (fuel : nat) (room_id : string) : M string :=
  let* taken := in_active_rooms room_id in
  if taken then
    match fuel with
    | 0 => fun w => (OutOfFuel, w, [])
    | S fuel' =>
        let* room_id := generate_room_id in
        unique_room_id fuel' room_id
    end
  else ret room_id.

Definition handle_create_room (fuel : nat) (sid : string) (data : Data)
  : M unit :=
  try_except (
    let username := default "Anonymous" (k_username data) in
    let* room_id := generate_room_id in
    let* room_id := unique_room_id fuel room_id in
    set_room room_id new_room >>
    SocketIO.emit (room_created room_id) (to_sid sid))
  (fun e =>
    SocketIO.emit (error ("Failed to create room: " +:+ e)) (to_sid sid)).

Definition handle_join_room (sid : string) (data : Data) : M unit :=
  try_except (
    let room_id := get_room_id data in
    let username := str_strip (default "Anonymous" (k_username data)) in
    if Py.falsy room_id then
      SocketIO.emit (error "Room ID is required") (to_sid sid)
    else if Py.falsy username then
      SocketIO.emit (error "Username is required") (to_sid sid)
    else
      let* present := in_active_rooms room_id in
      when (negb present) (set_room room_id new_room) >>
      let* room := room_at room_id in
      let existing_usernames := str_lower <$> Py.dict_values (users room) in
      if Py.contains (str_lower username) existing_usernames then
        SocketIO.emit (error "Username already taken in this room") (to_sid sid)
      else
        SocketIO.join_room sid room_id >>
        let* room := room_at room_id in
        set_room room_id (set_users (Py.dict_set sid username (users room)) room) >>
        let* room := room_at room_id in
        SocketIO.emit
          (room_joined room_id username (messages room)
             (Py.dict_values (users room)) (active (video_call room)))
          (to_sid sid) >>
        add_system_message room_id (username +:+ " has joined the room") >>
        let* timestamp := get_timestamp in
        let* room := room_at room_id in
        SocketIO.emit (user_joined username timestamp (Py.dict_values (users room)))
                      (to_room room_id (Some sid)))
  (fun e =>
    SocketIO.emit (error ("Failed to join room: " +:+ e)) (to_sid sid)).

Definition handle_leave_room (sid : string) (data : Data) : M unit :=
  try_except (
    let room_id := get_room_id data in
    let* member := is_member sid room_id in
    when member (
      let* room := room_at room_id in
      let* username := subscript sid (Py.dict_get sid (users room)) in
      when (Py.contains sid (participants (video_call room))) (
        let* ps := list_remove sid (participants (video_call room)) in
        set_room room_id (set_participants ps room) >>
        SocketIO.emit (user_left_call sid username) (to_room room_id None)) >>
      let* room := room_at room_id in
      let* us := subscript sid (Py.dict_del sid (users room)) in
      set_room room_id (set_users us room) >>
      SocketIO.leave_room sid room_id >>
      add_system_message room_id (username +:+ " has left the room") >>
      let* timestamp := get_timestamp in
      let* room := room_at room_id in
      SocketIO.emit (user_left username timestamp (Py.dict_values (users room)))
                    (to_room room_id None) >>
      let* room := room_at room_id in
      when (length (users room) =? 0) (del_room room_id) >>
      SocketIO.emit (left_room room_id) (to_sid sid)))
  (fun e =>
    SocketIO.emit (error ("Failed to leave room: " +:+ e)) (to_sid sid)).

Definition handle_send_message (sid : string) (data : Data) : M unit :=
  try_except (
    let room_id := get_room_id data in
    let message_text := str_strip (default "" (k_message data)) in
    if Py.falsy message_text then ret tt
    else
      let* member := is_member sid room_id in
      if negb member then
        SocketIO.emit (error "You are not in this room") (to_sid sid)
      else
        let* room := room_at room_id in
        let* username := subscript sid (Py.dict_get sid (users room)) in
        let* timestamp := get_timestamp in
        let message_obj := text_msg username message_text timestamp sid in
        let* room := room_at room_id in
        set_room room_id (set_messages (messages room ++ [message_obj]) room) >>
        SocketIO.emit (new_message message_obj) (to_room room_id None))
  (fun e =>
    SocketIO.emit (error ("Failed to send message: " +:+ e)) (to_sid sid)).

(** [5 * 1024 * 1024], the ceiling of [handle_send_voice_note], and
    [10 * 1024 * 1024], the [max_http_buffer_size] given to [SocketIO]. *)
Definition max_voice_note_size : Z := 5 * 1024 * 1024.
Definition max_http_buffer_size : Z := 10 * 1024 * 1024.

Definition handle_send_voice_note (sid : string) (data : Data) : M unit :=
  try_except (
    let room_id := get_room_id data in
    let audio_data := k_audio_data data in
    let duration := default 0%Z (k_duration data) in
    match audio_data with
    | None | Some EmptyString =>
        SocketIO.emit (error "No audio data received") (to_sid sid)
    | Some audio_data =>
        let* member := is_member sid room_id in
        if negb member then
          SocketIO.emit (error "You are not in this room") (to_sid sid)
        else
          let audio_size := Py.len audio_data in
          if (audio_size >? max_voice_note_size)%Z then
            SocketIO.emit (error "Voice note too large (max 5MB)") (to_sid sid)
          else
            let* room := room_at room_id in
            let* username := subscript sid (Py.dict_get sid (users room)) in
            let* timestamp := get_timestamp in
            let message_obj :=
              voice_msg username audio_data duration timestamp sid in
            let* room := room_at room_id in
            set_room room_id
              (set_messages (messages room ++ [message_obj]) room) >>
            SocketIO.emit (new_message message_obj) (to_room room_id None)
    end)
  (fun e =>
    SocketIO.emit (error ("Failed to send voice note: " +:+ e)) (to_sid sid)).

Definition handle_start_video_call (sid : string) (data : Data) : M unit :=
  try_except (
    let room_id := get_room_id data in
    let* member := is_member sid room_id in
    if negb member then
      SocketIO.emit (error "You are not in this room") (to_sid sid)
    else
      let* room := room_at room_id in
      let* username := subscript sid (Py.dict_get sid (users room)) in
      let* room := room_at room_id in
      set_room room_id (set_active true room) >>
      let* room := room_at room_id in
      set_room room_id
        (set_participants (participants (video_call room) ++ [sid]) room) >>
      add_system_message room_id (username +:+ " started a video call") >>
      let* timestamp := get_timestamp in
      SocketIO.emit (video_call_started username sid timestamp)
                    (to_room room_id None))
  (fun e =>
    SocketIO.emit (error ("Failed to start video call: " +:+ e)) (to_sid sid)).

(** The comprehension building [other_participants]. *)
Definition other_participants (sid : string) (room : Room)
  : list (string * string) :=
  omap (fun pid =>
          if bool_decide (pid ≠ sid) && Py.dict_mem pid (users room)
          then (fun name => (pid, name)) <$> Py.dict_get pid (users room)
          else None)
       (participants (video_call room)).

Definition handle_join_video_call (sid : string) (data : Data) : M unit :=
  try_except (
    let room_id := get_room_id data in
    let* member := is_member sid room_id in
    if negb member then
      SocketIO.emit (error "You are not in this room") (to_sid sid)
    else
      let* room := room_at room_id in
      let* username := subscript sid (Py.dict_get sid (users room)) in
      let* room := room_at room_id in
      when (negb (Py.contains sid (participants (video_call room)))) (
        set_room room_id
          (set_participants (participants (video_call room) ++ [sid]) room)) >>
      let* room := room_at room_id in
      SocketIO.emit (existing_participants (other_participants sid room))
                    (to_sid sid) >>
      SocketIO.emit (user_joined_call sid username)
                    (to_room room_id (Some sid)) >>
      add_system_message room_id (username +:+ " joined the video call") >>
      let* timestamp := get_timestamp in
      SocketIO.emit
        (new_message (system_msg (username +:+ " joined the video call") timestamp))
        (to_room room_id None))
  (fun e =>
    SocketIO.emit (error ("Failed to join video call: " +:+ e)) (to_sid sid)).

Definition handle_leave_video_call (sid : string) (data : Data) : M unit :=
  try_except (
    let room_id := get_room_id data in
    let* member := is_member sid room_id in
    if negb member then ret tt
    else
      let* room := room_at room_id in
      let* username := subscript sid (Py.dict_get sid (users room)) in
      let* room := room_at room_id in
      when (Py.contains sid (participants (video_call room))) (
        let* ps := list_remove sid (participants (video_call room)) in
        set_room room_id (set_participants ps room)) >>
      let* room := room_at room_id in
      when (length (participants (video_call room)) =? 0) (
        set_room room_id (set_active false room) >>
        add_system_message room_id "Video call ended" >>
        SocketIO.emit video_call_ended (to_room room_id None)) >>
      SocketIO.emit (user_left_call sid username) (to_room room_id None) >>
      add_system_message room_id (username +:+ " left the video call") >>
      let* timestamp := get_timestamp in
      SocketIO.emit
        (new_message (system_msg (username +:+ " left the video call") timestamp))
        (to_room room_id None))
  (fun e =>
    SocketIO.emit (error ("Failed to leave video call: " +:+ e)) (to_sid sid)).

(** [emit(..., room=target_peer)]: without a target the event goes back to
    the session of the request. *)
Definition peer_target (sid : string) (data : Data) : Target :=
  match k_target_peer data with
  | Some peer => to_room peer None
  | None => to_sid sid
  end.

Definition handle_webrtc_offer (sid : string) (data : Data) : M unit :=
  try_except
    (SocketIO.emit (webrtc_offer (k_offer data) sid) (peer_target sid data))
    (fun _ => ret tt).

Definition handle_webrtc_answer (sid : string) (data : Data) : M unit :=
  try_except
    (SocketIO.emit (webrtc_answer (k_answer data) sid) (peer_target sid data))
    (fun _ => ret tt).

Definition handle_ice_candidate (sid : string) (data : Data) : M unit :=
  try_except
    (SocketIO.emit (webrtc_ice_candidate (k_candidate data) sid)
                   (peer_target sid data))
    (fun _ => ret tt).

(** *** Operations *)

(** The inbound events, named after the argument of [@socketio.on]. *)
Inductive Op : Type :=
| on_connect
| on_disconnect
| on_create_room (data : Data)
| on_join_room (data : Data)
| on_leave_room (data : Data)
| on_send_message (data : Data)
| on_send_voice_note (data : Data)
| on_start_video_call (data : Data)
| on_join_video_call (data : Data)
| on_leave_video_call (data : Data)
| on_webrtc_offer (data : Data)
| on_webrtc_answer (data : Data)
| on_webrtc_ice_candidate (data : Data).

Definition handler (fuel : nat) (sid : string) (op : Op) : M unit :=
  match op with
  | on_connect => handle_connect sid
  | on_disconnect => handle_disconnect sid
  | on_create_room data => handle_create_room fuel sid data
  | on_join_room data => handle_join_room sid data
  | on_leave_room data => handle_leave_room sid data
  | on_send_message data => handle_send_message sid data
  | on_send_voice_note data => handle_send_voice_note sid data
  | on_start_video_call data => handle_start_video_call sid data
  | on_join_video_call data => handle_join_video_call sid data
  | on_leave_video_call data => handle_leave_video_call sid data
  | on_webrtc_offer data => handle_webrtc_offer sid data
  | on_webrtc_answer data => handle_webrtc_answer sid data
  | on_webrtc_ice_candidate data => handle_ice_candidate sid data
  end.

(** One inbound event of the session [sid], served to its end: the world
    it leaves and the events it emitted.  [None]: the loop of
    [handle_create_room] needs more than [fuel] draws.  An exception that
    leaves a handler is logged by the library and changes nothing more. *)
Definition exec (fuel : nat) (sid : string) (op : Op) (w : World)
  : option (World * list Event) :=
  match handler fuel sid op w with
  | (OutOfFuel, _, _) => None
  | (_, w', out) =>
      Some (match op with
            | on_disconnect => SocketIO.close sid w'
            | _ => w'
            end, out)
  end.

(** A sequence of inbound events, each with its session. *)
Fixpoint run (fuel : nat) (ops : list (string * Op)) (w : World)
  : option (World * list Event) :=
  match ops with
  | [] => Some (w, [])
  | (sid, op) :: ops' =>
      match exec fuel sid op w with
      | Some (w1, out1) =>
          match run fuel ops' w1 with
          | Some (w2, out2) => Some (w2, out1 ++ out2)
          | None => None
          end
      | None => None
      end
  end.

(** The worlds the server can be in. *)
Inductive reachable : World -> Prop :=
| reachable_initial : reachable initial_world
| reachable_exec fuel sid op w w' out :
    reachable w -> exec fuel sid op w = Some (w', out) -> reachable w'.

End Handlers.

Arguments get_room_id : simpl never.
Arguments max_voice_note_size : simpl never.

(* ===================================================================== *)
(** ** What a handler does to one room

    The room a handler leaves behind, written out as a function of the room
    it found.  The lemmas of the next part show that the handlers compute
    exactly these. *)

(** [add_system_message] on a room that exists. *)
Definition add_line (line timestamp : string) (room : Room) : Room :=
  set_messages (messages room ++ [system_msg line timestamp]) room.

(** The session taken out of the call, when it is in it. *)
Definition prune_participant (sid : string) (room : Room) : Room :=
  let ps := participants (video_call room) in
  if Py.contains sid ps
  then set_participants (default ps (Py.remove sid ps)) room
  else room.

(** The session taken out of the members, when it is one. *)
Definition drop_user (sid : string) (room : Room) : Room :=
  if Py.dict_mem sid (users room)
  then set_users (default (users room) (Py.dict_del sid (users room))) room
  else room.

(** The name under which a departure is announced. *)
Definition display_name (sid : string) (room : Room) : string :=
  default "Unknown User" (Py.dict_get sid (users room)).

Definition room_after_join (sid name timestamp : string) (room : Room) : Room :=
  add_line (name +:+ " has joined the room") timestamp
    (set_users (Py.dict_set sid name (users room)) room).

Definition room_after_leave (sid timestamp : string) (room : Room) : Room :=
  add_line (display_name sid room +:+ " has left the room") timestamp
    (drop_user sid (prune_participant sid room)).

Definition room_after_call_start (sid name timestamp : string) (room : Room)
  : Room :=
  add_line (name +:+ " started a video call") timestamp
    (set_participants (participants (video_call room) ++ [sid])
       (set_active true room)).

(** The session put in the call, unless it is in it. *)
Definition add_participant (sid : string) (room : Room) : Room :=
  let ps := participants (video_call room) in
  if Py.contains sid ps then room else set_participants (ps ++ [sid]) room.

Definition room_after_call_join (sid name timestamp : string) (room : Room)
  : Room :=
  add_line (name +:+ " joined the video call") timestamp
    (add_participant sid room).

(** The call closed when nobody is left in it. *)
Definition call_drained (room : Room) : bool :=
  length (participants (video_call room)) =? 0.

Definition end_call_if_drained (timestamp : string) (room : Room) : Room :=
  if call_drained room
  then add_line "Video call ended" timestamp (set_active false room)
  else room.

(** [t0]: the clock when the handler starts. *)
Definition room_after_call_leave (now : nat -> string) (t0 : nat)
    (sid name : string) (room : Room) : Room :=
  let room1 := prune_participant sid room in
  let t1 := if call_drained room1 then S t0 else t0 in
  add_line (name +:+ " left the video call") (now t1)
    (end_call_if_drained (now t0) room1).

(** The world with [n] more readings of the clock made. *)
Definition tick (n : nat) (w : World) : World :=
  {| active_rooms := active_rooms w; sio_rooms := sio_rooms w;
     clock_reads := n + clock_reads w; uuid_draws := uuid_draws w |}.

(** The world with [room] stored under [room_id]. *)
Definition store (room_id : string) (room : Room) (w : World) : World :=
  set_active_rooms (<[room_id := room]> (active_rooms w)) w.

(** The world without the room [room_id]. *)
Definition discard (room_id : string) (w : World) : World :=
  set_active_rooms (delete room_id (active_rooms w)) w.

(** The world with the room, or without it once it has no member. *)
Definition store_or_discard (room_id : string) (room : Room) (w : World)
  : World :=
  if length (users room) =? 0 then discard room_id w else store room_id room w.

Definition to_requester (sid : string) (body : Payload) : Event :=
  {| ev_body := body; ev_to := to_sid sid |}.

Definition to_all (room_id : string) (body : Payload) : Event :=
  {| ev_body := body; ev_to := to_room room_id None |}.

Definition to_others (room_id sid : string) (body : Payload) : Event :=
  {| ev_body := body; ev_to := to_room room_id (Some sid) |}.

(** The answer of the guards [room_id not in active_rooms or request.sid
    not in active_rooms[room_id]['users']]. *)
Definition not_in_room_error (sid : string) : Event :=
  to_requester sid (error "You are not in this room").

(** The session is a member of the room: the room is in the store and the
    session is a key of its ['users']. *)
Definition member (w : World) (sid room_id : string) : Prop :=
  ∃ room, active_rooms w !! room_id = Some room ∧
          Py.dict_mem sid (users room) = true.

(** What leaving the call announces to the room. *)
Definition call_left_events (sid room_id : string) (room : Room) : list Event :=
  if Py.contains sid (participants (video_call room))
  then [to_all room_id (user_left_call sid (display_name sid room))]
  else [].

(** The world with [n] more identifiers drawn. *)
Definition draw (n : nat) (w : World) : World :=
  {| active_rooms := active_rooms w; sio_rooms := sio_rooms w;
     clock_reads := clock_reads w; uuid_draws := n + uuid_draws w |}.

(* ===================================================================== *)
(** ** Observations *)

(** The history of a room id: the ['messages'] of its room, nothing when the
    store has no such room. *)
Definition history (w : World) (room_id : string) : list Message :=
  match active_rooms w !! room_id with
  | Some room => messages room
  | None => []
  end.

(** An event sent to [t] is addressed to the socket.io room [room_id]
    without skipping the session [sid], or to the session [sid] alone. *)
Definition addressed (sid room_id : string) (t : Target) : bool :=
  match t with
  | to_sid s => bool_decide (s = sid)
  | to_room r skip => bool_decide (r = room_id) && bool_decide (skip ≠ Some sid)
  end.

(** The payloads of the [new_message] events among [out] that are addressed
    to the room (or to the session alone), in the order they were emitted. *)
Definition room_news (sid room_id : string) (out : list Event) : list Message :=
  omap (fun e =>
          match ev_body e with
          | new_message m =>
              if addressed sid room_id (ev_to e) then Some m else None
          | _ => None
          end) out.

(** An event sent to [t] is delivered to the session [sid] when the socket.io
    membership is that of [w]: an event for one session goes to that session,
    an event for a room to every session sitting in it, [skip_sid] apart.  A
    session sits in the room of its own name and in the rooms it entered. *)
Definition delivered (w : World) (sid : string) (t : Target) : bool :=
  match t with
  | to_sid s => bool_decide (s = sid)
  | to_room r skip =>
      Py.contains r (sid :: default [] (sio_rooms w !! sid)) &&
      bool_decide (skip ≠ Some sid)
  end.

(** The [new_message] payloads among [out] that are delivered to the session
    [sid], in the order they were emitted: what its client is handed.  [w] is
    the world the handler started from; a handler that emits [new_message]
    leaves the membership as it found it. *)
Definition inbox (w : World) (sid : string) (out : list Event) : list Message :=
  omap (fun e =>
          match ev_body e with
          | new_message m =>
              if delivered w sid (ev_to e) then Some m else None
          | _ => None
          end) out.

(** [room_id] is the one room of the store the session hears: the session
    sits in its socket.io room, and no other socket.io room it sits in bears
    the name of a room of the store. *)
Definition hears_only (w : World) (sid room_id : string) : bool :=
  let mine := sid :: default [] (sio_rooms w !! sid) in
  Py.contains room_id mine &&
  forallb (fun r => bool_decide (r = room_id) ||
                    match active_rooms w !! r with
                    | Some _ => false
                    | None => true
                    end) mine.

(** The room [room_id] is not taken out of the store between [w] and [w']. *)
Definition kept (room_id : string) (w w' : World) : bool :=
  match active_rooms w !! room_id, active_rooms w' !! room_id with
  | Some _, None => false
  | _, _ => true
  end.

(** An event that is no [new_message]. *)
Definition silent (e : Event) : Prop :=
  match ev_body e with new_message _ => False | _ => True end.

(** A [new_message] goes to the whole socket.io room of a room of the
    store. *)
Definition from_room (w : World) (e : Event) : Prop :=
  match ev_body e with
  | new_message _ => ∃ r, ev_to e = to_room r None ∧ is_Some (active_rooms w !! r)
  | _ => True
  end.

(** The entry with its ['timestamp'] blanked. *)
Definition without_timestamp (m : Message) : Message :=
  match m with
  | system_msg line _ => system_msg line ""
  | text_msg u body _ s => text_msg u body "" s
  | voice_msg u a d _ s => voice_msg u a d "" s
  end.

(** The lines [add_system_message] writes when somebody joins or leaves the
    video call. *)
Definition call_line (line : string) : bool :=
  Py.endswith line " joined the video call" ||
  Py.endswith line " left the video call".

(** The entries of a history that go out as [new_message]: what the members
    wrote, and the call lines. *)
Definition announced (m : Message) : bool :=
  match m with
  | system_msg line _ => call_line line
  | _ => true
  end.

Definition written_by_member (m : Message) : bool :=
  match message_type m with system => false | _ => true end.

(** [news] is what is sent to the room as [new_message] while [entries] are
    appended to the history: the entries that are announced, in order, up to
    the timestamp (a call line is stamped once for the history and once more
    for the event); what the members wrote goes out as it is stored. *)
Definition echo (news entries : list Message) : Prop :=
  without_timestamp <$> news = without_timestamp <$> filter announced entries ∧
  filter written_by_member news = filter written_by_member entries.

(** ** Invariants *)

(** [active == (len(participants) > 0)] *)
Definition call_flag_consistent (room : Room) : Prop :=
  active (video_call room) = negb (length (participants (video_call room)) =? 0).

(** [participants] is a set, and a subset of the keys of [users]. *)
Definition participants_are_members (room : Room) : Prop :=
  NoDup (participants (video_call room)) ∧
  ∀ sid, sid ∈ participants (video_call room) → sid ∈ Py.dict_keys (users room).

(** The lower-cased display names of a room. *)
Definition lowered_names {lib : StrLib} (room : Room) : list string :=
  str_lower <$> Py.dict_values (users room).

(** Display names pairwise distinct once lower-cased by [str.lower]. *)
Definition names_distinct {lib : StrLib} (room : Room) : Prop := NoDup (lowered_names room).

Definition all_names_distinct {lib : StrLib} (w : World) : Prop :=
  ∀ room_id room, active_rooms w !! room_id = Some room → names_distinct room.

(** Every room of the store has a member. *)
Definition all_rooms_populated (w : World) : Prop :=
  ∀ room_id room, active_rooms w !! room_id = Some room → users room ≠ [].

(* ===================================================================== *)
(** ** The room state machine

    What one inbound event of the session [sid] can do to the room stored
    under one id, and which [new_message] payloads it sends to that room. *)

(** [handle_disconnect] visits a room once for each time it occurs in
    [rooms()]. *)
Inductive leave_steps (sid : string) : option Room → option Room → Prop :=
| leave_steps_done o : leave_steps sid o o
| leave_steps_last room ts :
    length (users (room_after_leave sid ts room)) = 0 →
    leave_steps sid (Some room) None
| leave_steps_more room ts o :
    length (users (room_after_leave sid ts room)) ≠ 0 →
    leave_steps sid (Some (room_after_leave sid ts room)) o →
    leave_steps sid (Some room) o.

Section Effect.
Context {lib : StrLib}.

Variable now : nat -> string.

Inductive effect (sid room_id : string)
  : Op → option Room → option Room → list Message → Prop :=
| effect_none op o : effect sid room_id op o o []
| effect_create data :
    effect sid room_id (on_create_room data) None (Some new_room) []
| effect_join data o name ts :
    get_room_id data = room_id → room_id ≠ "" →
    name ≠ "" →
    str_lower name ∉ lowered_names (default new_room o) →
    effect sid room_id (on_join_room data) o
      (Some (room_after_join sid name ts (default new_room o))) []
| effect_leave data room ts :
    length (users (room_after_leave sid ts room)) ≠ 0 →
    effect sid room_id (on_leave_room data) (Some room)
      (Some (room_after_leave sid ts room)) []
| effect_leave_last data room ts :
    length (users (room_after_leave sid ts room)) = 0 →
    effect sid room_id (on_leave_room data) (Some room) None []
| effect_disconnect o o' :
    leave_steps sid o o' → effect sid room_id on_disconnect o o' []
| effect_text data room name body ts :
    let m := text_msg name body ts sid in
    effect sid room_id (on_send_message data) (Some room)
      (Some (set_messages (messages room ++ [m]) room)) [m]
| effect_voice data room name audio duration ts :
    let m := voice_msg name audio duration ts sid in
    effect sid room_id (on_send_voice_note data) (Some room)
      (Some (set_messages (messages room ++ [m]) room)) [m]
| effect_call_start data room name ts :
    effect sid room_id (on_start_video_call data) (Some room)
      (Some (room_after_call_start sid name ts room)) []
| effect_call_join data room name ts ts' :
    effect sid room_id (on_join_video_call data) (Some room)
      (Some (room_after_call_join sid name ts room))
      [system_msg (name +:+ " joined the video call") ts']
| effect_call_leave data room name t0 ts' :
    effect sid room_id (on_leave_video_call data) (Some room)
      (Some (room_after_call_leave now t0 sid name room))
      [system_msg (name +:+ " left the video call") ts'].

End Effect.

(** What the room state machine does to the members of a room: it leaves
    them, takes some out, or puts one in under a name that is not empty and
    was not taken. *)
Inductive members_step {lib : StrLib} (r : string) (room : Room) : Room → Prop :=
| members_fewer room' :
    users room' `sublist_of` users room → members_step r room room'
| members_more sid name ts :
    r ≠ "" → name ≠ "" → str_lower name ∉ lowered_names room →
    members_step r room (room_after_join sid name ts room).

(** A run of the server during which the session [sid] hears the room
    [room_id] only and the room, once in the store, is never taken out of it:
    the world it ends in and the [new_message] payloads delivered to the
    session on the way.  [None] when the run leaves these bounds, or when
    [handle_create_room] runs out of fuel. *)
Fixpoint heard {lib : StrLib} (now uuid4 : nat → string) (fuel : nat)
    (sid room_id : string) (ops : list (string * Op)) (w : World)
  : option (World * list Message) :=
  match ops with
  | [] => Some (w, [])
  | (s, op) :: ops' =>
      if hears_only w sid room_id then
        match exec now uuid4 fuel s op w with
        | Some (w1, out1) =>
            if kept room_id w w1 then
              match heard now uuid4 fuel sid room_id ops' w1 with
              | Some (w2, news) => Some (w2, inbox w sid out1 ++ news)
              | None => None
              end
            else None
        | None => None
        end
      else None
  end.

(** What holds of every room of a world the server can reach: its display
    names are distinct and not empty, and a room with members has a name. *)
Definition room_ok {lib : StrLib} (room_id : string) (room : Room) : Prop :=
  names_distinct room ∧
  Forall (fun name => name ≠ "") (Py.dict_values (users room)) ∧
  (users room ≠ [] → room_id ≠ "").

Definition all_rooms_ok {lib : StrLib} (w : World) : Prop :=
  ∀ room_id room, active_rooms w !! room_id = Some room → room_ok room_id room.

(** The room a join builds when the store has none under that id, with the
    line of the join in its history. *)
Definition fresh_room (sid name timestamp : string) : Room :=
  {| users := [(sid, name)];
     messages := [system_msg (name +:+ " has joined the room") timestamp];
     video_call := {| active := false; participants := [] |} |}.


(* ===================================================================== *)
(** ** Further notions

    Room ids as [generate_room_id] makes them, the room an operation names,
    what an operation may send, and what holds of the sessions of a room. *)

(** The room id made of the [n]-th identifier drawn: what
    [generate_room_id] returns at its [n]-th call. *)
Definition candidate {lib : StrLib} (uuid4 : nat → string) (n : nat) : string :=
  str_upper (Py.take 6 (uuid4 n)).

(** No character of the text is white space. *)
Fixpoint no_whitespace (s : string) : bool :=
  match s with
  | EmptyString => true
  | String c s' => negb (Py.isspace c) && no_whitespace s'
  end.

(** The operations that change who is in a room. *)
Definition changes_members (op : Op) : bool :=
  match op with
  | on_join_room _ | on_leave_room _ | on_disconnect => true
  | _ => false
  end.

(** The room an operation names in its payload. *)
Definition named_room {lib : StrLib} (op : Op) : option string :=
  match op with
  | on_join_room data | on_leave_room data | on_send_message data
  | on_send_voice_note data | on_start_video_call data
  | on_join_video_call data | on_leave_video_call data =>
      Some (get_room_id data)
  | _ => None
  end.

(** The messages of the [error] events the handlers send when no exception
    is raised. *)
Definition request_errors : list string :=
  ["Room ID is required"; "Username is required";
   "Username already taken in this room"; "You are not in this room";
   "No audio data received"; "Voice note too large (max 5MB)"].

(** An event of an operation of [sid] on the room [room_id] stays with them:
    it goes to the requester or to that room, and an error goes to the
    requester and is one of [request_errors]. *)
Definition stays_within (sid room_id : string) (e : Event) : Prop :=
  match ev_body e with
  | error message => ev_to e = to_sid sid ∧ message ∈ request_errors
  | _ => ev_to e = to_sid sid ∨ ∃ skip, ev_to e = to_room room_id skip
  end.


(** What [connect] and the three WebRTC relays send: nothing, or the one
    event forwarded to the peer with the [peer_id] of the sender. *)
Definition signal (sid : string) (op : Op) : option (list Event) :=
  match op with
  | on_connect => Some []
  | on_webrtc_offer data =>
      Some [{| ev_body := webrtc_offer (k_offer data) sid;
               ev_to := peer_target sid data |}]
  | on_webrtc_answer data =>
      Some [{| ev_body := webrtc_answer (k_answer data) sid;
               ev_to := peer_target sid data |}]
  | on_webrtc_ice_candidate data =>
      Some [{| ev_body := webrtc_ice_candidate (k_candidate data) sid;
               ev_to := peer_target sid data |}]
  | _ => None
  end.

(** The keys of ['users'] occur once each. *)
Definition keys_distinct (room : Room) : Prop :=
  NoDup (Py.dict_keys (users room)).

(** Every member of a room sits in the socket.io room of that name; a room
    named like the session itself is set apart, as [handle_disconnect] sets
    it apart. *)
Definition members_sit (w : World) : Prop :=
  ∀ s r room, r ≠ s → active_rooms w !! r = Some room →
    Py.dict_mem s (users room) = true → r ∈ default [] (sio_rooms w !! s).

Definition sessions_ok (w : World) : Prop :=
  (∀ r room, active_rooms w !! r = Some room → keys_distinct room) ∧
  members_sit w.

(* ===================================================================== *)
(** ** Sample runs *)

(** The string library of the sample runs, whose text is ASCII. *)
Definition map_chars_empty (f : ascii -> ascii) (s : string)
  : Py.map_chars f s = "" -> s = "" :=
  match s with
  | EmptyString => fun _ => eq_refl
  | String c s' => fun H => match H in _ = t return
                              match t with EmptyString => _ | String _ _ => True end
                            with eq_refl => I end
  end.

#[global] Instance ascii_text : StrLib := {|
  str_strip := Py.strip;
  str_upper := Py.upper;
  str_lower := Py.lower;
  str_strip_ascii := fun _ _ => eq_refl;
  str_upper_ascii := fun _ _ => eq_refl;
  str_lower_ascii := fun _ _ => eq_refl;
  str_upper_empty := map_chars_empty Py.upper_char;
  str_lower_empty := map_chars_empty Py.lower_char
|}.

(** A clock that turns from 09:59 to 10:00 at its sixth reading, and a
    generator that keeps drawing the same identifier. *)
Definition sample_clock (n : nat) : string :=
  if n <? 5 then "09:59" else "10:00".

Definition sample_uuid4 (n : nat) : string :=
  "3f9a1c2e-7b64-4d0a-9c1f-5e2b8a7d6c3f".

Definition join_data (room_id username : string) : Data :=
  {| k_room_id := Some room_id; k_username := Some username;
     k_message := None; k_audio_data := None; k_duration := None;
     k_target_peer := None; k_offer := None; k_answer := None;
     k_candidate := None |}.

Definition room_data (room_id : string) : Data :=
  {| k_room_id := Some room_id; k_username := None;
     k_message := None; k_audio_data := None; k_duration := None;
     k_target_peer := None; k_offer := None; k_answer := None;
     k_candidate := None |}.

Definition message_data (room_id body : string) : Data :=
  {| k_room_id := Some room_id; k_username := None;
     k_message := Some body; k_audio_data := None; k_duration := None;
     k_target_peer := None; k_offer := None; k_answer := None;
     k_candidate := None |}.

Definition voice_data (room_id audio : string) (seconds : Z) : Data :=
  {| k_room_id := Some room_id; k_username := None;
     k_message := None; k_audio_data := Some audio;
     k_duration := Some seconds;
     k_target_peer := None; k_offer := None; k_answer := None;
     k_candidate := None |}.

(** The world after the events [ops], served from the start of the server. *)
Definition world_after (ops : list (string * Op)) : World :=
  match run sample_clock sample_uuid4 0 ops initial_world with
  | Some (w, _) => w
  | None => initial_world
  end.

(** The events emitted while serving [ops] from the start of the server. *)
Definition events_of (ops : list (string * Op)) : list Event :=
  match run sample_clock sample_uuid4 0 ops initial_world with
  | Some (_, out) => out
  | None => []
  end.

(** A text of [n] copies of a character. *)
Fixpoint replicate_char (n : nat) (c : ascii) : string :=
  match n with
  | 0 => EmptyString
  | S n' => String c (replicate_char n' c)
  end.

(** Alice alone in the room DEN. *)
Definition alice_in_den : list (string * Op) :=
  [("A", on_join_room (join_data " den " "alice"))].

(** Alice and Bob in the room DEN. *)
Definition alice_and_bob_in_den : list (string * Op) :=
  alice_in_den ++ [("B", on_join_room (join_data "DEN" "bob"))].

(** Alice and Bob join DEN, Alice writes, Bob joins the call. *)
Definition an_evening_in_den : list (string * Op) :=
  alice_and_bob_in_den ++
  [("A", on_send_message (message_data "den" " hello "));
   ("B", on_join_video_call (room_data "den"))].

(** Alice starts a call in DEN and leaves the room; Alice joins a call nobody
    started; Alice starts a call twice, and then leaves the room; Alice
    leaves a call once, and once more. *)
Definition call_started_then_left_room : list (string * Op) :=
  alice_and_bob_in_den ++
  [("A", on_start_video_call (room_data "den"));
   ("A", on_leave_room (room_data "den"))].
Definition call_joined_unstarted : list (string * Op) :=
  alice_in_den ++ [("A", on_join_video_call (room_data "den"))].
Definition call_started_twice : list (string * Op) :=
  alice_and_bob_in_den ++
  [("A", on_start_video_call (room_data "den"));
   ("A", on_start_video_call (room_data "den"))].
Definition call_started_twice_then_left_room : list (string * Op) :=
  call_started_twice ++ [("A", on_leave_room (room_data "den"))].
Definition left_call_once : list (string * Op) :=
  alice_in_den ++
  [("A", on_start_video_call (room_data "den"));
   ("A", on_leave_video_call (room_data "den"))].
Definition left_call_twice : list (string * Op) :=
  left_call_once ++ [("A", on_leave_video_call (room_data "den"))].

(** A generator whose first identifier differs from all the later ones. *)
Definition fresh_then_same_uuid4 (n : nat) : string :=
  if n =? 0 then "3f9a1c2e-7b64-4d0a-9c1f-5e2b8a7d6c3f"
  else "b07d44e1-02aa-4c55-8f10-6d2e9b3c7a11".

(** A voice note that does not tell its duration. *)
Definition untimed_voice_data (room_id audio : string) : Data :=
  {| k_room_id := Some room_id; k_username := None;
     k_message := None; k_audio_data := Some audio; k_duration := None;
     k_target_peer := None; k_offer := None; k_answer := None;
     k_candidate := None |}.

(** Alice and Bob in DEN, a call started by Alice. *)
Definition call_started_in_den : list (string * Op) :=
  alice_and_bob_in_den ++ [("A", on_start_video_call (room_data "den"))].

(** The room DEN after [call_started_in_den]. *)
Definition den_with_call : Room :=
  {| users := [("A", "alice"); ("B", "bob")];
     messages :=
       [system_msg "alice has joined the room" "09:59";
        system_msg "bob has joined the room" "09:59";
        system_msg "alice started a video call" "09:59"];
     video_call := {| active := true; participants := ["A"] |} |}.

(** The room DEN after [alice_and_bob_in_den]. *)
Definition den_of_two : Room :=
  {| users := [("A", "alice"); ("B", "bob")];
     messages :=
       [system_msg "alice has joined the room" "09:59";
        system_msg "bob has joined the room" "09:59"];
     video_call := {| active := false; participants := [] |} |}.


(** An offer for the session [peer]. *)
Definition offer_data (peer offer : string) : Data :=
  {| k_room_id := None; k_username := None;
     k_message := None; k_audio_data := None; k_duration := None;
     k_target_peer := Some peer; k_offer := Some offer; k_answer := None;
     k_candidate := None |}.

(* ===================================================================== *)
(** ** Facts about the Python primitives *)

Lemma contains_true x l : Py.contains x l = true ↔ x ∈ l.
Proof. unfold Py.contains. apply bool_decide_eq_true. Qed.

Lemma contains_false x l : Py.contains x l = false ↔ x ∉ l.
Proof. unfold Py.contains. apply bool_decide_eq_false. Qed.

Lemma remove_is_Some x l : x ∈ l → is_Some (Py.remove x l).
Proof.
  induction l as [|y l IH]; intros Hin; [by apply elem_of_nil in Hin|].
  simpl. destruct (decide (y = x)) as [->|Hne]; [eauto|].
  apply elem_of_cons in Hin as [->|Hin]; [done|].
  destruct (IH Hin) as [r ->]. eauto.
Qed.

Lemma dict_mem_true {V} k (d : Py.dict V) :
  Py.dict_mem k d = true ↔ is_Some (Py.dict_get k d).
Proof.
  unfold Py.dict_mem. destruct (Py.dict_get k d); split; intros H; eauto; done.
Qed.

Lemma dict_del_is_Some {V} k (d : Py.dict V) :
  is_Some (Py.dict_get k d) → is_Some (Py.dict_del k d).
Proof.
  induction d as [|[k' v] d IH]; simpl; intros H; [by destruct H|].
  destruct (decide (k' = k)); [eauto|].
  destruct (IH H) as [r ->]. eauto.
Qed.

Lemma string_app_cons x (a b : string) : String x a +:+ b = String x (a +:+ b).
Proof. reflexivity. Qed.

Lemma string_app_nil_r (a : string) : a +:+ "" = a.
Proof. induction a as [|x a IH]; [done|]. by rewrite string_app_cons, IH. Qed.

Lemma string_app_assoc (a b c : string) : (a +:+ b) +:+ c = a +:+ (b +:+ c).
Proof. induction a as [|x a IH]; [done|]. by rewrite !string_app_cons, IH. Qed.

Lemma rev_app_spec s1 : ∀ s2, String.rev_app s1 s2 = String.rev s1 +:+ s2.
Proof.
  unfold String.rev. induction s1 as [|a s1 IH]; intros s2; [done|].
  cbn [String.rev_app].
  rewrite (IH (String a s2)), (IH (String a "")).
  by rewrite string_app_assoc.
Qed.

Lemma rev_app_string s1 s2 :
  String.rev (s1 +:+ s2) = String.rev s2 +:+ String.rev s1.
Proof.
  revert s2. induction s1 as [|a s1 IH]; intros s2.
  - by rewrite string_app_nil_r.
  - rewrite string_app_cons. unfold String.rev at 1 3. cbn [String.rev_app].
    rewrite !rev_app_spec, IH. by rewrite string_app_assoc.
Qed.

Ltac decide_suffix :=
  unfold call_line, Py.endswith; rewrite ?rev_app_string;
  vm_compute; reflexivity.

Lemma joined_room_is_no_call_line name :
  call_line (name +:+ " has joined the room") = false.
Proof. decide_suffix. Qed.

Lemma left_room_is_no_call_line name :
  call_line (name +:+ " has left the room") = false.
Proof. decide_suffix. Qed.

Lemma call_started_is_no_call_line name :
  call_line (name +:+ " started a video call") = false.
Proof. decide_suffix. Qed.

Lemma call_ended_is_no_call_line : call_line "Video call ended" = false.
Proof. reflexivity. Qed.

Lemma joined_call_is_call_line name :
  call_line (name +:+ " joined the video call") = true.
Proof. decide_suffix. Qed.

Lemma left_call_is_call_line name :
  call_line (name +:+ " left the video call") = true.
Proof. decide_suffix. Qed.

(* ===================================================================== *)
(** ** Running a handler *)

Ltac use_facts :=
  repeat match goal with
  | H : ?x = Some _ |- context [?x] => rewrite H
  | H : ?x = None |- context [?x] => rewrite H
  | H : ?x = true |- context [?x] => rewrite H
  | H : ?x = false |- context [?x] => rewrite H
  end.

Ltac unfold_monad :=
  unfold try_except, is_member, add_system_message, when, bind, ret, raise,
    subscript, list_remove, in_active_rooms, room_at, set_room, del_room, get_timestamp,
    SocketIO.emit, SocketIO.join_room, SocketIO.leave_room, SocketIO.rooms.

Ltac simulate :=
  unfold_monad;
  repeat (progress (cbn; use_facts; rewrite ?lookup_insert_eq, ?insert_insert_eq)).

Lemma falsy_false s : s ≠ "" → Py.falsy s = false.
Proof. by destruct s. Qed.

Lemma bind_run {A B} (m : M A) (k : A → M B) w :
  bind m k w =
  match m w with
  | (Ok a, w1, o1) => match k a w1 with (r, w2, o2) => (r, w2, o1 ++ o2) end
  | (Raise e, w1, o1) => (Raise e, w1, o1)
  | (OutOfFuel, w1, o1) => (OutOfFuel, w1, o1)
  end.
Proof. reflexivity. Qed.

Lemma try_except_run body handler w :
  try_except body handler w =
  match body w with
  | (Raise e, w1, o1) =>
      match handler e w1 with (r, w2, o2) => (r, w2, o1 ++ o2) end
  | other => other
  end.
Proof. reflexivity. Qed.

Section HandlerFacts.
Context {lib : StrLib}.
Variable now : nat -> string.
Variable uuid4 : nat -> string.

Lemma send_message_blank sid data w :
  str_strip (default "" (k_message data)) = "" →
  handle_send_message now sid data w = (Ok tt, w, []).
Proof. intros H. unfold handle_send_message. rewrite H. reflexivity. Qed.

Lemma is_member_stranger sid r w :
  ¬ member w sid r → is_member sid r w = (Ok false, w, []).
Proof.
  intros H. unfold member in H.
  destruct (active_rooms w !! r) as [room|] eqn:Hr.
  - destruct (Py.dict_mem sid (users room)) eqn:Hm; [destruct H; eauto|].
    by simulate.
  - by simulate.
Qed.

Lemma is_member_member sid r w :
  member w sid r → is_member sid r w = (Ok true, w, []).
Proof. intros (room & Hr & Hm). by simulate. Qed.

Lemma send_message_stranger sid data w :
  str_strip (default "" (k_message data)) ≠ "" →
  ¬ member w sid (get_room_id data) →
  handle_send_message now sid data w = (Ok tt, w, [not_in_room_error sid]).
Proof.
  intros Hne Hs. unfold handle_send_message.
  destruct (str_strip (default "" (k_message data))); [done|].
  cbn [Py.falsy]. rewrite try_except_run, bind_run, is_member_stranger by done. reflexivity.
Qed.

Lemma send_message_member sid data w room name :
  str_strip (default "" (k_message data)) ≠ "" ->
  active_rooms w !! get_room_id data = Some room ->
  Py.dict_get sid (users room) = Some name ->
  handle_send_message now sid data w =
  let m := text_msg name (str_strip (default "" (k_message data))) (now (clock_reads w)) sid in
  (Ok tt,
   tick 1 (store (get_room_id data) (set_messages (messages room ++ [m]) room) w),
   [ to_all (get_room_id data) (new_message m)]).
Proof.
  intros Hne Hr Hn.
  assert (Hm : Py.dict_mem sid (users room) = true) by (apply dict_mem_true; eauto).
  unfold handle_send_message.
  destruct (str_strip (default "" (k_message data))) as [|c s] eqn:E; [done|].
  by simulate.
Qed.

Lemma voice_no_audio sid data w :
  k_audio_data data = None ∨ k_audio_data data = Some "" →
  handle_send_voice_note now sid data w =
  (Ok tt, w, [to_requester sid (error "No audio data received")]).
Proof. intros [H|H]; unfold handle_send_voice_note; rewrite H; reflexivity. Qed.

Lemma voice_stranger sid data w audio :
  k_audio_data data = Some audio → audio ≠ "" →
  ¬ member w sid (get_room_id data) →
  handle_send_voice_note now sid data w = (Ok tt, w, [not_in_room_error sid]).
Proof.
  intros Ha Hne Hs. unfold handle_send_voice_note. rewrite Ha.
  destruct audio; [done|].
  rewrite try_except_run, bind_run, is_member_stranger by done. reflexivity.
Qed.

Lemma voice_too_large sid data w audio :
  k_audio_data data = Some audio →
  member w sid (get_room_id data) →
  (Py.len audio > max_voice_note_size)%Z →
  handle_send_voice_note now sid data w =
  (Ok tt, w, [to_requester sid (error "Voice note too large (max 5MB)")]).
Proof.
  intros Ha Hm Hlen. unfold handle_send_voice_note. rewrite Ha.
  destruct audio as [|c audio]; [done|].
  rewrite try_except_run, bind_run, is_member_member by done.
  cbn [negb]. apply Z.gt_lt, Z.gtb_lt in Hlen. rewrite Hlen. reflexivity.
Qed.

Lemma voice_member sid data w room name audio :
  k_audio_data data = Some audio → audio ≠ "" →
  active_rooms w !! get_room_id data = Some room →
  Py.dict_get sid (users room) = Some name →
  (Py.len audio ≤ max_voice_note_size)%Z →
  handle_send_voice_note now sid data w =
  let m := voice_msg name audio (default 0%Z (k_duration data))
             (now (clock_reads w)) sid in
  (Ok tt,
   tick 1 (store (get_room_id data) (set_messages (messages room ++ [m]) room) w),
   [to_all (get_room_id data) (new_message m)]).
Proof.
  intros Ha Hne Hr Hn Hlen.
  assert (Hm : Py.dict_mem sid (users room) = true) by (apply dict_mem_true; eauto).
  assert (Hsz : (Py.len audio >? max_voice_note_size)%Z = false) by (rewrite Z.gtb_ltb; apply Z.ltb_ge; lia).
  unfold handle_send_voice_note. rewrite Ha.
  destruct audio as [|c audio]; [done|].
  remember (String c audio) as a.
  by simulate.
Qed.

Lemma start_video_call_stranger sid data w :
  ¬ member w sid (get_room_id data) →
  handle_start_video_call now sid data w = (Ok tt, w, [not_in_room_error sid]).
Proof.
  intros Hs. unfold handle_start_video_call.
  rewrite try_except_run, bind_run, is_member_stranger by done. reflexivity.
Qed.

Lemma start_video_call_member sid data w room name :
  active_rooms w !! get_room_id data = Some room →
  Py.dict_get sid (users room) = Some name →
  handle_start_video_call now sid data w =
  (Ok tt,
   tick 2 (store (get_room_id data)
             (room_after_call_start sid name (now (clock_reads w)) room) w),
   [to_all (get_room_id data)
      (video_call_started name sid (now (S (clock_reads w))))]).
Proof.
  intros Hr Hn.
  assert (Hm : Py.dict_mem sid (users room) = true) by (apply dict_mem_true; eauto).
  unfold handle_start_video_call. by simulate.
Qed.

Lemma join_video_call_stranger sid data w :
  ¬ member w sid (get_room_id data) →
  handle_join_video_call now sid data w = (Ok tt, w, [not_in_room_error sid]).
Proof.
  intros Hs. unfold handle_join_video_call.
  rewrite try_except_run, bind_run, is_member_stranger by done. reflexivity.
Qed.

Lemma join_video_call_member sid data w room name :
  active_rooms w !! get_room_id data = Some room →
  Py.dict_get sid (users room) = Some name →
  handle_join_video_call now sid data w =
  (Ok tt,
   tick 2 (store (get_room_id data)
             (room_after_call_join sid name (now (clock_reads w)) room) w),
   [to_requester sid
      (existing_participants (other_participants sid (add_participant sid room)));
    to_others (get_room_id data) sid (user_joined_call sid name);
    to_all (get_room_id data)
      (new_message (system_msg (name +:+ " joined the video call")
                      (now (S (clock_reads w)))))]).
Proof.
  intros Hr Hn.
  assert (Hm : Py.dict_mem sid (users room) = true) by (apply dict_mem_true; eauto).
  unfold handle_join_video_call, room_after_call_join, add_participant.
  destruct (Py.contains sid (participants (video_call room))) eqn:Hc; by simulate.
Qed.

Lemma leave_video_call_stranger sid data w :
  ¬ member w sid (get_room_id data) →
  handle_leave_video_call now sid data w = (Ok tt, w, []).
Proof.
  intros Hs. unfold handle_leave_video_call.
  rewrite try_except_run, bind_run, is_member_stranger by done. reflexivity.
Qed.

Lemma leave_video_call_member sid data w room name :
  active_rooms w !! get_room_id data = Some room →
  Py.dict_get sid (users room) = Some name →
  let r := get_room_id data in
  let t0 := clock_reads w in
  let drained := call_drained (prune_participant sid room) in
  let t1 := if drained then S t0 else t0 in
  handle_leave_video_call now sid data w =
  (Ok tt,
   tick (if drained then 3 else 2)
     (store r (room_after_call_leave now t0 sid name room) w),
   (if drained then [to_all r video_call_ended] else []) ++
   [to_all r (user_left_call sid name);
    to_all r (new_message (system_msg (name +:+ " left the video call")
                             (now (S t1))))]).
Proof.
  intros Hr Hn.
  assert (Hm : Py.dict_mem sid (users room) = true) by (apply dict_mem_true; eauto).
  unfold handle_leave_video_call, room_after_call_leave, end_call_if_drained,
    prune_participant, call_drained.
  destruct (Py.contains sid (participants (video_call room))) eqn:Hc.
  - destruct (remove_is_Some sid (participants (video_call room))) as [ps Hps];
      [by apply contains_true|].
    rewrite Hps. cbn [default].
    destruct (length (participants (video_call (set_participants ps room))) =? 0) eqn:Hd.
    + cbn in Hd. by simulate.
    + cbn in Hd. by simulate.
  - destruct (length (participants (video_call room)) =? 0) eqn:Hd; by simulate.
Qed.

Lemma join_room_no_room_id sid data w :
  get_room_id data = "" →
  handle_join_room now sid data w =
  (Ok tt, w, [to_requester sid (error "Room ID is required")]).
Proof. intros H. unfold handle_join_room. rewrite H. reflexivity. Qed.

Lemma join_room_no_username sid data w :
  get_room_id data ≠ "" →
  str_strip (default "Anonymous" (k_username data)) = "" →
  handle_join_room now sid data w =
  (Ok tt, w, [to_requester sid (error "Username is required")]).
Proof.
  intros Hr H. unfold handle_join_room. rewrite H.
  destruct (get_room_id data); [done|]. reflexivity.
Qed.

Lemma join_room_name_taken sid data w room :
  let name := str_strip (default "Anonymous" (k_username data)) in
  get_room_id data ≠ "" → name ≠ "" →
  active_rooms w !! get_room_id data = Some room →
  str_lower name ∈ str_lower <$> Py.dict_values (users room) →
  handle_join_room now sid data w =
  (Ok tt, w, [to_requester sid (error "Username already taken in this room")]).
Proof.
  intros name Hr Hn Hroom Hin. unfold handle_join_room. fold name.
  apply contains_true in Hin.
  rewrite (falsy_false _ Hr), (falsy_false _ Hn).
  by simulate.
Qed.

Lemma join_room_success sid data w :
  let r := get_room_id data in
  let name := str_strip (default "Anonymous" (k_username data)) in
  let room := default new_room (active_rooms w !! r) in
  let names := Py.dict_values (Py.dict_set sid name (users room)) in
  r ≠ "" → name ≠ "" →
  str_lower name ∉ str_lower <$> Py.dict_values (users room) →
  handle_join_room now sid data w =
  (Ok tt,
   tick 2 (store r (room_after_join sid name (now (clock_reads w)) room)
             (SocketIO.entered sid r w)),
   [to_requester sid
      (room_joined r name (messages room) names (active (video_call room)));
    to_others r sid (user_joined name (now (S (clock_reads w))) names)]).
Proof.
  intros r name room names Hr Hn Hin. unfold handle_join_room. fold name r.
  apply contains_false in Hin.
  rewrite (falsy_false _ Hr), (falsy_false _ Hn).
  subst room names.
  destruct (active_rooms w !! r) as [room|] eqn:Hroom; cbn in Hin |- *.
  - unfold SocketIO.entered. by simulate.
  - unfold SocketIO.entered. by simulate.
Qed.

Lemma leave_room_stranger sid data w :
  ¬ member w sid (get_room_id data) →
  handle_leave_room now sid data w = (Ok tt, w, []).
Proof.
  intros Hs. unfold handle_leave_room.
  rewrite try_except_run, bind_run, is_member_stranger by done. reflexivity.
Qed.

Lemma leave_room_member sid data w room name :
  let r := get_room_id data in
  let room' := room_after_leave sid (now (clock_reads w)) room in
  active_rooms w !! r = Some room →
  Py.dict_get sid (users room) = Some name →
  handle_leave_room now sid data w =
  (Ok tt,
   tick 2 (store_or_discard r room' (SocketIO.left sid r w)),
   call_left_events sid r room ++
   [to_all r (user_left name (now (S (clock_reads w)))
                (Py.dict_values (users room')));
    to_requester sid (left_room r)]).
Proof.
  intros r room' Hr Hn. subst r room'.
  assert (Hm : Py.dict_mem sid (users room) = true) by (apply dict_mem_true; eauto).
  destruct (dict_del_is_Some sid (users room)) as [us Hus]; [eauto|].
  unfold handle_leave_room, room_after_leave, call_left_events, store_or_discard,
    drop_user, prune_participant, display_name, SocketIO.left.
  rewrite Hn. cbn [default].
  destruct (Py.contains sid (participants (video_call room))) eqn:Hc.
  - destruct (remove_is_Some sid (participants (video_call room))) as [ps Hps];
      [by apply contains_true|].
    rewrite Hps. cbn [default users set_participants]. rewrite Hm, Hus.
    cbn [default users set_users add_line set_messages].
    destruct (length us =? 0) eqn:Hl; simulate; rewrite ?delete_insert_eq; done.
  - rewrite Hm, Hus.
    cbn [default users set_users add_line set_messages].
    destruct (length us =? 0) eqn:Hl; simulate; rewrite ?delete_insert_eq; done.
Qed.

Lemma leave_on_disconnect_absent sid r w :
  active_rooms w !! r = None →
  leave_on_disconnect now sid r w = (Ok tt, w, []).
Proof. intros Hr. unfold leave_on_disconnect. by simulate. Qed.

Lemma leave_on_disconnect_present sid r w room :
  let room' := room_after_leave sid (now (clock_reads w)) room in
  active_rooms w !! r = Some room →
  leave_on_disconnect now sid r w =
  (Ok tt,
   tick 2 (store_or_discard r room' w),
   call_left_events sid r room ++
   [to_all r (user_left (display_name sid room) (now (S (clock_reads w)))
                (Py.dict_values (users room')))]).
Proof.
  intros room' Hr. subst room'.
  unfold leave_on_disconnect, room_after_leave, call_left_events, store_or_discard,
    drop_user, prune_participant, display_name.
  destruct (Py.contains sid (participants (video_call room))) eqn:Hc.
  - destruct (remove_is_Some sid (participants (video_call room))) as [ps Hps];
      [by apply contains_true|].
    rewrite Hps. cbn [default users set_participants].
    destruct (Py.dict_mem sid (users room)) eqn:Hm.
    + destruct (dict_del_is_Some sid (users room)) as [us Hus]; [by apply dict_mem_true|].
      rewrite Hus. cbn [default users set_users add_line set_messages].
      destruct (length us =? 0) eqn:Hl; simulate; rewrite ?delete_insert_eq; done.
    + cbn [default users set_users add_line set_messages].
      destruct (length (users room) =? 0) eqn:Hl; simulate; rewrite ?delete_insert_eq; done.
  - destruct (Py.dict_mem sid (users room)) eqn:Hm.
    + destruct (dict_del_is_Some sid (users room)) as [us Hus]; [by apply dict_mem_true|].
      rewrite Hus. cbn [default users set_users add_line set_messages].
      destruct (length us =? 0) eqn:Hl; simulate; rewrite ?delete_insert_eq; done.
    + cbn [default users set_users add_line set_messages].
      destruct (length (users room) =? 0) eqn:Hl; simulate; rewrite ?delete_insert_eq; done.
Qed.

Lemma draw_0 w : draw 0 w = w.
Proof. by destruct w. Qed.

Lemma draw_draw n m w : draw n (draw m w) = draw (n + m) w.
Proof. unfold draw. cbn. f_equal. lia. Qed.

Lemma unique_room_id_spec fuel : ∀ r w res w' out,
  unique_room_id uuid4 fuel r w = (res, w', out) →
  out = [] ∧ (∃ n, w' = draw n w) ∧
  match res with
  | Ok r' => active_rooms w !! r' = None
  | Raise _ => False
  | OutOfFuel => True
  end.
Proof.
  induction fuel as [|fuel IH]; intros r w res w' out; cbn [unique_room_id];
    rewrite bind_run; unfold in_active_rooms;
    destruct (active_rooms w !! r) eqn:Hr; cbn.
  - intros [= <- <- <-]. split_and!; [done| |done]. exists 0. by rewrite draw_0.
  - intros [= <- <- <-]. split_and!; [done| |done]. exists 0. by rewrite draw_0.
  - unfold generate_room_id. cbn.
    change {| active_rooms := active_rooms w; sio_rooms := sio_rooms w;
              clock_reads := clock_reads w; uuid_draws := S (uuid_draws w) |}
      with (draw 1 w).
    destruct (unique_room_id uuid4 fuel _ _) as [[res1 w1] out1] eqn:Hu.
    apply IH in Hu as (-> & [n ->] & Hres).
    destruct res1; intros [= <- <- <-]; (split_and!; [done| |done]);
      exists (n + 1); by rewrite <- draw_draw.
  - intros [= <- <- <-]. split_and!; [done| |done]. exists 0. by rewrite draw_0.
Qed.

Lemma create_room_returns fuel sid data w w' out :
  exec now uuid4 fuel sid (on_create_room data) w = Some (w', out) →
  ∃ r n, active_rooms w !! r = None ∧
         w' = store r new_room (draw n w) ∧
         out = [to_requester sid (room_created r)].
Proof.
  unfold exec. cbn [handler]. unfold handle_create_room.
  rewrite try_except_run, !bind_run. unfold generate_room_id. cbn.
  change {| active_rooms := active_rooms w; sio_rooms := sio_rooms w;
            clock_reads := clock_reads w; uuid_draws := S (uuid_draws w) |}
    with (draw 1 w).
  rewrite bind_run.
  destruct (unique_room_id uuid4 fuel _ _) as [[res1 w1] out1] eqn:Hu.
  apply unique_room_id_spec in Hu as (-> & [n ->] & Hres).
  destruct res1 as [r| |]; [|done|done].
  cbn. intros [= <- <-]. exists r, (n + 1). split_and!; [done| |done].
  by rewrite <- draw_draw.
Qed.

(** *** Events that reach a room *)

Lemma room_news_app s r o1 o2 :
  room_news s r (o1 ++ o2) = room_news s r o1 ++ room_news s r o2.
Proof. unfold room_news. apply omap_app. Qed.

Lemma room_news_call_left s r sid r0 room :
  room_news s r (call_left_events sid r0 room) = [].
Proof. unfold call_left_events. by destruct (Py.contains _ _). Qed.

(** *** The loop of [handle_disconnect] *)

Lemma users_prune_participant sid room :
  users (prune_participant sid room) = users room.
Proof. unfold prune_participant. by destruct (Py.contains _ _). Qed.

Lemma messages_prune_participant sid room :
  messages (prune_participant sid room) = messages room.
Proof. unfold prune_participant. by destruct (Py.contains _ _). Qed.

Lemma messages_drop_user sid room :
  messages (drop_user sid room) = messages room.
Proof. unfold drop_user. by destruct (Py.dict_mem _ _). Qed.

Lemma messages_room_after_leave sid ts room :
  messages (room_after_leave sid ts room) =
  messages room ++ [system_msg (display_name sid room +:+ " has left the room") ts].
Proof.
  unfold room_after_leave. cbn.
  by rewrite messages_drop_user, messages_prune_participant.
Qed.

Lemma users_room_after_leave sid ts room :
  users (room_after_leave sid ts room) = users (drop_user sid room).
Proof.
  unfold room_after_leave, drop_user. cbn. rewrite users_prune_participant.
  destruct (Py.dict_mem _ _); cbn; by rewrite ?users_prune_participant.
Qed.

Lemma lookup_store r0 room w r :
  active_rooms (store r0 room w) !! r =
  if decide (r0 = r) then Some room else active_rooms w !! r.
Proof. unfold store. cbn. apply lookup_insert. Qed.

Lemma lookup_discard r0 w r :
  active_rooms (discard r0 w) !! r =
  if decide (r0 = r) then None else active_rooms w !! r.
Proof. unfold discard. cbn. apply lookup_delete. Qed.

Lemma lookup_store_or_discard r0 room w r :
  active_rooms (store_or_discard r0 room w) !! r =
  if decide (r0 = r)
  then (if length (users room) =? 0 then None else Some room)
  else active_rooms w !! r.
Proof.
  unfold store_or_discard. destruct (length (users room) =? 0).
  - apply lookup_discard.
  - apply lookup_store.
Qed.

Lemma leave_steps_once sid ts room :
  leave_steps sid (Some room)
    (if length (users (room_after_leave sid ts room)) =? 0
     then None else Some (room_after_leave sid ts room)).
Proof.
  destruct (length _ =? 0) eqn:Hl.
  - apply Nat.eqb_eq in Hl. by eapply leave_steps_last.
  - apply Nat.eqb_neq in Hl. eapply leave_steps_more; [done|]. constructor.
Qed.

Lemma leave_steps_trans sid o1 o2 o3 :
  leave_steps sid o1 o2 → leave_steps sid o2 o3 → leave_steps sid o1 o3.
Proof.
  induction 1 as [o|room ts Hl|room ts o Hl Hs IH]; intros H; [done| |].
  - inversion H; subst. by eapply leave_steps_last.
  - eapply leave_steps_more; eauto.
Qed.


Lemma leave_on_disconnect_effect sid r0 w :
  ∃ w' out,
    leave_on_disconnect now sid r0 w = (Ok tt, w', out) ∧
    (∀ r, r ≠ r0 → active_rooms w' !! r = active_rooms w !! r) ∧
    leave_steps sid (active_rooms w !! r0) (active_rooms w' !! r0) ∧
    (∀ s r, room_news s r out = []).
Proof.
  destruct (active_rooms w !! r0) as [room|] eqn:Hr.
  - eexists _, _. split; [by apply leave_on_disconnect_present|].
    split_and!.
    + intros r Hne. cbn. rewrite lookup_store_or_discard.
      by rewrite decide_False.
    + cbn. rewrite lookup_store_or_discard, decide_True by done.
      apply leave_steps_once.
    + intros s r. by rewrite room_news_app, room_news_call_left.
  - eexists _, _. split; [by apply leave_on_disconnect_absent|].
    split_and!; [done| |done]. rewrite Hr. constructor.
Qed.

Lemma disconnect_loop sid l : ∀ w,
  ∃ w' out,
    for_each l (leave_on_disconnect now sid) w = (Ok tt, w', out) ∧
    (∀ r, leave_steps sid (active_rooms w !! r) (active_rooms w' !! r)) ∧
    (∀ s r, room_news s r out = []).
Proof.
  induction l as [|r0 l IH]; intros w.
  - eexists _, _. split; [reflexivity|]. split; [constructor|done].
  - destruct (leave_on_disconnect_effect sid r0 w)
      as (w1 & out1 & Hrun1 & Hother & Hsteps & Hrec1).
    destruct (IH w1) as (w2 & out2 & Hrun2 & Hsteps2 & Hrec2).
    eexists _, _. split.
    { cbn [for_each]. rewrite bind_run, Hrun1, Hrun2. reflexivity. }
    split.
    + intros r. eapply leave_steps_trans; [|apply Hsteps2].
      destruct (decide (r = r0)) as [->|Hne]; [done|].
      rewrite (Hother r Hne). constructor.
    + intros s r. by rewrite room_news_app, Hrec1, Hrec2.
Qed.

Lemma handle_disconnect_effect sid w :
  ∃ w' out,
    exec now uuid4 0 sid on_disconnect w = Some (w', out) ∧
    (∀ fuel, exec now uuid4 fuel sid on_disconnect w = Some (w', out)) ∧
    (∀ r, leave_steps sid (active_rooms w !! r) (active_rooms w' !! r)) ∧
    (∀ s r, room_news s r out = []).
Proof.
  destruct (disconnect_loop sid
              (filter (λ room, room ≠ sid) (sid :: default [] (sio_rooms w !! sid))) w)
    as (w' & out & Hrun & Hsteps & Hrec).
  assert (Hexec : ∀ fuel, exec now uuid4 fuel sid on_disconnect w
                          = Some (SocketIO.close sid w', out)).
  { intros fuel. unfold exec. cbn [handler]. unfold handle_disconnect.
    rewrite bind_run. unfold SocketIO.rooms. cbn [fst snd].
    rewrite Hrun. reflexivity. }
  eexists _, _. split_and!; [apply Hexec|apply Hexec|apply Hsteps|apply Hrec].
Qed.

(** *** Every handler refines the room state machine *)

Lemma member_cases w sid r :
  ¬ member w sid r ∨
  ∃ room name, active_rooms w !! r = Some room ∧
               Py.dict_get sid (users room) = Some name.
Proof.
  unfold member. destruct (active_rooms w !! r) as [room|] eqn:Hr.
  - destruct (Py.dict_get sid (users room)) as [name|] eqn:Hn.
    + right. eauto.
    + left. intros (room' & [= <-] & Hm). apply dict_mem_true in Hm.
      rewrite Hn in Hm. by destruct Hm.
  - left. by intros (room' & [=] & _).
Qed.

Lemma member_intro w sid r room name :
  active_rooms w !! r = Some room →
  Py.dict_get sid (users room) = Some name → member w sid r.
Proof. intros Hr Hn. exists room. split; [done|]. apply dict_mem_true. eauto. Qed.

Ltac simpl_room_news :=
  unfold room_news; cbn;
  repeat first [ rewrite bool_decide_eq_true_2 by done
               | rewrite bool_decide_eq_false_2 by done ];
  cbn.

Ltac simpl_lookup :=
  unfold tick, store, SocketIO.entered, SocketIO.left, SocketIO.close,
    set_active_rooms, set_sio_rooms;
  cbn [active_rooms];
  rewrite ?lookup_insert_eq, ?lookup_insert_ne by done.

(** The effect of a handler that stores [room'] under [r0] and sends [news]
    there. *)
Ltac in_room r0 r Hr tac :=
  let Hne := fresh "Hne" in
  destruct (decide (r0 = r)) as [<-|Hne];
  [ simpl_lookup; rewrite Hr; simpl_room_news; tac
  | simpl_lookup; simpl_room_news; apply effect_none ].

Lemma exec_effect fuel sid op w w' out s r :
  exec now uuid4 fuel sid op w = Some (w', out) →
  effect now sid r op (active_rooms w !! r) (active_rooms w' !! r)
    (room_news s r out).
Proof.
  destruct op as [| |data|data|data|data|data|data|data|data|data|data|data].
  - (* connect *)
    intros [= <- <-]. apply effect_none.
  - (* disconnect *)
    destruct (handle_disconnect_effect sid w) as (w1 & out1 & _ & He & Hs & Hr).
    rewrite He. intros [= <- <-]. rewrite Hr. by apply effect_disconnect.
  - (* create_room *)
    intros (r0 & n & Hfresh & -> & ->)%create_room_returns.
    destruct (decide (r0 = r)) as [<-|Hne]; simpl_lookup; simpl_room_news.
    + unfold draw in *. cbn in *. rewrite Hfresh. apply effect_create.
    + apply effect_none.
  - (* join_room *)
    unfold exec. cbn [handler].
    set (r0 := get_room_id data).
    set (name := str_strip (default "Anonymous" (k_username data))).
    destruct (decide (r0 = "")) as [Hr0|Hr0].
    { rewrite join_room_no_room_id by done. intros [= <- <-]. apply effect_none. }
    destruct (decide (name = "")) as [Hn|Hn].
    { rewrite join_room_no_username by done. intros [= <- <-]. apply effect_none. }
    destruct (decide (str_lower name ∈
                lowered_names (default new_room (active_rooms w !! r0)))) as [Hin|Hin].
    { destruct (active_rooms w !! r0) as [room|] eqn:Hroom;
        [|by apply elem_of_nil in Hin].
      erewrite join_room_name_taken by done. intros [= <- <-]. apply effect_none. }
    rewrite join_room_success by done. intros [= <- <-].
    destruct (decide (r0 = r)) as [<-|Hne];
      simpl_lookup; simpl_room_news; [|apply effect_none].
    by apply effect_join.
  - (* leave_room *)
    unfold exec. cbn [handler].
    destruct (member_cases w sid (get_room_id data)) as [Hs|(room & name & Hr & Hn)].
    { rewrite leave_room_stranger by done. intros [= <- <-]. apply effect_none. }
    erewrite leave_room_member by done. intros [= <- <-].
    rewrite room_news_app, room_news_call_left. cbn [app].
    unfold tick. cbn [active_rooms]. rewrite lookup_store_or_discard.
    destruct (decide (get_room_id data = r)) as [<-|Hne];
      simpl_lookup; simpl_room_news; [|apply effect_none].
    rewrite Hr. destruct (length _ =? 0) eqn:Hl.
    + apply Nat.eqb_eq in Hl. by apply effect_leave_last with (ts := "").
    + apply Nat.eqb_neq in Hl. by apply effect_leave.
  - (* send_message *)
    unfold exec. cbn [handler].
    destruct (decide (str_strip (default "" (k_message data)) = "")) as [Hb|Hb].
    { rewrite send_message_blank by done. intros [= <- <-]. apply effect_none. }
    destruct (member_cases w sid (get_room_id data)) as [Hs|(room & name & Hr & Hn)].
    { rewrite send_message_stranger by done. intros [= <- <-]. apply effect_none. }
    erewrite send_message_member by done. intros [= <- <-].
    in_room (get_room_id data) r Hr ltac:(apply effect_text).
  - (* send_voice_note *)
    unfold exec. cbn [handler].
    destruct (k_audio_data data) as [audio|] eqn:Ha;
      [|rewrite voice_no_audio by auto; intros [= <- <-]; apply effect_none].
    destruct (decide (audio = "")) as [->|Hne];
      [rewrite voice_no_audio by auto; intros [= <- <-]; apply effect_none|].
    destruct (member_cases w sid (get_room_id data)) as [Hs|(room & name & Hr & Hn)].
    { erewrite voice_stranger by done. intros [= <- <-]. apply effect_none. }
    destruct (decide (Py.len audio > max_voice_note_size)%Z) as [Hbig|Hok].
    { erewrite voice_too_large by eauto using member_intro.
      intros [= <- <-]. apply effect_none. }
    erewrite voice_member by (done || lia). intros [= <- <-].
    in_room (get_room_id data) r Hr ltac:(apply effect_voice).
  - (* start_video_call *)
    unfold exec. cbn [handler].
    destruct (member_cases w sid (get_room_id data)) as [Hs|(room & name & Hr & Hn)].
    { rewrite start_video_call_stranger by done. intros [= <- <-]. apply effect_none. }
    erewrite start_video_call_member by done. intros [= <- <-].
    in_room (get_room_id data) r Hr ltac:(apply effect_call_start).
  - (* join_video_call *)
    unfold exec. cbn [handler].
    destruct (member_cases w sid (get_room_id data)) as [Hs|(room & name & Hr & Hn)].
    { rewrite join_video_call_stranger by done. intros [= <- <-]. apply effect_none. }
    erewrite join_video_call_member by done. intros [= <- <-].
    in_room (get_room_id data) r Hr ltac:(apply effect_call_join).
  - (* leave_video_call *)
    unfold exec. cbn [handler].
    destruct (member_cases w sid (get_room_id data)) as [Hs|(room & name & Hr & Hn)].
    { rewrite leave_video_call_stranger by done. intros [= <- <-]. apply effect_none. }
    erewrite leave_video_call_member by done. cbn zeta.
    destruct (call_drained (prune_participant sid room)); intros [= <- <-];
      in_room (get_room_id data) r Hr ltac:(apply effect_call_leave).
  - intros [= <- <-]. apply effect_none.
  - intros [= <- <-]. apply effect_none.
  - intros [= <- <-]. apply effect_none.
Qed.
End HandlerFacts.

(* ===================================================================== *)
(** ** Requests that are turned down *)

(** C10.  A [send_message] whose text is empty once stripped is
    dropped without a word: no event goes out and the world stays as it is,
    whether or not the sender is in the room and whether or not the room
    exists, because the text is tested before the membership. *)
Theorem blank_message_is_dropped {lib : StrLib} now uuid4 fuel sid data w :
  str_strip (default "" (k_message data)) = "" →
  handle_send_message now sid data w = (Ok tt, w, []) ∧
  exec now uuid4 fuel sid (on_send_message data) w = Some (w, []).
Proof.
  intros Hblank. unfold exec. cbn [handler].
  by rewrite send_message_blank.
Qed.

Lemma blank_message_is_dropped_witness :
  handle_send_message sample_clock "A" (message_data "nowhere" "   ") initial_world
    = (Ok tt, initial_world, []) ∧
  exec sample_clock sample_uuid4 0 "A"
    (on_send_message (message_data "nowhere" "   ")) initial_world
    = Some (initial_world, []).
Proof.
  apply (blank_message_is_dropped sample_clock sample_uuid4 0 "A"
           (message_data "nowhere" "   ") initial_world).
  vm_compute. reflexivity.
Defined.

Lemma length_replicate_char n c : String.length (replicate_char n c) = n.
Proof. induction n as [|n IH]; cbn; [done|]. by rewrite IH. Qed.

(** C9.  A voice note of a member whose payload is longer than 5 MiB is
    answered with the too-large error, sent to the sender alone; the world,
    and so every history, stays as it is and nothing is sent to the room.
    The ceiling is the handler's own constant, half of the 10 MiB the
    transport accepts, so it also stops payloads the transport lets
    through. *)
Theorem oversized_voice_note_is_rejected {lib : StrLib} now uuid4 fuel sid data w audio :
  member w sid (get_room_id data) →
  k_audio_data data = Some audio →
  (Py.len audio > 5 * 1024 * 1024)%Z →
  handle_send_voice_note now sid data w =
    (Ok tt, w, [to_requester sid (error "Voice note too large (max 5MB)")]) ∧
  exec now uuid4 fuel sid (on_send_voice_note data) w =
    Some (w, [to_requester sid (error "Voice note too large (max 5MB)")]) ∧
  max_voice_note_size = (5 * 1024 * 1024)%Z ∧
  max_http_buffer_size = (10 * 1024 * 1024)%Z ∧
  (max_voice_note_size < max_http_buffer_size)%Z.
Proof.
  intros Hm Ha Hlen.
  assert (H : handle_send_voice_note now sid data w =
    (Ok tt, w, [to_requester sid (error "Voice note too large (max 5MB)")])).
  { by eapply voice_too_large. }
  split_and!; try done.
  unfold exec. cbn [handler]. by rewrite H.
Qed.

Lemma oversized_voice_note_is_rejected_witness :
  let audio := replicate_char (N.to_nat 5242881) "a" in
  let data := voice_data "den" audio 3 in
  handle_send_voice_note sample_clock "A" data (world_after alice_in_den) =
    (Ok tt, world_after alice_in_den,
     [to_requester "A" (error "Voice note too large (max 5MB)")]).
Proof.
  intros audio data.
  apply (oversized_voice_note_is_rejected sample_clock sample_uuid4 0 "A" data
           (world_after alice_in_den) audio).
  - eexists. split; reflexivity.
  - reflexivity.
  - unfold Py.len, audio. rewrite length_replicate_char. lia.
Defined.

(** C3, as the handlers have it.  A session that is not a member of the room
    it names (the room may not exist) changes nothing, whatever it asks.
    [send_message] with a text that is not empty once stripped,
    [send_voice_note] with a payload that is not empty,
    [start_video_call] and [join_video_call] answer it, and it alone, with
    the not-in-this-room error; [leave_room] and [leave_video_call] return
    without a word; a [send_voice_note] without a payload is answered with
    the no-audio error, which is tested first. *)
Theorem strangers_change_nothing {lib : StrLib} now sid data w :
  ¬ member w sid (get_room_id data) →
  (str_strip (default "" (k_message data)) ≠ "" →
   handle_send_message now sid data w = (Ok tt, w, [not_in_room_error sid])) ∧
  (∀ audio, k_audio_data data = Some audio → audio ≠ "" →
   handle_send_voice_note now sid data w = (Ok tt, w, [not_in_room_error sid])) ∧
  (k_audio_data data = None ∨ k_audio_data data = Some "" →
   handle_send_voice_note now sid data w =
     (Ok tt, w, [to_requester sid (error "No audio data received")])) ∧
  handle_start_video_call now sid data w = (Ok tt, w, [not_in_room_error sid]) ∧
  handle_join_video_call now sid data w = (Ok tt, w, [not_in_room_error sid]) ∧
  handle_leave_room now sid data w = (Ok tt, w, []) ∧
  handle_leave_video_call now sid data w = (Ok tt, w, []).
Proof.
  intros Hs. split_and!.
  - intros Hb. by apply send_message_stranger.
  - intros audio Ha Hne. by eapply voice_stranger.
  - apply voice_no_audio.
  - by apply start_video_call_stranger.
  - by apply join_video_call_stranger.
  - by apply leave_room_stranger.
  - by apply leave_video_call_stranger.
Qed.

Lemma strangers_change_nothing_witness :
  handle_start_video_call sample_clock "B" (room_data "den")
    (world_after alice_in_den)
  = (Ok tt, world_after alice_in_den, [not_in_room_error "B"]).
Proof.
  apply (strangers_change_nothing sample_clock "B" (room_data "den")
           (world_after alice_in_den)).
  intros (room & Hr & Hm). vm_compute in Hr. injection Hr as <-.
  vm_compute in Hm. discriminate.
Defined.

(** C3 as stated fails: Bob, who never joined DEN, asks to leave its call
    and to leave the room; neither request is answered with an error. *)
Lemma stranger_leaving_gets_no_error :
  handle_leave_video_call sample_clock "B" (room_data "den")
    (world_after alice_in_den)
  = (Ok tt, world_after alice_in_den, []) ∧
  handle_leave_room sample_clock "B" (room_data "den")
    (world_after alice_in_den)
  = (Ok tt, world_after alice_in_den, []) ∧
  not_in_room_error "B" ∉
    (handle_leave_video_call sample_clock "B" (room_data "den")
       (world_after alice_in_den)).2.
Proof.
  split_and!.
  - vm_compute. reflexivity.
  - vm_compute. reflexivity.
  - vm_compute. apply not_elem_of_nil.
Qed.

(* ===================================================================== *)
(** ** Members and display names *)

Lemma dict_del_sublist {V} k (d d' : Py.dict V) :
  Py.dict_del k d = Some d' → d' `sublist_of` d.
Proof.
  revert d'. induction d as [|[k' v] d IH]; intros d'; cbn; [done|].
  destruct (decide (k' = k)).
  - intros [= <-]. by apply sublist_cons.
  - destruct (Py.dict_del k d) as [r|]; [|done].
    intros [= <-]. apply sublist_skip. by apply IH.
Qed.

Lemma dict_set_values {V} k (v x : V) (d : Py.dict V) :
  x ∈ Py.dict_values (Py.dict_set k v d) → x = v ∨ x ∈ Py.dict_values d.
Proof.
  unfold Py.dict_values.
  induction d as [|[k' v'] d IH]; cbn.
  - intros ->%list_elem_of_singleton. by left.
  - destruct (decide (k' = k)); cbn; rewrite !elem_of_cons.
    + intros [->|Hin]; auto.
    + intros [->|Hin]; [auto|]. destruct (IH Hin); auto.
Qed.

Lemma dict_set_nonempty {V} k (v : V) (d : Py.dict V) : Py.dict_set k v d ≠ [].
Proof. destruct d as [|[k' v'] d]; cbn; [done|]. by destruct (decide (k' = k)). Qed.

Lemma dict_set_distinct {V} (f : V → string) k v (d : Py.dict V) :
  NoDup (f <$> Py.dict_values d) →
  f v ∉ f <$> Py.dict_values d →
  NoDup (f <$> Py.dict_values (Py.dict_set k v d)).
Proof.
  unfold Py.dict_values.
  induction d as [|[k' v'] d IH]; cbn; intros Hnd Hin.
  - apply NoDup_singleton.
  - apply NoDup_cons in Hnd as [Hv' Hnd].
    apply not_elem_of_cons in Hin as [Hne Hin].
    destruct (decide (k' = k)); cbn; apply NoDup_cons; split; auto.
    intros (x & Hfx & Hx)%list_elem_of_fmap.
    apply (dict_set_values k v x d) in Hx as [->|Hx]; [congruence|].
    apply Hv'. apply list_elem_of_fmap. eauto.
Qed.

Lemma users_drop_user_sublist sid room :
  users (drop_user sid room) `sublist_of` users room.
Proof.
  unfold drop_user. destruct (Py.dict_mem sid (users room)); [|done].
  cbn. destruct (Py.dict_del sid (users room)) as [us|] eqn:Hd; [|done].
  by eapply dict_del_sublist.
Qed.

Lemma names_distinct_sublist {lib : StrLib} room room' :
  users room' `sublist_of` users room → names_distinct room → names_distinct room'.
Proof.
  unfold names_distinct, lowered_names, Py.dict_values. intros Hsub Hnd.
  eapply sublist_NoDup; [done|]. by do 2 apply fmap_sublist.
Qed.

Lemma names_distinct_after_join {lib : StrLib} sid name ts room :
  str_lower name ∉ lowered_names room →
  names_distinct room → names_distinct (room_after_join sid name ts room).
Proof.
  unfold names_distinct, lowered_names. cbn. intros Hin Hnd.
  by apply dict_set_distinct.
Qed.

Lemma room_ok_new {lib : StrLib} r : room_ok r new_room.
Proof. split_and!; [apply NoDup_nil_2|apply Forall_nil_2|done]. Qed.

Lemma room_ok_sublist {lib : StrLib} r room room' :
  users room' `sublist_of` users room → room_ok r room → room_ok r room'.
Proof.
  intros Hsub (Hnd & Hne & Hr). split_and!.
  - by eapply names_distinct_sublist.
  - apply Forall_forall. intros x Hx. eapply Forall_forall in Hne; [done|].
    unfold Py.dict_values in *. eapply elem_of_sublist; [done|].
    by apply fmap_sublist.
  - intros Hu. apply Hr. intros Hnil. rewrite Hnil in Hsub.
    by apply sublist_nil_r in Hsub.
Qed.

Lemma room_ok_after_join {lib : StrLib} r sid name ts room :
  r ≠ "" → name ≠ "" → str_lower name ∉ lowered_names room →
  room_ok r room → room_ok r (room_after_join sid name ts room).
Proof.
  intros Hr Hn Hin (Hnd & Hne & _). split_and!.
  - by apply names_distinct_after_join.
  - cbn. apply Forall_forall. intros x [->|Hx]%dict_set_values; [done|].
    by eapply Forall_forall in Hne.
  - done.
Qed.

Lemma users_end_call_if_drained ts room :
  users (end_call_if_drained ts room) = users room.
Proof. unfold end_call_if_drained. by destruct (call_drained room). Qed.

Lemma users_add_participant sid room :
  users (add_participant sid room) = users room.
Proof. unfold add_participant. by destruct (Py.contains _ _). Qed.

Lemma leave_steps_members sid o o' :
  leave_steps sid o o' →
  ∀ room', o' = Some room' →
  ∃ room, o = Some room ∧ users room' `sublist_of` users room.
Proof.
  induction 1 as [o|room ts Hl|room ts o Hl Hs IH]; intros room' Ho'.
  - eauto.
  - done.
  - destruct (IH room' Ho') as (room1 & [= <-] & Hsub).
    eexists. split; [done|]. etrans; [done|].
    rewrite users_room_after_leave. apply users_drop_user_sublist.
Qed.

Lemma effect_members {lib : StrLib} now sid r op o o' news room' :
  effect now sid r op o o' news → o' = Some room' →
  members_step r (default new_room o) room'.
Proof.
  intros He Ho'. destruct He; simplify_eq; cbn [default from_option id].
  - by apply members_fewer.
  - by apply members_fewer.
  - by apply members_more.
  - apply members_fewer. rewrite users_room_after_leave.
    apply users_drop_user_sublist.
  - match goal with H : leave_steps _ _ _ |- _ =>
      destruct (leave_steps_members _ _ _ H room' eq_refl) as (room & -> & Hsub)
    end.
    by apply members_fewer.
  - by apply members_fewer.
  - by apply members_fewer.
  - by apply members_fewer.
  - apply members_fewer. cbn. by rewrite users_add_participant.
  - apply members_fewer. cbn.
    by rewrite users_end_call_if_drained, users_prune_participant.
Qed.

Lemma members_step_room_ok {lib : StrLib} r room room' :
  members_step r room room' → room_ok r room → room_ok r room'.
Proof.
  destruct 1; [by apply room_ok_sublist|by apply room_ok_after_join].
Qed.

Lemma members_step_names_distinct {lib : StrLib} r room room' :
  members_step r room room' → names_distinct room → names_distinct room'.
Proof.
  destruct 1; [by apply names_distinct_sublist|by apply names_distinct_after_join].
Qed.

Section Invariants.
Context {lib : StrLib}.
Variables now uuid4 : nat → string.

Lemma exec_members fuel sid op w w' out r room' :
  exec now uuid4 fuel sid op w = Some (w', out) →
  active_rooms w' !! r = Some room' →
  members_step r (default new_room (active_rooms w !! r)) room'.
Proof.
  intros Hexec Hr'. eapply effect_members; [|done].
  by apply (exec_effect now uuid4 fuel sid op w w' out "" r).
Qed.

Lemma exec_rooms_ok fuel sid op w w' out :
  all_rooms_ok w →
  exec now uuid4 fuel sid op w = Some (w', out) →
  all_rooms_ok w'.
Proof.
  intros Hok Hexec r room' Hr'.
  eapply members_step_room_ok; [by eapply exec_members|].
  destruct (active_rooms w !! r) as [room|] eqn:Hr; [by apply Hok|].
  apply room_ok_new.
Qed.

Lemma exec_names_distinct fuel sid op w w' out :
  all_names_distinct w →
  exec now uuid4 fuel sid op w = Some (w', out) →
  all_names_distinct w'.
Proof.
  intros Hok Hexec r room' Hr'.
  eapply members_step_names_distinct; [by eapply exec_members|].
  destruct (active_rooms w !! r) as [room|] eqn:Hr; [by eapply Hok|].
  apply NoDup_nil_2.
Qed.

Lemma reachable_rooms_ok w : reachable now uuid4 w → all_rooms_ok w.
Proof.
  induction 1 as [|fuel sid op w w' out _ IH Hexec].
  - intros r room Hr. unfold initial_world in Hr. cbn in Hr.
    by rewrite lookup_empty in Hr.
  - by eapply exec_rooms_ok.
Qed.

Lemma run_reachable fuel ops : ∀ w w' out,
  reachable now uuid4 w →
  run now uuid4 fuel ops w = Some (w', out) →
  reachable now uuid4 w'.
Proof.
  induction ops as [|[sid op] ops IH]; intros w w' out Hw; cbn.
  - by intros [= <- <-].
  - destruct (exec now uuid4 fuel sid op w) as [[w1 out1]|] eqn:He; [|done].
    destruct (run now uuid4 fuel ops w1) as [[w2 out2]|] eqn:Hr; [|done].
    intros [= <- <-]. eapply IH; [|done]. by eapply reachable_exec.
Qed.

End Invariants.

Lemma world_after_reachable ops :
  reachable sample_clock sample_uuid4 (world_after ops).
Proof.
  unfold world_after.
  destruct (run sample_clock sample_uuid4 0 ops initial_world)
    as [[w out]|] eqn:Hrun; [|constructor].
  eapply run_reachable; [constructor|done].
Qed.

(** C8.  In every world the server can reach, and after every operation
    served from a world where it holds, the display names of the members of
    each room are pairwise distinct once lower-cased.  A [join_room] whose
    stripped username equals, lower-cased, the name of a member of the room is
    answered with the name-taken error, sent to the joiner alone, and leaves
    the world, so the membership, the history and the call of the room, as it
    was. *)
Theorem display_names_stay_distinct {lib : StrLib} now uuid4 :
  (∀ w, reachable now uuid4 w → all_names_distinct w) ∧
  (∀ fuel sid op w w' out,
     all_names_distinct w →
     exec now uuid4 fuel sid op w = Some (w', out) →
     all_names_distinct w') ∧
  (∀ fuel sid data w room,
     reachable now uuid4 w →
     active_rooms w !! get_room_id data = Some room →
     str_lower (str_strip (default "Anonymous" (k_username data)))
       ∈ lowered_names room →
     exec now uuid4 fuel sid (on_join_room data) w =
       Some (w, [to_requester sid (error "Username already taken in this room")])).
Proof.
  split_and!.
  - intros w Hw r room Hr. by apply (reachable_rooms_ok now uuid4 w Hw r room).
  - intros fuel sid op w w' out Hnd Hexec r room' Hr'.
    by apply (exec_names_distinct now uuid4 fuel sid op w w' out Hnd Hexec r).
  - intros fuel sid data w room Hw Hr Hin.
    destruct (reachable_rooms_ok now uuid4 w Hw _ _ Hr) as (Hnd & Hne & Hid).
    apply list_elem_of_fmap in Hin as (n & Hlow & Hn).
    assert (users room ≠ []) as Hu.
    { intros Hnil. rewrite Hnil in Hn. by apply elem_of_nil in Hn. }
    assert (str_strip (default "Anonymous" (k_username data)) ≠ "") as Hname.
    { intros Hnil. rewrite Hnil, (str_lower_ascii "" eq_refl) in Hlow.
      symmetry in Hlow. apply str_lower_empty in Hlow. subst n.
      by eapply Forall_forall in Hne. }
    unfold exec. cbn [handler].
    erewrite join_room_name_taken; [done|by apply Hid|done|done|].
    apply list_elem_of_fmap. eauto.
Qed.

Lemma display_names_stay_distinct_witness :
  exec sample_clock sample_uuid4 0 "B" (on_join_room (join_data "Den" " ALICE "))
    (world_after alice_in_den)
  = Some (world_after alice_in_den,
          [to_requester "B" (error "Username already taken in this room")]).
Proof.
  apply (proj2 (proj2 (display_names_stay_distinct sample_clock sample_uuid4))
           0 "B" (join_data "Den" " ALICE ") (world_after alice_in_den)
           (fresh_room "A" "alice" "09:59")).
  - apply world_after_reachable.
  - vm_compute. reflexivity.
  - vm_compute. apply list_elem_of_here.
Defined.

(* ===================================================================== *)
(** ** Rooms without members *)

Lemma leave_steps_never_empties sid o o' room' :
  leave_steps sid o o' → o' = Some room' → users room' = [] →
  ∃ room, o = Some room ∧ users room = [].
Proof.
  induction 1 as [o|room ts Hl|room ts o Hl Hs IH]; intros Ho' Hu.
  - eauto.
  - done.
  - destruct (IH Ho' Hu) as (room1 & [= <-] & Hu1). by rewrite Hu1 in Hl.
Qed.

Lemma effect_never_empties {lib : StrLib} now sid r op o o' news room' :
  effect now sid r op o o' news → o' = Some room' → users room' = [] →
  (∃ data, op = on_create_room data) ∨
  (∃ room, o = Some room ∧ users room = []).
Proof.
  intros He Ho' Hu. destruct He; simplify_eq; eauto.
  - cbn in Hu. by apply dict_set_nonempty in Hu.
  - match goal with H : length _ ≠ 0 |- _ => by rewrite Hu in H end.
  - right. by eapply leave_steps_never_empties.
  - right. eexists. split; [done|]. cbn in Hu.
    by rewrite users_add_participant in Hu.
  - right. eexists. split; [done|]. cbn in Hu.
    by rewrite users_end_call_if_drained, users_prune_participant in Hu.
Qed.

(** C5, as the handlers have it.  No operation but [create_room] leaves a
    room without members in the store: a member-less room found after an
    operation was there, member-less, before it, so [leave_room] and
    [disconnect] take the room out of the store with its last member and a
    join that fails leaves none behind.  Served from a store where every
    room has a member, every operation but [create_room] yields such a
    store.  [create_room] itself stores a room without members under a new
    id. *)
Theorem only_create_room_leaves_a_room_empty {lib : StrLib} now uuid4 fuel sid op w w' out :
  exec now uuid4 fuel sid op w = Some (w', out) →
  (∀ r room',
     active_rooms w' !! r = Some room' → users room' = [] →
     (∃ data, op = on_create_room data) ∨
     (∃ room, active_rooms w !! r = Some room ∧ users room = [])) ∧
  ((∀ data, op ≠ on_create_room data) →
   all_rooms_populated w → all_rooms_populated w') ∧
  (∀ data, op = on_create_room data →
   ∃ r, active_rooms w !! r = None ∧ active_rooms w' !! r = Some new_room).
Proof.
  intros Hexec.
  assert (Hstrong : ∀ r room',
     active_rooms w' !! r = Some room' → users room' = [] →
     (∃ data, op = on_create_room data) ∨
     (∃ room, active_rooms w !! r = Some room ∧ users room = [])).
  { intros r room' Hr' Hu.
    eapply effect_never_empties; [|done..].
    by apply (exec_effect now uuid4 fuel sid op w w' out "" r). }
  split_and!; [done| |].
  - intros Hop Hpop r room' Hr' Hu.
    destruct (Hstrong r room' Hr' Hu) as [[data ->]|(room & Hr & Hu0)].
    + by eapply Hop.
    + by eapply Hpop.
  - intros data ->.
    apply create_room_returns in Hexec as (r & n & Hfresh & -> & _).
    exists r. split; [done|]. unfold store. cbn. apply lookup_insert_eq.
Qed.

Lemma only_create_room_leaves_a_room_empty_witness :
  ∃ w' out,
    exec sample_clock sample_uuid4 0 "A" (on_join_room (join_data " den " "alice"))
      initial_world = Some (w', out) ∧
    all_rooms_populated w'.
Proof.
  eexists _, _. split; [vm_compute; reflexivity|].
  refine (proj1 (proj2 (only_create_room_leaves_a_room_empty
            sample_clock sample_uuid4 0 "A"
            (on_join_room (join_data " den " "alice"))
            initial_world _ _ _)) _ _).
  - vm_compute. reflexivity.
  - intros data. discriminate.
  - intros r room Hr. unfold initial_world in Hr. cbn in Hr.
    rewrite lookup_empty in Hr. discriminate Hr.
Defined.

(** C5 as stated fails: a [create_room] served by the server just started
    stores a room that has no member. *)
Lemma create_room_leaves_an_empty_room :
  active_rooms (world_after [("A", on_create_room (join_data "" "alice"))])
    !! "3F9A1C" = Some new_room ∧
  ¬ all_rooms_populated
      (world_after [("A", on_create_room (join_data "" "alice"))]).
Proof.
  split.
  - vm_compute. reflexivity.
  - intros Hpop. apply (Hpop "3F9A1C" new_room); vm_compute; reflexivity.
Qed.

(* ===================================================================== *)
(** ** History and broadcast *)

Lemma echo_nil : echo [] [].
Proof. done. Qed.

Lemma echo_app n1 a1 n2 a2 :
  echo n1 a1 → echo n2 a2 → echo (n1 ++ n2) (a1 ++ a2).
Proof.
  intros [H1 H1'] [H2 H2']. split.
  - by rewrite !filter_app, !fmap_app, H1, H2.
  - by rewrite !filter_app, H1', H2'.
Qed.

Lemma echo_silent line ts : call_line line = false → echo [] [system_msg line ts].
Proof.
  intros Hl. split.
  - rewrite filter_cons_False; [by rewrite filter_nil|].
    cbn. rewrite Hl. intros H. exact H.
  - done.
Qed.

Lemma echo_call_line line ts ts' :
  call_line line = true → echo [system_msg line ts'] [system_msg line ts].
Proof.
  intros Hl. split.
  - rewrite filter_cons_True; [by rewrite filter_nil|].
    cbn. rewrite Hl. exact I.
  - done.
Qed.

Lemma echo_member m : written_by_member m = true → echo [m] [m].
Proof.
  intros Hm. split; [|done].
  rewrite filter_cons_True; [by rewrite filter_nil|].
  destruct m; [discriminate Hm|exact I..].
Qed.

Lemma leave_steps_history sid o o' room' :
  leave_steps sid o o' → o' = Some room' →
  ∃ entries, messages room' = from_option messages [] o ++ entries ∧
             echo [] entries.
Proof.
  induction 1 as [o|room ts Hl|room ts o Hl Hs IH]; intros Ho'.
  - subst o. exists []. split; [by rewrite app_nil_r|apply echo_nil].
  - done.
  - destruct (IH Ho') as (entries & Hm & He). cbn [from_option] in Hm.
    rewrite messages_room_after_leave in Hm.
    eexists (_ :: entries). split.
    + rewrite Hm. cbn. by rewrite <- app_assoc.
    + apply (echo_app [] [_] [] entries); [|done].
      apply echo_silent, left_room_is_no_call_line.
Qed.

Lemma messages_add_participant sid room :
  messages (add_participant sid room) = messages room.
Proof. unfold add_participant. by destruct (Py.contains _ _). Qed.

Lemma effect_history {lib : StrLib} now sid r op o o' news :
  effect now sid r op o o' news →
  (∀ room', o' = Some room' →
     ∃ entries, messages room' = from_option messages [] o ++ entries ∧
                echo news entries) ∧
  (o' = None → news = []).
Proof.
  intros He. split.
  - intros room' Ho'. destruct He; simplify_eq.
    + exists []. split; [by rewrite app_nil_r|apply echo_nil].
    + exists []. split; [done|apply echo_nil].
    + eexists [_]. split.
      * cbn. by destruct o.
      * apply echo_silent, joined_room_is_no_call_line.
    + eexists [_]. split; [apply messages_room_after_leave|].
      apply echo_silent, left_room_is_no_call_line.
    + by eapply leave_steps_history.
    + eexists [_]. split; [done|]. by apply echo_member.
    + eexists [_]. split; [done|]. by apply echo_member.
    + eexists [_]. split; [done|].
      apply echo_silent, call_started_is_no_call_line.
    + eexists [_]. split; [cbn; by rewrite messages_add_participant|].
      apply echo_call_line, joined_call_is_call_line.
    + unfold room_after_call_leave, end_call_if_drained.
      destruct (call_drained (prune_participant sid room)).
      * eexists [_; _]. split.
        { cbn. rewrite messages_prune_participant, <- app_assoc. done. }
        apply (echo_app [] [_] [_] [_]).
        { apply echo_silent, call_ended_is_no_call_line. }
        apply echo_call_line, left_call_is_call_line.
      * eexists [_]. split; [cbn; by rewrite messages_prune_participant|].
        apply echo_call_line, left_call_is_call_line.
  - intros Ho'. by destruct He.
Qed.

Lemma history_lookup w r :
  history w r = from_option messages [] (active_rooms w !! r).
Proof. unfold history. by destruct (active_rooms w !! r). Qed.

(* ===================================================================== *)
(** ** What a session is sent *)

Lemma silent_from_room w e : silent e → from_room w e.
Proof. unfold silent, from_room. by destruct (ev_body e). Qed.

Lemma call_left_events_silent sid r room :
  Forall silent (call_left_events sid r room).
Proof. unfold call_left_events. destruct (Py.contains _ _); repeat constructor. Qed.

Section News.
Context {lib : StrLib}.
Variables now uuid4 : nat → string.

Lemma leave_on_disconnect_silent sid r0 w :
  ∃ w' out,
    leave_on_disconnect now sid r0 w = (Ok tt, w', out) ∧ Forall silent out.
Proof.
  destruct (active_rooms w !! r0) as [room|] eqn:Hr.
  - eexists _, _. split; [by apply leave_on_disconnect_present|].
    apply Forall_app. split; [apply call_left_events_silent|repeat constructor].
  - eexists _, _. split; [by apply leave_on_disconnect_absent|]. constructor.
Qed.

Lemma disconnect_loop_silent sid l : ∀ w,
  ∃ w' out,
    for_each l (leave_on_disconnect now sid) w = (Ok tt, w', out) ∧
    Forall silent out.
Proof.
  induction l as [|r0 l IH]; intros w.
  - eexists _, _. split; [reflexivity|constructor].
  - destruct (leave_on_disconnect_silent sid r0 w) as (w1 & out1 & Hrun1 & Hs1).
    destruct (IH w1) as (w2 & out2 & Hrun2 & Hs2).
    eexists _, _. split.
    { cbn [for_each]. rewrite bind_run, Hrun1, Hrun2. reflexivity. }
    by apply Forall_app.
Qed.

Ltac news_done Hr :=
  rewrite ?Forall_app; repeat split;
  repeat first
    [ apply Forall_nil_2
    | apply Forall_cons; split;
      [ first [ exact I
              | eexists; split; [reflexivity|by rewrite Hr] ] | ]
    | eapply Forall_impl; [apply call_left_events_silent|];
      intros ? ?; by apply silent_from_room ].

(** What an operation sends as [new_message] goes to the whole socket.io
    room of a room that was in the store. *)
Lemma exec_news fuel sid op w w' out :
  exec now uuid4 fuel sid op w = Some (w', out) →
  Forall (from_room w) out.
Proof.
  destruct op as [| |data|data|data|data|data|data|data|data|data|data|data].
  - intros [= <- <-]. constructor.
  - unfold exec. cbn [handler]. unfold handle_disconnect.
    rewrite bind_run. unfold SocketIO.rooms. cbn [fst snd].
    match goal with |- context [for_each ?l _ _] =>
      destruct (disconnect_loop_silent sid l w) as (w1 & out1 & -> & Hs)
    end.
    intros [= <- <-]. eapply Forall_impl; [done|].
    intros e He. by apply silent_from_room.
  - intros (r0 & n & Hfresh & -> & ->)%create_room_returns. by repeat constructor.
  - unfold exec. cbn [handler].
    set (r0 := get_room_id data).
    set (name := str_strip (default "Anonymous" (k_username data))).
    destruct (decide (r0 = "")) as [Hr0|Hr0].
    { rewrite join_room_no_room_id by done. intros [= <- <-]. by repeat constructor. }
    destruct (decide (name = "")) as [Hn|Hn].
    { rewrite join_room_no_username by done. intros [= <- <-]. by repeat constructor. }
    destruct (decide (str_lower name ∈
                lowered_names (default new_room (active_rooms w !! r0)))) as [Hin|Hin].
    { destruct (active_rooms w !! r0) as [room|] eqn:Hroom;
        [|by apply elem_of_nil in Hin].
      erewrite join_room_name_taken by done. intros [= <- <-]. by repeat constructor. }
    rewrite join_room_success by done. intros [= <- <-]. by repeat constructor.
  - unfold exec. cbn [handler].
    destruct (member_cases w sid (get_room_id data)) as [Hs|(room & name & Hr & Hn)].
    { rewrite leave_room_stranger by done. intros [= <- <-]. constructor. }
    erewrite leave_room_member by done. intros [= <- <-]. news_done Hr.
  - unfold exec. cbn [handler].
    destruct (decide (str_strip (default "" (k_message data)) = "")) as [Hb|Hb].
    { rewrite send_message_blank by done. intros [= <- <-]. constructor. }
    destruct (member_cases w sid (get_room_id data)) as [Hs|(room & name & Hr & Hn)].
    { rewrite send_message_stranger by done. intros [= <- <-]. by repeat constructor. }
    erewrite send_message_member by done. intros [= <- <-]. news_done Hr.
  - unfold exec. cbn [handler].
    destruct (k_audio_data data) as [audio|] eqn:Ha;
      [|rewrite voice_no_audio by auto; intros [= <- <-]; by repeat constructor].
    destruct (decide (audio = "")) as [->|Hne];
      [rewrite voice_no_audio by auto; intros [= <- <-]; by repeat constructor|].
    destruct (member_cases w sid (get_room_id data)) as [Hs|(room & name & Hr & Hn)].
    { erewrite voice_stranger by done. intros [= <- <-]. by repeat constructor. }
    destruct (decide (Py.len audio > max_voice_note_size)%Z) as [Hbig|Hok].
    { erewrite voice_too_large by eauto using member_intro.
      intros [= <- <-]. by repeat constructor. }
    erewrite voice_member by (done || lia). intros [= <- <-]. news_done Hr.
  - unfold exec. cbn [handler].
    destruct (member_cases w sid (get_room_id data)) as [Hs|(room & name & Hr & Hn)].
    { rewrite start_video_call_stranger by done. intros [= <- <-]. by repeat constructor. }
    erewrite start_video_call_member by done. intros [= <- <-]. news_done Hr.
  - unfold exec. cbn [handler].
    destruct (member_cases w sid (get_room_id data)) as [Hs|(room & name & Hr & Hn)].
    { rewrite join_video_call_stranger by done. intros [= <- <-]. by repeat constructor. }
    erewrite join_video_call_member by done. intros [= <- <-]. news_done Hr.
  - unfold exec. cbn [handler].
    destruct (member_cases w sid (get_room_id data)) as [Hs|(room & name & Hr & Hn)].
    { rewrite leave_video_call_stranger by done. intros [= <- <-]. constructor. }
    erewrite leave_video_call_member by done. cbn zeta.
    destruct (call_drained (prune_participant sid room)); intros [= <- <-];
      news_done Hr.
  - intros [= <- <-]. by repeat constructor.
  - intros [= <- <-]. by repeat constructor.
  - intros [= <- <-]. by repeat constructor.
Qed.

(** An operation that sends a [new_message] leaves the socket.io membership
    as it found it: who sits where when the event is emitted is who sat
    there when the handler started. *)
Lemma exec_news_membership fuel sid op w w' out :
  exec now uuid4 fuel sid op w = Some (w', out) →
  Forall silent out ∨ sio_rooms w' = sio_rooms w.
Proof.
  destruct op as [| |data|data|data|data|data|data|data|data|data|data|data].
  - intros [= <- <-]. by right.
  - unfold exec. cbn [handler]. unfold handle_disconnect.
    rewrite bind_run. unfold SocketIO.rooms. cbn [fst snd].
    match goal with |- context [for_each ?l _ _] =>
      destruct (disconnect_loop_silent sid l w) as (w1 & out1 & -> & Hs)
    end.
    intros [= <- <-]. by left.
  - intros (r0 & n & Hfresh & -> & ->)%create_room_returns. by right.
  - unfold exec. cbn [handler].
    set (r0 := get_room_id data).
    set (name := str_strip (default "Anonymous" (k_username data))).
    destruct (decide (r0 = "")) as [Hr0|Hr0].
    { rewrite join_room_no_room_id by done. intros [= <- <-]. by right. }
    destruct (decide (name = "")) as [Hn|Hn].
    { rewrite join_room_no_username by done. intros [= <- <-]. by right. }
    destruct (decide (str_lower name ∈
                lowered_names (default new_room (active_rooms w !! r0)))) as [Hin|Hin].
    { destruct (active_rooms w !! r0) as [room|] eqn:Hroom;
        [|by apply elem_of_nil in Hin].
      erewrite join_room_name_taken by done. intros [= <- <-]. by right. }
    rewrite join_room_success by done. intros [= <- <-]. left. repeat constructor.
  - unfold exec. cbn [handler].
    destruct (member_cases w sid (get_room_id data)) as [Hs|(room & name & Hr & Hn)].
    { rewrite leave_room_stranger by done. intros [= <- <-]. by right. }
    erewrite leave_room_member by done. intros [= <- <-]. left.
    apply Forall_app. split; [apply call_left_events_silent|repeat constructor].
  - unfold exec. cbn [handler].
    destruct (decide (str_strip (default "" (k_message data)) = "")) as [Hb|Hb].
    { rewrite send_message_blank by done. intros [= <- <-]. by right. }
    destruct (member_cases w sid (get_room_id data)) as [Hs|(room & name & Hr & Hn)].
    { rewrite send_message_stranger by done. intros [= <- <-]. by right. }
    erewrite send_message_member by done. intros [= <- <-]. by right.
  - unfold exec. cbn [handler].
    destruct (k_audio_data data) as [audio|] eqn:Ha;
      [|rewrite voice_no_audio by auto; intros [= <- <-]; by right].
    destruct (decide (audio = "")) as [->|Hne];
      [rewrite voice_no_audio by auto; intros [= <- <-]; by right|].
    destruct (member_cases w sid (get_room_id data)) as [Hs|(room & name & Hr & Hn)].
    { erewrite voice_stranger by done. intros [= <- <-]. by right. }
    destruct (decide (Py.len audio > max_voice_note_size)%Z) as [Hbig|Hok].
    { erewrite voice_too_large by eauto using member_intro.
      intros [= <- <-]. by right. }
    erewrite voice_member by (done || lia). intros [= <- <-]. by right.
  - unfold exec. cbn [handler].
    destruct (member_cases w sid (get_room_id data)) as [Hs|(room & name & Hr & Hn)].
    { rewrite start_video_call_stranger by done. intros [= <- <-]. by right. }
    erewrite start_video_call_member by done. intros [= <- <-]. by right.
  - unfold exec. cbn [handler].
    destruct (member_cases w sid (get_room_id data)) as [Hs|(room & name & Hr & Hn)].
    { rewrite join_video_call_stranger by done. intros [= <- <-]. by right. }
    erewrite join_video_call_member by done. intros [= <- <-]. by right.
  - unfold exec. cbn [handler].
    destruct (member_cases w sid (get_room_id data)) as [Hs|(room & name & Hr & Hn)].
    { rewrite leave_video_call_stranger by done. intros [= <- <-]. by right. }
    erewrite leave_video_call_member by done. cbn zeta.
    destruct (call_drained (prune_participant sid room)); intros [= <- <-];
      by right.
  - intros [= <- <-]. by right.
  - intros [= <- <-]. by right.
  - intros [= <- <-]. by right.
Qed.

Lemma hears_only_spec w s r :
  hears_only w s r = true →
  r ∈ s :: default [] (sio_rooms w !! s) ∧
  ∀ r', r' ∈ s :: default [] (sio_rooms w !! s) →
        is_Some (active_rooms w !! r') → r' = r.
Proof.
  unfold hears_only. cbv zeta. intros [Hin Hall]%andb_prop.
  split; [by apply contains_true|].
  intros r' Hr' [room Hroom].
  eapply forallb_forall in Hall; [|by apply list_elem_of_In].
  rewrite Hroom, orb_false_r in Hall. by apply bool_decide_eq_true in Hall.
Qed.

Lemma inbox_room_news w s r out :
  hears_only w s r = true → Forall (from_room w) out →
  inbox w s out = room_news s r out.
Proof.
  intros [Hsits Honly]%hears_only_spec.
  induction 1 as [|e out He _ IH]; [done|].
  unfold inbox, room_news in *. cbn [omap list_omap]. rewrite IH. clear IH.
  unfold from_room in He. destruct (ev_body e); try done.
  destruct He as (r0 & -> & Hstored). cbn [delivered addressed].
  destruct (decide (r0 = r)) as [->|Hne].
  - rewrite (proj2 (contains_true _ _) Hsits).
    by rewrite (bool_decide_eq_true_2 (r = r)).
  - rewrite (bool_decide_eq_false_2 (r0 = r)) by done.
    destruct (Py.contains r0 _) eqn:Hc; [|done].
    apply contains_true in Hc. by destruct Hne; apply Honly.
Qed.

Lemma kept_spec r w w' :
  kept r w w' = true →
  is_Some (active_rooms w !! r) → is_Some (active_rooms w' !! r).
Proof.
  unfold kept. intros Hk [room Hr]. rewrite Hr in Hk.
  destruct (active_rooms w' !! r); [eauto|done].
Qed.

(** C2, as the handlers have it.  Over a run during which a session hears
    one room only (it sits in the socket.io room of that room, and in no
    other that bears the name of a room of the store) and the room is never
    taken out of the store, the history of the room only grows, and the
    [new_message] events delivered to the session are, in the order of the
    history, the entries that are announced: every text and every voice
    note, as stored, and every line about somebody joining or leaving the
    video call, with a timestamp of its own.  The lines about joining or
    leaving the room and about a call starting or ending are in the history
    and are not sent as [new_message]. *)
Theorem broadcasts_follow_history fuel s r ops : ∀ w w' news,
  heard now uuid4 fuel s r ops w = Some (w', news) →
  ∃ entries,
    history w' r = history w r ++ entries ∧
    echo news entries.
Proof.
  induction ops as [|[sid op] ops IH]; intros w w' news; cbn [heard].
  - intros [= <- <-]. exists []. split; [by rewrite app_nil_r|apply echo_nil].
  - destruct (hears_only w s r) eqn:Hhears; [|done].
    destruct (exec now uuid4 fuel sid op w) as [[w1 out1]|] eqn:Hexec; [|done].
    destruct (kept r w w1) eqn:Hkept; [|done].
    destruct (heard now uuid4 fuel s r ops w1) as [[w2 news2]|] eqn:Hrest; [|done].
    intros [= <- <-].
    destruct (IH _ _ _ Hrest) as (entries2 & Hh2 & He2).
    rewrite (inbox_room_news w s r out1 Hhears (exec_news fuel sid op w w1 out1 Hexec)).
    pose proof (exec_effect now uuid4 fuel sid op w w1 out1 s r Hexec) as Heff.
    apply effect_history in Heff as [Hsome Hnone].
    rewrite Hh2, !history_lookup.
    destruct (active_rooms w1 !! r) as [room1|] eqn:Hr1.
    + destruct (Hsome room1 eq_refl) as (entries1 & Hh1 & He1).
      exists (entries1 ++ entries2). split.
      * cbn [from_option]. by rewrite Hh1, app_assoc.
      * by apply echo_app.
    + destruct (active_rooms w !! r) as [room|] eqn:Hr.
      { destruct (kept_spec r w w1 Hkept) as [? Hsome1]; [by rewrite Hr|].
        by rewrite Hr1 in Hsome1. }
      exists entries2. split; [done|].
      rewrite (Hnone eq_refl). done.
Qed.

End News.

Lemma broadcasts_follow_history_witness :
  ∃ entries,
    history (world_after an_evening_in_den) "DEN" =
      history (world_after alice_and_bob_in_den) "DEN" ++ entries ∧
    echo [text_msg "alice" "hello" "09:59" "A";
          system_msg "bob joined the video call" "10:00"] entries.
Proof.
  apply (broadcasts_follow_history sample_clock sample_uuid4 0 "A" "DEN"
           [("A", on_send_message (message_data "den" " hello "));
            ("B", on_join_video_call (room_data "den"))]
           (world_after alice_and_bob_in_den)).
  vm_compute. reflexivity.
Defined.

(** C2 as stated fails: Alice sits in DEN, where she is alone, and hears no
    other room; Bob joins.  The history gains the line of his join, and
    Alice is delivered no [new_message] at all. *)
Lemma join_lines_are_not_broadcast :
  heard sample_clock sample_uuid4 0 "A" "DEN"
    [("B", on_join_room (join_data "DEN" "bob"))] (world_after alice_in_den)
    = Some (world_after alice_and_bob_in_den, []) ∧
  history (world_after alice_and_bob_in_den) "DEN" =
    history (world_after alice_in_den) "DEN" ++
    [system_msg "bob has joined the room" "09:59"] ∧
  ([] : list Message) ≠ [system_msg "bob has joined the room" "09:59"].
Proof. split_and!; [vm_compute; reflexivity..|discriminate]. Qed.

(* ===================================================================== *)
(** ** The end of a room, and its return *)

Section Rebuilt.
Context {lib : StrLib}.
Variables now uuid4 : nat → string.





End Rebuilt.

(* ===================================================================== *)
(** ** The video call *)

(** C1.  The flag of the call does not follow its participants.  Alice and
    Bob are in DEN, Alice starts a call and leaves the room: the call has no
    participant left and is still flagged active, where [leave_video_call]
    would have cleared the flag.  And when Alice, alone in DEN, joins a call
    nobody started, the call has a participant and is not flagged active. *)
Theorem call_flag_not_kept_by_leave_room :
  active_rooms (world_after call_started_then_left_room) !! "DEN" =
    Some {| users := [("B", "bob")];
            messages :=
              [system_msg "alice has joined the room" "09:59";
               system_msg "bob has joined the room" "09:59";
               system_msg "alice started a video call" "09:59";
               system_msg "alice has left the room" "10:00"];
            video_call := {| active := true; participants := [] |} |} ∧
  active_rooms (world_after call_joined_unstarted) !! "DEN" =
    Some {| users := [("A", "alice")];
            messages :=
              [system_msg "alice has joined the room" "09:59";
               system_msg "alice joined the video call" "09:59"];
            video_call := {| active := false; participants := ["A"] |} |} ∧
  ¬ call_flag_consistent
      {| users := [("B", "bob")];
         messages :=
           [system_msg "alice has joined the room" "09:59";
            system_msg "bob has joined the room" "09:59";
            system_msg "alice started a video call" "09:59";
            system_msg "alice has left the room" "10:00"];
         video_call := {| active := true; participants := [] |} |}.
Proof.
  split_and!.
  - vm_compute. reflexivity.
  - vm_compute. reflexivity.
  - unfold call_flag_consistent. cbn. discriminate.
Qed.

(** C6.  The participants of a call are not kept a set of members.  Alice and
    Bob are in DEN and Alice starts a call twice: she is listed twice, where
    [join_video_call] would have listed her once.  When she then leaves the
    room, one of the two entries stays behind, the id of a session that is no
    longer a member. *)
Theorem participant_listed_twice_by_start_video_call :
  active_rooms (world_after call_started_twice) !! "DEN" =
    Some {| users := [("A", "alice"); ("B", "bob")];
            messages :=
              [system_msg "alice has joined the room" "09:59";
               system_msg "bob has joined the room" "09:59";
               system_msg "alice started a video call" "09:59";
               system_msg "alice started a video call" "10:00"];
            video_call := {| active := true; participants := ["A"; "A"] |} |} ∧
  active_rooms (world_after call_started_twice_then_left_room) !! "DEN" =
    Some {| users := [("B", "bob")];
            messages :=
              [system_msg "alice has joined the room" "09:59";
               system_msg "bob has joined the room" "09:59";
               system_msg "alice started a video call" "09:59";
               system_msg "alice started a video call" "10:00";
               system_msg "alice has left the room" "10:00"];
            video_call := {| active := true; participants := ["A"] |} |} ∧
  ¬ NoDup ["A"; "A"] ∧
  ¬ participants_are_members
      {| users := [("B", "bob")];
         messages :=
           [system_msg "alice has joined the room" "09:59";
            system_msg "bob has joined the room" "09:59";
            system_msg "alice started a video call" "09:59";
            system_msg "alice started a video call" "10:00";
            system_msg "alice has left the room" "10:00"];
         video_call := {| active := true; participants := ["A"] |} |}.
Proof.
  split_and!.
  - vm_compute. reflexivity.
  - vm_compute. reflexivity.
  - intros Hnd. apply NoDup_cons in Hnd as [Hin _].
    apply Hin, list_elem_of_here.
  - intros [_ Hsub].
    specialize (Hsub "A" (list_elem_of_here _ _)).
    cbn in Hsub. apply list_elem_of_singleton in Hsub. discriminate.
Qed.

(** C4.  A second [leave_video_call] is not a no-op.  Alice, alone in DEN,
    starts a call and leaves it.  When she asks to leave it once more, the
    participants and the flag stay as they are, but the room is told again
    that the call has ended and that she has left it, and both lines are
    appended to the history once more; [leave_room] and [disconnect]
    announce a departure from the call only for a session that was in it. *)
Theorem second_leave_video_call_is_announced :
  exec sample_clock sample_uuid4 0 "A" (on_leave_video_call (room_data "den"))
    (world_after left_call_once)
  = Some (world_after left_call_twice,
          [to_all "DEN" video_call_ended;
           to_all "DEN" (user_left_call "A" "alice");
           to_all "DEN"
             (new_message (system_msg "alice left the video call" "10:00"))]) ∧
  history (world_after left_call_twice) "DEN" =
    history (world_after left_call_once) "DEN" ++
    [system_msg "Video call ended" "10:00";
     system_msg "alice left the video call" "10:00"] ∧
  video_call <$> active_rooms (world_after left_call_once) !! "DEN" =
    Some {| active := false; participants := [] |} ∧
  video_call <$> active_rooms (world_after left_call_twice) !! "DEN" =
    Some {| active := false; participants := [] |} ∧
  history (world_after left_call_twice) "DEN"
    ≠ history (world_after left_call_once) "DEN".
Proof.
  split_and!; try (vm_compute; reflexivity).
  vm_compute. discriminate.
Qed.

(* ===================================================================== *)
(** ** Creating a room *)

Section Creating.
Context {lib : StrLib}.
Variables now uuid4 : nat → string.

(** X1.  When [create_room] returns, the id it announces was not in the
    store, the room stored under it is the empty room, every other room and
    the socket.io membership are as before, and the only event is
    [room_created], sent to the requester. *)
Theorem create_room_stores_new_room fuel sid data w w' out :
  exec now uuid4 fuel sid (on_create_room data) w = Some (w', out) →
  ∃ r, active_rooms w !! r = None ∧
       active_rooms w' = <[r := new_room]> (active_rooms w) ∧
       sio_rooms w' = sio_rooms w ∧
       clock_reads w' = clock_reads w ∧
       out = [to_requester sid (room_created r)].
Proof.
  intros (r & n & Hfresh & -> & ->)%create_room_returns.
  exists r. by split_and!.
Qed.

Lemma unique_room_id_finds k : ∀ fuel r w,
  k ≤ fuel →
  (∀ j, j < k →
     is_Some (active_rooms w !!
                match j with 0 => r | S j' => candidate uuid4 (uuid_draws w + j') end)) →
  active_rooms w !!
    match k with 0 => r | S k' => candidate uuid4 (uuid_draws w + k') end = None →
  unique_room_id uuid4 fuel r w =
    (Ok match k with 0 => r | S k' => candidate uuid4 (uuid_draws w + k') end,
     draw k w, []).
Proof.
  induction k as [|k IH]; intros fuel r w Hk Htaken Hfree.
  - destruct fuel; cbn [unique_room_id]; rewrite bind_run;
      unfold in_active_rooms; rewrite Hfree; cbn; by rewrite draw_0.
  - destruct fuel as [|fuel]; [lia|].
    cbn [unique_room_id]. rewrite bind_run. unfold in_active_rooms.
    destruct (Htaken 0 ltac:(lia)) as [room0 Hr0]. rewrite Hr0.
    unfold generate_room_id. cbn.
    change {| active_rooms := active_rooms w; sio_rooms := sio_rooms w;
              clock_reads := clock_reads w; uuid_draws := S (uuid_draws w) |}
      with (draw 1 w).
    fold (candidate uuid4 (uuid_draws w)).
    rewrite (IH fuel (candidate uuid4 (uuid_draws w)) (draw 1 w)).
    + cbn. rewrite draw_draw. replace (k + 1) with (S k) by lia.
      destruct k as [|k']; [by rewrite Nat.add_0_r|].
      by replace (S (uuid_draws w + k')) with (uuid_draws w + S k') by lia.
    + lia.
    + intros j Hj. specialize (Htaken (S j) ltac:(lia)). cbn in *.
      destruct j as [|j']; [by rewrite Nat.add_0_r in Htaken|].
      by replace (S (uuid_draws w + j')) with (uuid_draws w + S j') by lia.
    + cbn in *. destruct k as [|k']; [by rewrite Nat.add_0_r in Hfree|].
      by replace (S (uuid_draws w + k')) with (uuid_draws w + S k') by lia.
Qed.

(** X2.  [create_room] stops at the first identifier drawn whose room id is
    free: when the first [k] candidates are taken and the next one is not,
    and the fuel covers [k] more draws, it returns with that id after
    [k + 1] draws and stores the empty room under it. *)
Theorem create_room_takes_first_free_id fuel sid data w k :
  k ≤ fuel →
  (∀ j, j < k →
     is_Some (active_rooms w !! candidate uuid4 (uuid_draws w + j))) →
  active_rooms w !! candidate uuid4 (uuid_draws w + k) = None →
  exec now uuid4 fuel sid (on_create_room data) w =
    Some (store (candidate uuid4 (uuid_draws w + k)) new_room (draw (S k) w),
          [to_requester sid (room_created (candidate uuid4 (uuid_draws w + k)))]).
Proof.
  intros Hk Htaken Hfree.
  unfold exec. cbn [handler]. unfold handle_create_room.
  rewrite try_except_run, !bind_run. unfold generate_room_id. cbn.
  change {| active_rooms := active_rooms w; sio_rooms := sio_rooms w;
            clock_reads := clock_reads w; uuid_draws := S (uuid_draws w) |}
    with (draw 1 w).
  fold (candidate uuid4 (uuid_draws w)).
  rewrite bind_run.
  rewrite (unique_room_id_finds k fuel (candidate uuid4 (uuid_draws w)) (draw 1 w)).
  - cbn. rewrite draw_draw. replace (k + 1) with (S k) by lia.
    destruct k as [|k']; [by rewrite Nat.add_0_r|].
    by replace (S (uuid_draws w + k')) with (uuid_draws w + S k') by lia.
  - done.
  - intros j Hj. specialize (Htaken j Hj). cbn.
    destruct j as [|j']; [by rewrite Nat.add_0_r in Htaken|].
    by replace (S (uuid_draws w + j')) with (uuid_draws w + S j') by lia.
  - cbn. destruct k as [|k']; [by rewrite Nat.add_0_r in Hfree|].
    by replace (S (uuid_draws w + k')) with (uuid_draws w + S k') by lia.
Qed.

End Creating.

Lemma create_room_stores_new_room_witness :
  ∃ r, active_rooms initial_world !! r = None ∧
       active_rooms (world_after [("A", on_create_room (join_data "" "alice"))])
         = <[r := new_room]> (active_rooms initial_world) ∧
       sio_rooms (world_after [("A", on_create_room (join_data "" "alice"))])
         = sio_rooms initial_world ∧
       clock_reads (world_after [("A", on_create_room (join_data "" "alice"))])
         = clock_reads initial_world ∧
       events_of [("A", on_create_room (join_data "" "alice"))]
         = [to_requester "A" (room_created r)].
Proof.
  apply (create_room_stores_new_room sample_clock sample_uuid4 0 "A"
           (join_data "" "alice") initial_world).
  vm_compute. reflexivity.
Defined.

Lemma create_room_takes_first_free_id_witness :
  exec sample_clock fresh_then_same_uuid4 1 "B"
    (on_create_room (join_data "" "bob"))
    (world_after [("A", on_join_room (join_data "3f9a1c" "alice"))])
  = Some (store "B07D44" new_room
            (draw 2 (world_after [("A", on_join_room (join_data "3f9a1c" "alice"))])),
          [to_requester "B" (room_created "B07D44")]).
Proof.
  change "B07D44" with
    (candidate fresh_then_same_uuid4
       (uuid_draws (world_after [("A", on_join_room (join_data "3f9a1c" "alice"))])
        + 1)).
  apply (create_room_takes_first_free_id sample_clock fresh_then_same_uuid4 1 "B"
           (join_data "" "bob")
           (world_after [("A", on_join_room (join_data "3f9a1c" "alice"))]) 1).
  - lia.
  - intros j Hj. assert (j = 0) as -> by lia. vm_compute. eauto.
  - vm_compute. reflexivity.
Defined.

(* ===================================================================== *)
(** ** Room ids *)

Lemma isspace_upper_char c : Py.isspace (Py.upper_char c) = Py.isspace c.
Proof. destruct c as [[] [] [] [] [] [] [] []]; reflexivity. Qed.

Lemma upper_char_idempotent c : Py.upper_char (Py.upper_char c) = Py.upper_char c.
Proof. destruct c as [[] [] [] [] [] [] [] []]; reflexivity. Qed.

Lemma upper_idempotent s : Py.upper (Py.upper s) = Py.upper s.
Proof.
  unfold Py.upper. induction s as [|c s IH]; cbn; [done|].
  by rewrite upper_char_idempotent, IH.
Qed.

Lemma no_whitespace_upper s : no_whitespace (Py.upper s) = no_whitespace s.
Proof.
  unfold Py.upper. induction s as [|c s IH]; [done|].
  cbn [Py.map_chars no_whitespace]. by rewrite isspace_upper_char, IH.
Qed.

Lemma no_whitespace_take n : ∀ s,
  no_whitespace s = true → no_whitespace (Py.take n s) = true.
Proof.
  induction n as [|n IH]; intros [|c s]; try done.
  change (Py.take (S n) (String c s)) with (String c (Py.take n s)).
  cbn [no_whitespace]. intros [Hc Hs]%andb_prop. by rewrite Hc, IH.
Qed.

Lemma no_whitespace_rev_app s : ∀ acc,
  no_whitespace (String.rev_app s acc) = no_whitespace s && no_whitespace acc.
Proof.
  induction s as [|c s IH]; intros acc; [done|].
  cbn [String.rev_app no_whitespace]. rewrite IH. cbn [no_whitespace].
  by destruct (Py.isspace c), (no_whitespace s).
Qed.

Lemma lstrip_no_whitespace s : no_whitespace s = true → Py.lstrip s = s.
Proof.
  destruct s as [|c s]; [done|]. cbn [no_whitespace Py.lstrip].
  by destruct (Py.isspace c).
Qed.

Lemma rev_involutive s : String.rev (String.rev s) = s.
Proof.
  induction s as [|c s IH]; [done|].
  unfold String.rev at 2. cbn [String.rev_app].
  rewrite rev_app_spec, rev_app_string, IH. done.
Qed.

Lemma strip_no_whitespace s : no_whitespace s = true → Py.strip s = s.
Proof.
  intros Hs. unfold Py.strip, Py.rstrip. rewrite (lstrip_no_whitespace s Hs).
  rewrite lstrip_no_whitespace, rev_involutive; [done|].
  unfold String.rev. by rewrite no_whitespace_rev_app, Hs.
Qed.

Lemma upper_char_ascii c :
  (nat_of_ascii c <? 128) = true → (nat_of_ascii (Py.upper_char c) <? 128) = true.
Proof. destruct c as [[] [] [] [] [] [] [] []]; done. Qed.

Lemma is_ascii_upper s : Py.is_ascii s = true → Py.is_ascii (Py.upper s) = true.
Proof.
  unfold Py.upper. induction s as [|c s IH]; [done|].
  cbn [Py.map_chars Py.is_ascii]. intros [Hc Hs]%andb_prop.
  by rewrite upper_char_ascii, IH.
Qed.

Lemma is_ascii_take n : ∀ s,
  Py.is_ascii s = true → Py.is_ascii (Py.take n s) = true.
Proof.
  induction n as [|n IH]; intros [|c s]; try done.
  change (Py.take (S n) (String c s)) with (String c (Py.take n s)).
  cbn [Py.is_ascii]. intros [Hc Hs]%andb_prop. by rewrite Hc, IH.
Qed.

Lemma candidate_ascii {lib : StrLib} uuid4 n :
  Py.is_ascii (uuid4 n) = true →
  candidate uuid4 n = Py.upper (Py.take 6 (uuid4 n)).
Proof. intros Ha. unfold candidate. apply str_upper_ascii. by apply is_ascii_take. Qed.

Lemma candidate_normalised {lib : StrLib} uuid4 n :
  Py.is_ascii (uuid4 n) = true →
  no_whitespace (uuid4 n) = true →
  str_upper (str_strip (candidate uuid4 n)) = candidate uuid4 n.
Proof.
  intros Ha Hs. rewrite candidate_ascii by done.
  assert (Py.is_ascii (Py.upper (Py.take 6 (uuid4 n))) = true) as Hup
    by (by apply is_ascii_upper, is_ascii_take).
  rewrite (str_strip_ascii _ Hup), strip_no_whitespace, (str_upper_ascii _ Hup).
  - apply upper_idempotent.
  - rewrite no_whitespace_upper. by apply no_whitespace_take.
Qed.

Lemma candidate_not_empty {lib : StrLib} uuid4 n : uuid4 n ≠ "" → candidate uuid4 n ≠ "".
Proof.
  unfold candidate. intros Hne Hnil. apply str_upper_empty in Hnil.
  by destruct (uuid4 n).
Qed.

Lemma unique_room_id_candidate {lib : StrLib} uuid4 fuel : ∀ r w r' w' out,
  unique_room_id uuid4 fuel r w = (Ok r', w', out) →
  r' = r ∨ ∃ n, r' = candidate uuid4 n.
Proof.
  induction fuel as [|fuel IH]; intros r w r' w' out; cbn [unique_room_id];
    rewrite bind_run; unfold in_active_rooms;
    destruct (active_rooms w !! r) eqn:Hr; cbn;
    try (by intros [= <- <- <-]; left); try done.
  unfold generate_room_id. cbn. fold (candidate uuid4 (uuid_draws w)).
  match goal with |- context [unique_room_id uuid4 fuel ?r0 ?w0] =>
    destruct (unique_room_id uuid4 fuel r0 w0) as [[res1 w1] out1] eqn:Hu
  end.
  destruct res1 as [r1| |]; intros [= <- <- <-].
  apply IH in Hu as [->|[n ->]]; right; eauto.
Qed.

Lemma create_room_announces_candidate {lib : StrLib} now uuid4 fuel sid data w w' r :
  exec now uuid4 fuel sid (on_create_room data) w
    = Some (w', [to_requester sid (room_created r)]) →
  (∃ n, r = candidate uuid4 n) ∧ active_rooms w' !! r = Some new_room.
Proof.
  intros Hexec. split.
  - revert Hexec. unfold exec. cbn [handler]. unfold handle_create_room.
    rewrite try_except_run, !bind_run. unfold generate_room_id. cbn.
    fold (candidate uuid4 (uuid_draws w)). rewrite bind_run.
    match goal with |- context [unique_room_id uuid4 fuel ?r0 ?w0] =>
      destruct (unique_room_id uuid4 fuel r0 w0) as [[res1 w1] out1] eqn:Hu
    end.
    pose proof Hu as Hspec. apply unique_room_id_spec in Hspec as (-> & _ & Hres).
    destruct res1 as [r1| |]; [|done|done].
    cbn. intros [= <- <-].
    apply unique_room_id_candidate in Hu as [->|[n ->]]; eauto.
  - apply create_room_returns in Hexec as (r0 & n & _ & -> & [= <-]).
    unfold store. cbn. apply lookup_insert_eq.
Qed.

(** X3.  The id announced by [create_room] opens the room it created.  With
    identifiers that are not empty, ASCII and without white space, as those
    of [uuid.uuid4] are, a [join_room] that sends back the id of a
    [room_created] event, with a username that is not blank once stripped,
    enters that room as its first member, under the stripped name: the
    joiner is sent an empty history and itself as the only user. *)
Theorem created_room_can_be_joined {lib : StrLib} now uuid4 fuel sid data w w1 r sid' data' :
  (∀ n, uuid4 n ≠ "" ∧ Py.is_ascii (uuid4 n) = true ∧
        no_whitespace (uuid4 n) = true) →
  exec now uuid4 fuel sid (on_create_room data) w
    = Some (w1, [to_requester sid (room_created r)]) →
  k_room_id data' = Some r →
  str_strip (default "Anonymous" (k_username data')) ≠ "" →
  let name := str_strip (default "Anonymous" (k_username data')) in
  ∃ w2,
    exec now uuid4 fuel sid' (on_join_room data') w1 =
      Some (w2,
            [to_requester sid' (room_joined r name [] [name] false);
             to_others r sid' (user_joined name (now (S (clock_reads w1))) [name])]) ∧
    active_rooms w2 !! r = Some (fresh_room sid' name (now (clock_reads w1))).
Proof.
  intros Huuid Hcreate Hid Hname name.
  apply create_room_announces_candidate in Hcreate as [[n ->] Hroom].
  destruct (Huuid n) as (Hne & Hascii & Hns).
  assert (get_room_id data' = candidate uuid4 n) as Hr.
  { unfold get_room_id. rewrite Hid. cbn. by apply candidate_normalised. }
  pose proof (join_room_success now sid' data' w1) as Hjoin.
  cbv zeta in Hjoin. rewrite Hr, Hroom in Hjoin.
  specialize (Hjoin (candidate_not_empty uuid4 n Hne) Hname (not_elem_of_nil _)).
  eexists. split.
  - unfold exec. cbn [handler]. rewrite Hjoin. reflexivity.
  - cbn. by rewrite lookup_insert_eq.
Qed.

Lemma created_room_can_be_joined_witness :
  ∃ w2,
    exec sample_clock sample_uuid4 0 "B" (on_join_room (join_data "3F9A1C" " bob "))
      (world_after [("A", on_create_room (join_data "" "alice"))]) =
      Some (w2,
            [to_requester "B" (room_joined "3F9A1C" "bob" [] ["bob"] false);
             to_others "3F9A1C" "B" (user_joined "bob" "09:59" ["bob"])]) ∧
    active_rooms w2 !! "3F9A1C" = Some (fresh_room "B" "bob" "09:59").
Proof.
  rapply (created_room_can_be_joined sample_clock sample_uuid4 0 "A"
           (join_data "" "alice") initial_world
           (world_after [("A", on_create_room (join_data "" "alice"))])
           "3F9A1C" "B" (join_data "3F9A1C" " bob ")).
  - intros n. split_and!; [discriminate|vm_compute; reflexivity..].
  - vm_compute. reflexivity.
  - reflexivity.
  - vm_compute. discriminate.
Defined.

(* ===================================================================== *)
(** ** Joining a room *)

Lemma dict_set_new {V} k (v : V) (d : Py.dict V) :
  Py.dict_get k d = None → Py.dict_set k v d = d ++ [(k, v)].
Proof.
  induction d as [|[k' v'] d IH]; cbn; [done|].
  destruct (decide (k' = k)); [done|]. intros H. by rewrite IH.
Qed.

Lemma dict_set_keys_known {V} k (v old : V) (d : Py.dict V) :
  Py.dict_get k d = Some old → Py.dict_keys (Py.dict_set k v d) = Py.dict_keys d.
Proof.
  unfold Py.dict_keys. induction d as [|[k' v'] d IH]; cbn; [done|].
  destruct (decide (k' = k)) as [->|]; [done|]. intros H. cbn. by rewrite IH.
Qed.

Lemma dict_get_set {V} k (v : V) (d : Py.dict V) :
  Py.dict_get k (Py.dict_set k v d) = Some v.
Proof.
  induction d as [|[k' v'] d IH]; cbn.
  - by rewrite decide_True.
  - destruct (decide (k' = k)) as [->|Hne]; cbn.
    + by rewrite decide_True.
    + by rewrite decide_False.
Qed.

Lemma entered_sits sid r w :
  r ∈ default [] (sio_rooms (SocketIO.entered sid r w) !! sid).
Proof.
  unfold SocketIO.entered. cbn. rewrite lookup_insert_eq. cbn.
  destruct (Py.contains r (default [] (sio_rooms w !! sid))) eqn:Hc.
  - by apply contains_true.
  - apply elem_of_app. right. apply list_elem_of_here.
Qed.

Section Joining.
Context {lib : StrLib}.
Variables now uuid4 : nat → string.

(** X4.  [join_room] turns down a request without a room id or without a
    username before it looks at the store: a room id that is missing, or
    empty once stripped, is answered with the room-id error, and otherwise a
    username that is empty once stripped with the username error; either way
    the world is as before, no room is created and only the requester is
    answered. *)
Theorem join_room_requires_id_and_name fuel sid data w :
  (str_strip (default "" (k_room_id data)) = "" →
   exec now uuid4 fuel sid (on_join_room data) w =
     Some (w, [to_requester sid (error "Room ID is required")])) ∧
  (str_strip (default "" (k_room_id data)) ≠ "" →
   str_strip (default "Anonymous" (k_username data)) = "" →
   exec now uuid4 fuel sid (on_join_room data) w =
     Some (w, [to_requester sid (error "Username is required")])).
Proof.
  split.
  - intros Hid. unfold exec. cbn [handler].
    rewrite join_room_no_room_id; [done|]. unfold get_room_id.
    by rewrite Hid, (str_upper_ascii "" eq_refl).
  - intros Hid Hname. unfold exec. cbn [handler].
    rewrite join_room_no_username; [done| |done].
    unfold get_room_id. intros Hnil. by apply str_upper_empty in Hnil.
Qed.


(** X5.  A session that is not yet in a room of the store joins it under a
    name nobody there bears: it is put last among the members, the history
    gains the line of the join and nothing else changes in the room; the
    joiner is sent the history as it was before its join together with the
    new list of names and the state of the call, the other members are sent
    the new list of names, and the session sits in the socket.io room. *)
Theorem join_room_enters_room fuel sid data w room :
  let r := get_room_id data in
  let name := str_strip (default "Anonymous" (k_username data)) in
  let names := Py.dict_values (users room) ++ [name] in
  r ≠ "" → name ≠ "" →
  active_rooms w !! r = Some room →
  Py.dict_get sid (users room) = None →
  str_lower name ∉ lowered_names room →
  ∃ w',
    exec now uuid4 fuel sid (on_join_room data) w =
      Some (w',
            [to_requester sid
               (room_joined r name (messages room) names
                  (active (video_call room)));
             to_others r sid
               (user_joined name (now (S (clock_reads w))) names)]) ∧
    active_rooms w' !! r =
      Some {| users := users room ++ [(sid, name)];
              messages := messages room ++
                [system_msg (name +:+ " has joined the room") (now (clock_reads w))];
              video_call := video_call room |} ∧
    r ∈ default [] (sio_rooms w' !! sid).
Proof.
  intros r name names Hr Hname Hroom Hnew Hfree.
  pose proof (join_room_success now sid data w) as Hjoin.
  cbv zeta in Hjoin. fold r name in Hjoin. rewrite Hroom in Hjoin.
  cbn [default from_option id] in Hjoin.
  specialize (Hjoin Hr Hname Hfree).
  rewrite (dict_set_new sid name (users room) Hnew) in Hjoin.
  eexists. split_and!.
  - unfold exec. cbn [handler]. rewrite Hjoin.
    unfold names, Py.dict_values. by rewrite fmap_app.
  - cbn. rewrite lookup_insert_eq. unfold room_after_join. cbn.
    by rewrite (dict_set_new sid name (users room) Hnew).
  - cbn. rewrite lookup_insert_eq. cbn.
    destruct (Py.contains r (default [] (sio_rooms w !! sid))) eqn:Hc.
    + by apply contains_true.
    + apply elem_of_app. right. apply list_elem_of_here.
Qed.

(** X6.  A member that joins its room again under another name is renamed
    where it stands: the keys of the members and their order stay as they
    are, its name is the new one, and the history gains one more line of a
    join. *)
Theorem join_room_again_renames fuel sid data w room old :
  let r := get_room_id data in
  let name := str_strip (default "Anonymous" (k_username data)) in
  r ≠ "" → name ≠ "" →
  active_rooms w !! r = Some room →
  Py.dict_get sid (users room) = Some old →
  str_lower name ∉ lowered_names room →
  ∃ w' out room',
    exec now uuid4 fuel sid (on_join_room data) w = Some (w', out) ∧
    active_rooms w' !! r = Some room' ∧
    Py.dict_keys (users room') = Py.dict_keys (users room) ∧
    Py.dict_get sid (users room') = Some name ∧
    messages room' = messages room ++
      [system_msg (name +:+ " has joined the room") (now (clock_reads w))] ∧
    video_call room' = video_call room.
Proof.
  intros r name Hr Hname Hroom Hold Hfree.
  pose proof (join_room_success now sid data w) as Hjoin.
  cbv zeta in Hjoin. fold r name in Hjoin. rewrite Hroom in Hjoin.
  cbn [default from_option id] in Hjoin.
  specialize (Hjoin Hr Hname Hfree).
  eexists _, _, _. split_and!.
  - unfold exec. cbn [handler]. rewrite Hjoin. reflexivity.
  - cbn. by rewrite lookup_insert_eq.
  - cbn. by eapply dict_set_keys_known.
  - cbn. apply dict_get_set.
  - done.
  - done.
Qed.

(** X7.  A [join_room] without a username joins under the name Anonymous,
    in a room of the store as in a room the join creates, and is turned down
    with the name-taken error when a member of the room already bears that
    name once lower-cased. *)
Theorem join_room_without_username fuel sid data w :
  k_username data = None → get_room_id data ≠ "" →
  ("anonymous" ∉ lowered_names
                   (default new_room (active_rooms w !! get_room_id data)) →
   ∃ w' out room',
     exec now uuid4 fuel sid (on_join_room data) w = Some (w', out) ∧
     active_rooms w' !! get_room_id data = Some room' ∧
     Py.dict_get sid (users room') = Some "Anonymous") ∧
  ("anonymous" ∈ lowered_names
                   (default new_room (active_rooms w !! get_room_id data)) →
   exec now uuid4 fuel sid (on_join_room data) w =
     Some (w, [to_requester sid (error "Username already taken in this room")])).
Proof.
  intros Hnone Hr.
  assert (str_strip (default "Anonymous" (k_username data)) = "Anonymous") as Hname.
  { rewrite Hnone. cbn [default from_option id].
    by rewrite (str_strip_ascii "Anonymous" eq_refl). }
  assert (str_lower "Anonymous" = "anonymous") as Hlow
    by (by rewrite (str_lower_ascii "Anonymous" eq_refl)).
  split.
  - intros Hfree.
    pose proof (join_room_success now sid data w) as Hjoin.
    cbv zeta in Hjoin. rewrite Hname, Hlow in Hjoin.
    specialize (Hjoin Hr ltac:(done) Hfree).
    eexists _, _, _. split_and!.
    + unfold exec. cbn [handler]. rewrite Hjoin. reflexivity.
    + cbn. by rewrite lookup_insert_eq.
    + cbn. apply dict_get_set.
  - intros Htaken.
    destruct (active_rooms w !! get_room_id data) as [room|] eqn:Hroom;
      [|by apply elem_of_nil in Htaken].
    unfold exec. cbn [handler].
    erewrite join_room_name_taken; [done|done| |done|]; by rewrite Hname, ?Hlow.
Qed.

End Joining.

Lemma join_room_requires_id_and_name_witness :
  exec sample_clock sample_uuid4 0 "A" (on_join_room (join_data "  " "alice"))
    initial_world =
    Some (initial_world, [to_requester "A" (error "Room ID is required")]) ∧
  exec sample_clock sample_uuid4 0 "A" (on_join_room (join_data "den" " "))
    initial_world =
    Some (initial_world, [to_requester "A" (error "Username is required")]).
Proof.
  split.
  - apply (proj1 (join_room_requires_id_and_name sample_clock sample_uuid4 0 "A" (join_data "  " "alice")
                    initial_world)).
    vm_compute. reflexivity.
  - apply (proj2 (join_room_requires_id_and_name sample_clock sample_uuid4 0 "A" (join_data "den" " ")
                    initial_world)).
    + vm_compute. discriminate.
    + vm_compute. reflexivity.
Defined.


Lemma join_room_enters_room_witness :
  ∃ w',
    exec sample_clock sample_uuid4 0 "B" (on_join_room (join_data "den" "bob"))
      (world_after alice_in_den) =
      Some (w',
            [to_requester "B"
               (room_joined "DEN" "bob"
                  [system_msg "alice has joined the room" "09:59"]
                  ["alice"; "bob"] false);
             to_others "DEN" "B" (user_joined "bob" "09:59" ["alice"; "bob"])]) ∧
    active_rooms w' !! "DEN" =
      Some {| users := [("A", "alice"); ("B", "bob")];
              messages :=
                [system_msg "alice has joined the room" "09:59";
                 system_msg "bob has joined the room" "09:59"];
              video_call := {| active := false; participants := [] |} |} ∧
    "DEN" ∈ default [] (sio_rooms w' !! "B").
Proof.
  rapply (join_room_enters_room sample_clock sample_uuid4 0 "B"
           (join_data "den" "bob") (world_after alice_in_den)
           (fresh_room "A" "alice" "09:59")).
  - vm_compute. discriminate.
  - vm_compute. discriminate.
  - vm_compute. reflexivity.
  - vm_compute. reflexivity.
  - vm_compute. intros [=]%list_elem_of_singleton.
Defined.

Lemma join_room_again_renames_witness :
  ∃ w' out room',
    exec sample_clock sample_uuid4 0 "A" (on_join_room (join_data "den" "alicia"))
      (world_after alice_and_bob_in_den) = Some (w', out) ∧
    active_rooms w' !! "DEN" = Some room' ∧
    Py.dict_keys (users room') = ["A"; "B"] ∧
    Py.dict_get "A" (users room') = Some "alicia" ∧
    messages room' =
      [system_msg "alice has joined the room" "09:59";
       system_msg "bob has joined the room" "09:59"] ++
      [system_msg "alicia has joined the room" "09:59"] ∧
    video_call room' = {| active := false; participants := [] |}.
Proof.
  rapply (join_room_again_renames sample_clock sample_uuid4 0 "A"
           (join_data "den" "alicia") (world_after alice_and_bob_in_den)
           (room_after_join "B" "bob" "09:59" (fresh_room "A" "alice" "09:59"))
           "alice").
  - vm_compute. discriminate.
  - vm_compute. discriminate.
  - vm_compute. reflexivity.
  - vm_compute. reflexivity.
  - vm_compute. intros Hin.
    apply elem_of_cons in Hin as [[=]|Hin].
    apply list_elem_of_singleton in Hin. discriminate.
Defined.

Lemma join_room_without_username_witness :
  ∃ w' out room',
    exec sample_clock sample_uuid4 0 "B" (on_join_room (room_data "lab"))
      (world_after alice_in_den) = Some (w', out) ∧
    active_rooms w' !! "LAB" = Some room' ∧
    Py.dict_get "B" (users room') = Some "Anonymous".
Proof.
  refine (proj1 (join_room_without_username sample_clock sample_uuid4 0 "B"
                   (room_data "lab") (world_after alice_in_den) _ _) _).
  - reflexivity.
  - vm_compute. discriminate.
  - vm_compute. apply not_elem_of_nil.
Defined.

(* ===================================================================== *)
(** ** Messages *)

Section Messages.
Context {lib : StrLib}.
Variables now uuid4 : nat → string.

(** X8.  A text of a member that is not empty once stripped is stored
    stripped, stamped with the member's name, its session and the time: it is
    appended to the history of the room it names and emitted as one
    [new_message] to the socket.io room of that name, nobody skipped; the
    members, the call and every other room stay as they are. *)
Theorem send_message_reaches_room fuel sid data w room name :
  let r := get_room_id data in
  let body := str_strip (default "" (k_message data)) in
  let m := text_msg name body (now (clock_reads w)) sid in
  body ≠ "" →
  active_rooms w !! r = Some room →
  Py.dict_get sid (users room) = Some name →
  ∃ w',
    exec now uuid4 fuel sid (on_send_message data) w
      = Some (w', [to_all r (new_message m)]) ∧
    active_rooms w' =
      <[r := {| users := users room; messages := messages room ++ [m];
                video_call := video_call room |}]> (active_rooms w) ∧
    history w' r = history w r ++ [m].
Proof.
  intros r body m Hbody Hroom Hname.
  eexists. split_and!.
  - unfold exec. cbn [handler]. erewrite send_message_member by done. reflexivity.
  - done.
  - unfold history. cbn. rewrite lookup_insert_eq. fold r. by rewrite Hroom.
Qed.

(** X9.  A voice note of a member whose payload is not empty and not longer
    than 5 MiB, the bound included, is stored and sent to the whole room as
    it came, with the duration given, or 0 when none is given. *)
Theorem voice_note_reaches_room fuel sid data w room name audio :
  let r := get_room_id data in
  let m := voice_msg name audio (default 0%Z (k_duration data))
             (now (clock_reads w)) sid in
  k_audio_data data = Some audio → audio ≠ "" →
  (Py.len audio ≤ 5 * 1024 * 1024)%Z →
  active_rooms w !! r = Some room →
  Py.dict_get sid (users room) = Some name →
  ∃ w',
    exec now uuid4 fuel sid (on_send_voice_note data) w
      = Some (w', [to_all r (new_message m)]) ∧
    active_rooms w' =
      <[r := {| users := users room; messages := messages room ++ [m];
                video_call := video_call room |}]> (active_rooms w) ∧
    history w' r = history w r ++ [m].
Proof.
  intros r m Ha Hne Hlen Hroom Hname.
  eexists. split_and!.
  - unfold exec. cbn [handler]. erewrite voice_member by done. reflexivity.
  - done.
  - unfold history. cbn. rewrite lookup_insert_eq. fold r. by rewrite Hroom.
Qed.

(** X10.  [send_voice_note] tests the payload first, the membership next and
    the size last: a request without a payload, or with an empty one, is
    answered with the no-audio error whoever sends it, and a payload from a
    session that is not in the room with the not-in-this-room error whatever
    its size; the world stays as it is. *)
Theorem voice_note_checks_in_order fuel sid data w :
  (k_audio_data data = None ∨ k_audio_data data = Some "" →
   exec now uuid4 fuel sid (on_send_voice_note data) w =
     Some (w, [to_requester sid (error "No audio data received")])) ∧
  (∀ audio,
     k_audio_data data = Some audio → audio ≠ "" →
     ¬ member w sid (get_room_id data) →
     exec now uuid4 fuel sid (on_send_voice_note data) w =
       Some (w, [not_in_room_error sid])).
Proof.
  split.
  - intros H. unfold exec. cbn [handler]. by rewrite voice_no_audio.
  - intros audio Ha Hne Hs. unfold exec. cbn [handler].
    by erewrite voice_stranger.
Qed.

End Messages.

Lemma send_message_reaches_room_witness :
  ∃ w',
    exec sample_clock sample_uuid4 0 "A"
      (on_send_message (message_data "den" "  hi  "))
      (world_after alice_and_bob_in_den)
      = Some (w', [to_all "DEN" (new_message (text_msg "alice" "hi" "09:59" "A"))]) ∧
    active_rooms w' =
      <["DEN" := {| users := [("A", "alice"); ("B", "bob")];
                    messages :=
                      [system_msg "alice has joined the room" "09:59";
                       system_msg "bob has joined the room" "09:59"] ++
                      [text_msg "alice" "hi" "09:59" "A"];
                    video_call := {| active := false; participants := [] |} |}]>
        (active_rooms (world_after alice_and_bob_in_den)) ∧
    history w' "DEN" =
      history (world_after alice_and_bob_in_den) "DEN" ++
      [text_msg "alice" "hi" "09:59" "A"].
Proof.
  rapply (send_message_reaches_room sample_clock sample_uuid4 0 "A"
           (message_data "den" "  hi  ") (world_after alice_and_bob_in_den)
           (room_after_join "B" "bob" "09:59" (fresh_room "A" "alice" "09:59"))
           "alice").
  - vm_compute. discriminate.
  - vm_compute. reflexivity.
  - vm_compute. reflexivity.
Defined.

Lemma voice_note_reaches_room_witness :
  ∃ w',
    exec sample_clock sample_uuid4 0 "A"
      (on_send_voice_note (untimed_voice_data "den" "UklGRg=="))
      (world_after alice_in_den)
      = Some (w', [to_all "DEN"
                     (new_message (voice_msg "alice" "UklGRg==" 0 "09:59" "A"))]) ∧
    active_rooms w' =
      <["DEN" := {| users := [("A", "alice")];
                    messages :=
                      [system_msg "alice has joined the room" "09:59"] ++
                      [voice_msg "alice" "UklGRg==" 0 "09:59" "A"];
                    video_call := {| active := false; participants := [] |} |}]>
        (active_rooms (world_after alice_in_den)) ∧
    history w' "DEN" =
      history (world_after alice_in_den) "DEN" ++
      [voice_msg "alice" "UklGRg==" 0 "09:59" "A"].
Proof.
  rapply (voice_note_reaches_room sample_clock sample_uuid4 0 "A"
           (untimed_voice_data "den" "UklGRg==")
           (world_after alice_in_den) (fresh_room "A" "alice" "09:59")
           "alice" "UklGRg==").
  - reflexivity.
  - discriminate.
  - vm_compute. discriminate.
  - vm_compute. reflexivity.
  - vm_compute. reflexivity.
Defined.

Lemma voice_note_checks_in_order_witness :
  exec sample_clock sample_uuid4 0 "B"
    (on_send_voice_note
       (voice_data "den" (replicate_char (N.to_nat 6000000) "a") 2))
    (world_after alice_in_den)
  = Some (world_after alice_in_den, [not_in_room_error "B"]).
Proof.
  apply (proj2 (voice_note_checks_in_order sample_clock sample_uuid4 0 "B"
                  (voice_data "den" (replicate_char (N.to_nat 6000000) "a") 2)
                  (world_after alice_in_den))
           (replicate_char (N.to_nat 6000000) "a")).
  - reflexivity.
  - intros H. apply (f_equal String.length) in H.
    rewrite length_replicate_char in H. cbn in H. lia.
  - intros (room & Hr & Hm).
    assert (get_room_id
              (voice_data "den" (replicate_char (N.to_nat 6000000) "a") 2)
            = "DEN") as Hid by (vm_compute; reflexivity).
    rewrite Hid in Hr. vm_compute in Hr. injection Hr as <-.
    vm_compute in Hm. discriminate.
Defined.

(* ===================================================================== *)
(** ** What an operation leaves alone *)

Lemma dict_get_set_other {V} k k' (v : V) (d : Py.dict V) :
  k' ≠ k → Py.dict_get k' (Py.dict_set k v d) = Py.dict_get k' d.
Proof.
  intros Hne. induction d as [|[k0 v0] d IH]; cbn.
  - by rewrite decide_False.
  - destruct (decide (k0 = k)) as [->|Hk]; cbn.
    + by rewrite !decide_False.
    + by rewrite IH.
Qed.

Lemma dict_get_del_other {V} k k' (d d' : Py.dict V) :
  k' ≠ k → Py.dict_del k d = Some d' → Py.dict_get k' d' = Py.dict_get k' d.
Proof.
  intros Hne. revert d'. induction d as [|[k0 v0] d IH]; intros d'; cbn; [done|].
  destruct (decide (k0 = k)) as [->|Hk].
  - intros [= <-]. by rewrite decide_False.
  - destruct (Py.dict_del k d) as [r|]; [|done]. intros [= <-]. cbn.
    by rewrite (IH r eq_refl).
Qed.

Lemma dict_get_drop_user_other sid sid' room :
  sid' ≠ sid →
  Py.dict_get sid' (users (drop_user sid room)) = Py.dict_get sid' (users room).
Proof.
  intros Hne. unfold drop_user. destruct (Py.dict_mem sid (users room)); [|done].
  cbn. destruct (Py.dict_del sid (users room)) as [us|] eqn:Hd; [|done].
  by eapply dict_get_del_other.
Qed.

Lemma leave_steps_keep_others sid sid' o o' room name :
  leave_steps sid o o' → sid' ≠ sid → o = Some room →
  Py.dict_get sid' (users room) = Some name →
  ∃ room', o' = Some room' ∧ Py.dict_get sid' (users room') = Some name.
Proof.
  intros Hsteps Hne. revert room.
  induction Hsteps as [o|room0 ts Hl|room0 ts o Hl Hs IH]; intros room Ho Hn.
  - eauto.
  - injection Ho as ->. rewrite users_room_after_leave in Hl.
    rewrite <- (dict_get_drop_user_other sid sid' room Hne) in Hn.
    destruct (users (drop_user sid room)); [done|]. cbn in Hl. lia.
  - injection Ho as ->. apply (IH _ eq_refl).
    by rewrite users_room_after_leave, dict_get_drop_user_other.
Qed.

Lemma effect_keeps_others {lib : StrLib} now sid r op o o' news sid' room name :
  effect now sid r op o o' news → sid' ≠ sid → o = Some room →
  Py.dict_get sid' (users room) = Some name →
  ∃ room', o' = Some room' ∧ Py.dict_get sid' (users room') = Some name.
Proof.
  intros He Hne Ho Hn. destruct He; simplify_eq; eauto.
  - eexists. split; [done|]. cbn. by rewrite dict_get_set_other.
  - eexists. split; [done|].
    by rewrite users_room_after_leave, dict_get_drop_user_other.
  - match goal with H : length _ = 0 |- _ =>
      rewrite users_room_after_leave in H;
      rewrite <- (dict_get_drop_user_other sid sid' room Hne) in Hn;
      destruct (users (drop_user sid room)); [done|cbn in H; lia]
    end.
  - by eapply leave_steps_keep_others.
  - eexists. split; [done|]. cbn. by rewrite users_add_participant.
  - eexists. split; [done|]. cbn.
    by rewrite users_end_call_if_drained, users_prune_participant.
Qed.

Lemma effect_keeps_members {lib : StrLib} now sid r op o o' news room :
  effect now sid r op o o' news → changes_members op = false → o = Some room →
  ∃ room', o' = Some room' ∧ users room' = users room.
Proof.
  intros He Hop Ho. destruct He; simplify_eq; eauto.
  - eexists. split; [done|]. cbn. apply users_add_participant.
  - eexists. split; [done|]. cbn.
    by rewrite users_end_call_if_drained, users_prune_participant.
Qed.

Section LeftAlone.
Context {lib : StrLib}.
Variables now uuid4 : nat → string.

(** X11.  A history is only ever appended to: whatever the operation, a room
    that is in the store before and after it has after it the entries it had,
    in their order, followed by those the operation wrote. *)
Theorem history_is_append_only fuel sid op w w' out r room room' :
  exec now uuid4 fuel sid op w = Some (w', out) →
  active_rooms w !! r = Some room →
  active_rooms w' !! r = Some room' →
  ∃ entries, messages room' = messages room ++ entries.
Proof.
  intros Hexec Hr Hr'.
  pose proof (exec_effect now uuid4 fuel sid op w w' out "" r Hexec) as He.
  apply effect_history in He as [Hsome _].
  destruct (Hsome room' Hr') as (entries & Hm & _).
  rewrite Hr in Hm. eauto.
Qed.

(** X12.  A session acts on its own membership only: whatever a session
    asks, every other session that was a member of a room is still a member
    of it afterwards, under the same name, so the room is still there. *)
Theorem other_members_are_kept fuel sid op w w' out r room sid' name :
  exec now uuid4 fuel sid op w = Some (w', out) →
  sid' ≠ sid →
  active_rooms w !! r = Some room →
  Py.dict_get sid' (users room) = Some name →
  ∃ room', active_rooms w' !! r = Some room' ∧
           Py.dict_get sid' (users room') = Some name.
Proof.
  intros Hexec Hne Hr Hn.
  pose proof (exec_effect now uuid4 fuel sid op w w' out "" r Hexec) as He.
  by eapply effect_keeps_others.
Qed.

(** X13.  Only [join_room], [leave_room] and [disconnect] change who is in a
    room: after any other operation (a message, a voice note, the three call
    operations, a relay, [create_room], [connect]) every room that was in
    the store is still there with the same members in the same order. *)
Theorem members_change_only_by_join_and_leave fuel sid op w w' out r room :
  exec now uuid4 fuel sid op w = Some (w', out) →
  changes_members op = false →
  active_rooms w !! r = Some room →
  ∃ room', active_rooms w' !! r = Some room' ∧ users room' = users room.
Proof.
  intros Hexec Hop Hr.
  pose proof (exec_effect now uuid4 fuel sid op w w' out "" r Hexec) as He.
  by eapply effect_keeps_members.
Qed.

End LeftAlone.


Lemma history_is_append_only_witness :
  ∃ w' out room',
    exec sample_clock sample_uuid4 0 "A" (on_leave_room (room_data "den"))
      (world_after call_started_in_den) = Some (w', out) ∧
    active_rooms w' !! "DEN" = Some room' ∧
    ∃ entries, messages room' = messages den_with_call ++ entries.
Proof.
  eexists _, _, _.
  split; [vm_compute; reflexivity|]. split; [vm_compute; reflexivity|].
  eapply (history_is_append_only sample_clock sample_uuid4 0 "A"
            (on_leave_room (room_data "den"))
            (world_after call_started_in_den) _ _ "DEN" den_with_call _);
    vm_compute; reflexivity.
Defined.

Lemma other_members_are_kept_witness :
  ∃ w' out,
    exec sample_clock sample_uuid4 0 "A" (on_leave_room (room_data "den"))
      (world_after call_started_in_den) = Some (w', out) ∧
    ∃ room', active_rooms w' !! "DEN" = Some room' ∧
             Py.dict_get "B" (users room') = Some "bob".
Proof.
  eexists _, _. split; [vm_compute; reflexivity|].
  eapply (other_members_are_kept sample_clock sample_uuid4 0 "A"
            (on_leave_room (room_data "den"))
            (world_after call_started_in_den) _ _ "DEN" den_with_call "B" "bob").
  - vm_compute. reflexivity.
  - discriminate.
  - vm_compute. reflexivity.
  - vm_compute. reflexivity.
Defined.

Lemma members_change_only_by_join_and_leave_witness :
  ∃ w' out,
    exec sample_clock sample_uuid4 0 "B" (on_join_video_call (room_data "den"))
      (world_after call_started_in_den) = Some (w', out) ∧
    ∃ room', active_rooms w' !! "DEN" = Some room' ∧
             users room' = users den_with_call.
Proof.
  eexists _, _. split; [vm_compute; reflexivity|].
  eapply (members_change_only_by_join_and_leave sample_clock sample_uuid4 0 "B"
            (on_join_video_call (room_data "den"))
            (world_after call_started_in_den) _ _ "DEN" den_with_call).
  - vm_compute. reflexivity.
  - reflexivity.
  - vm_compute. reflexivity.
Defined.

(* ===================================================================== *)
(** ** One room at a time *)

Ltac known_error :=
  unfold request_errors;
  repeat first [ apply list_elem_of_here | apply list_elem_of_further ].

Ltac events_stay :=
  repeat first
    [ apply Forall_nil_2
    | apply Forall_cons; split;
      [ cbn; first [ split; [reflexivity|known_error]
                   | left; reflexivity
                   | right; eexists; reflexivity ] | ] ].

Section OneRoom.
Context {lib : StrLib}.
Variables now uuid4 : nat → string.

Lemma call_left_events_stay sid r room :
  Forall (stays_within sid r) (call_left_events sid r room).
Proof. unfold call_left_events. destruct (Py.contains _ _); events_stay. Qed.

Lemma lookup_other_store r0 room w r :
  r ≠ r0 → active_rooms (store r0 room w) !! r = active_rooms w !! r.
Proof. intros Hne. rewrite lookup_store. by rewrite decide_False. Qed.

Lemma lookup_other_store_or_discard r0 room w r :
  r ≠ r0 → active_rooms (store_or_discard r0 room w) !! r = active_rooms w !! r.
Proof. intros Hne. rewrite lookup_store_or_discard. by rewrite decide_False. Qed.

Lemma sio_store_or_discard r0 room w :
  sio_rooms (store_or_discard r0 room w) = sio_rooms w.
Proof. unfold store_or_discard. by destruct (length (users room) =? 0). Qed.

Lemma sio_entered_other sid r w s :
  s ≠ sid → sio_rooms (SocketIO.entered sid r w) !! s = sio_rooms w !! s.
Proof. intros Hne. unfold SocketIO.entered. cbn. by rewrite lookup_insert_ne. Qed.

Lemma sio_left_other sid r w s :
  s ≠ sid → sio_rooms (SocketIO.left sid r w) !! s = sio_rooms w !! s.
Proof. intros Hne. unfold SocketIO.left. cbn. by rewrite lookup_insert_ne. Qed.

Ltac summary_done :=
  split_and!;
  [ reflexivity
  | intros ? ?; cbn [tick active_rooms];
    rewrite ?lookup_other_store, ?lookup_other_store_or_discard by done;
    reflexivity
  | intros ? ?; cbn [tick sio_rooms store set_active_rooms];
    rewrite ?sio_store_or_discard;
    rewrite ?sio_entered_other, ?sio_left_other by done; reflexivity
  | rewrite ?Forall_app; repeat split;
    try apply call_left_events_stay; events_stay ].

Lemma room_operation_summary fuel sid op r0 w :
  named_room op = Some r0 →
  ∃ w' out,
    handler now uuid4 fuel sid op w = (Ok tt, w', out) ∧
    (∀ r, r ≠ r0 → active_rooms w' !! r = active_rooms w !! r) ∧
    (∀ s, s ≠ sid → sio_rooms w' !! s = sio_rooms w !! s) ∧
    Forall (stays_within sid r0) out.
Proof.
  destruct op as [| |data|data|data|data|data|data|data|data|data|data|data];
    try done; intros [= <-]; cbn [handler].
  - (* join_room *)
    set (r0 := get_room_id data).
    set (name := str_strip (default "Anonymous" (k_username data))).
    destruct (decide (r0 = "")) as [Hr0|Hr0].
    { rewrite join_room_no_room_id by done. eexists _, _. summary_done. }
    destruct (decide (name = "")) as [Hn|Hn].
    { rewrite join_room_no_username by done. eexists _, _. summary_done. }
    destruct (decide (str_lower name ∈
                lowered_names (default new_room (active_rooms w !! r0)))) as [Hin|Hin].
    { destruct (active_rooms w !! r0) as [room|] eqn:Hroom;
        [|by apply elem_of_nil in Hin].
      erewrite join_room_name_taken by done. eexists _, _. summary_done. }
    rewrite join_room_success by done. eexists _, _. summary_done.
  - (* leave_room *)
    destruct (member_cases w sid (get_room_id data)) as [Hs|(room & name & Hr & Hn)].
    { rewrite leave_room_stranger by done. eexists _, _. summary_done. }
    erewrite leave_room_member by done. eexists _, _. summary_done.
  - (* send_message *)
    destruct (decide (str_strip (default "" (k_message data)) = "")) as [Hb|Hb].
    { rewrite send_message_blank by done. eexists _, _. summary_done. }
    destruct (member_cases w sid (get_room_id data)) as [Hs|(room & name & Hr & Hn)].
    { rewrite send_message_stranger by done. eexists _, _. summary_done. }
    erewrite send_message_member by done. eexists _, _. summary_done.
  - (* send_voice_note *)
    destruct (k_audio_data data) as [audio|] eqn:Ha;
      [|rewrite voice_no_audio by auto; eexists _, _; summary_done].
    destruct (decide (audio = "")) as [->|Haudio];
      [rewrite voice_no_audio by auto; eexists _, _; summary_done|].
    destruct (member_cases w sid (get_room_id data)) as [Hs|(room & name & Hr & Hn)].
    { erewrite voice_stranger by done. eexists _, _. summary_done. }
    destruct (decide (Py.len audio > max_voice_note_size)%Z) as [Hbig|Hok].
    { erewrite voice_too_large by eauto using member_intro.
      eexists _, _. summary_done. }
    erewrite voice_member by (done || lia). eexists _, _. summary_done.
  - (* start_video_call *)
    destruct (member_cases w sid (get_room_id data)) as [Hs|(room & name & Hr & Hn)].
    { rewrite start_video_call_stranger by done. eexists _, _. summary_done. }
    erewrite start_video_call_member by done. eexists _, _. summary_done.
  - (* join_video_call *)
    destruct (member_cases w sid (get_room_id data)) as [Hs|(room & name & Hr & Hn)].
    { rewrite join_video_call_stranger by done. eexists _, _. summary_done. }
    erewrite join_video_call_member by done. eexists _, _. summary_done.
  - (* leave_video_call *)
    destruct (member_cases w sid (get_room_id data)) as [Hs|(room & name & Hr & Hn)].
    { rewrite leave_video_call_stranger by done. eexists _, _. summary_done. }
    erewrite leave_video_call_member by done. cbn zeta.
    destruct (call_drained (prune_participant sid room));
      eexists _, _; summary_done.
Qed.


Lemma named_exec fuel sid op r0 w w' out :
  named_room op = Some r0 →
  exec now uuid4 fuel sid op w = Some (w', out) →
  handler now uuid4 fuel sid op w = (Ok tt, w', out).
Proof.
  intros Hop. destruct (room_operation_summary fuel sid op r0 w Hop)
    as (w1 & out1 & Hrun & _).
  unfold exec. rewrite Hrun.
  destruct op; try done; by intros [= <- <-].
Qed.

(** X14.  An operation that names a room touches no other room and no other
    session: every room stored under another id is after it what it was
    before, and so are the socket.io rooms of every other session. *)
Theorem room_operations_are_local fuel sid op r0 w w' out :
  named_room op = Some r0 →
  exec now uuid4 fuel sid op w = Some (w', out) →
  (∀ r, r ≠ r0 → active_rooms w' !! r = active_rooms w !! r) ∧
  (∀ s, s ≠ sid → sio_rooms w' !! s = sio_rooms w !! s).
Proof.
  intros Hop Hexec. apply (named_exec _ _ _ r0) in Hexec; [|done].
  destruct (room_operation_summary fuel sid op r0 w Hop)
    as (w1 & out1 & Hrun & Hrooms & Hsio & _).
  rewrite Hrun in Hexec. injection Hexec as <- <-. done.
Qed.

(** X15.  On a payload whose keys hold text, what an operation that names a
    room sends stays with the requester and that room: every event goes to
    the requester or to the room named, and every [error] goes to the
    requester alone and carries one of the six messages of the guards, never
    the message of a caught exception. *)
Theorem room_events_stay_within fuel sid op r0 w w' out :
  named_room op = Some r0 →
  exec now uuid4 fuel sid op w = Some (w', out) →
  Forall (stays_within sid r0) out.
Proof.
  intros Hop Hexec. apply (named_exec _ _ _ r0) in Hexec; [|done].
  destruct (room_operation_summary fuel sid op r0 w Hop)
    as (w1 & out1 & Hrun & _ & _ & Hout).
  rewrite Hrun in Hexec. by injection Hexec as <- <-.
Qed.


(** *** Closing a connection *)

Lemma leave_on_disconnect_local sid r0 w :
  ∃ w' out,
    leave_on_disconnect now sid r0 w = (Ok tt, w', out) ∧
    (∀ r, r ≠ r0 → active_rooms w' !! r = active_rooms w !! r) ∧
    sio_rooms w' = sio_rooms w ∧
    Forall (λ e, ev_to e = to_room r0 None) out.
Proof.
  destruct (active_rooms w !! r0) as [room|] eqn:Hr.
  - eexists _, _. split; [by apply leave_on_disconnect_present|].
    split_and!.
    + intros r Hne. cbn. by rewrite lookup_other_store_or_discard.
    + cbn. apply sio_store_or_discard.
    + apply Forall_app. split.
      * unfold call_left_events. destruct (Py.contains _ _); repeat constructor.
      * repeat constructor.
  - eexists _, _. split; [by apply leave_on_disconnect_absent|].
    split_and!; [done|done|constructor].
Qed.

Lemma disconnect_loop_local sid l : ∀ w,
  ∃ w' out,
    for_each l (leave_on_disconnect now sid) w = (Ok tt, w', out) ∧
    (∀ r, r ∉ l → active_rooms w' !! r = active_rooms w !! r) ∧
    sio_rooms w' = sio_rooms w ∧
    Forall (λ e, ∃ r, r ∈ l ∧ ev_to e = to_room r None) out.
Proof.
  induction l as [|r0 l IH]; intros w.
  - eexists _, _. split; [reflexivity|]. split_and!; [done|done|constructor].
  - destruct (leave_on_disconnect_local sid r0 w)
      as (w1 & out1 & Hrun1 & Hrooms1 & Hsio1 & Hout1).
    destruct (IH w1) as (w2 & out2 & Hrun2 & Hrooms2 & Hsio2 & Hout2).
    eexists _, _. split.
    { cbn [for_each]. rewrite bind_run, Hrun1, Hrun2. reflexivity. }
    split_and!.
    + intros r [Hne Hnin]%not_elem_of_cons.
      by rewrite Hrooms2, Hrooms1.
    + by rewrite Hsio2.
    + apply Forall_app. split.
      * eapply Forall_impl; [done|]. intros e He. exists r0.
        split; [apply list_elem_of_here|done].
      * eapply Forall_impl; [done|]. intros e (r & Hin & He). exists r.
        split; [by apply list_elem_of_further|done].
Qed.

Lemma disconnect_is_local_aux fuel sid w w' out :
  exec now uuid4 fuel sid on_disconnect w = Some (w', out) →
  sio_rooms w' = delete sid (sio_rooms w).
Proof.
  unfold exec. cbn [handler]. unfold handle_disconnect.
  rewrite bind_run. unfold SocketIO.rooms. cbn [fst snd].
  match goal with |- context [for_each ?l _ _] =>
    destruct (disconnect_loop_local sid l w)
      as (w1 & out1 & -> & _ & Hsio & _)
  end.
  intros [= <- <-]. cbn. by rewrite Hsio.
Qed.

(** X17.  Closing a connection touches only the rooms the session sits in:
    every room under another id, and the room named like the session itself,
    is left as it is; every event goes to the whole of one of those rooms;
    the session is taken out of all its socket.io rooms and those of the
    other sessions stay. *)
Theorem disconnect_is_local fuel sid w w' out :
  exec now uuid4 fuel sid on_disconnect w = Some (w', out) →
  (∀ r, r ∉ default [] (sio_rooms w !! sid) ∨ r = sid →
        active_rooms w' !! r = active_rooms w !! r) ∧
  sio_rooms w' = delete sid (sio_rooms w) ∧
  Forall (λ e, ∃ r, r ∈ default [] (sio_rooms w !! sid) ∧ r ≠ sid ∧
                    ev_to e = to_room r None) out.
Proof.
  unfold exec. cbn [handler]. unfold handle_disconnect.
  rewrite bind_run. unfold SocketIO.rooms. cbn [fst snd].
  match goal with |- context [for_each ?l _ _] =>
    destruct (disconnect_loop_local sid l w)
      as (w1 & out1 & -> & Hrooms & Hsio & Hout)
  end.
  intros [= <- <-]. split_and!.
  - intros r Hr. cbn. apply Hrooms.
    intros [Hne Hin]%list_elem_of_filter.
    apply elem_of_cons in Hin as [->|Hin]; [done|].
    destruct Hr as [Hr| ->]; done.
  - cbn. by rewrite Hsio.
  - eapply Forall_impl; [done|]. intros e (r & Hin & He).
    apply list_elem_of_filter in Hin as [Hne Hin].
    apply elem_of_cons in Hin as [->|Hin]; [done|]. eauto.
Qed.

(** X18.  Closing a connection twice is closing it once: served again right
    after itself, [disconnect] finds the session in no room, changes nothing
    and sends nothing. *)
Theorem disconnect_is_idempotent fuel sid w w1 out1 :
  exec now uuid4 fuel sid on_disconnect w = Some (w1, out1) →
  exec now uuid4 fuel sid on_disconnect w1 = Some (w1, []).
Proof.
  intros Hexec.
  assert (sio_rooms w1 !! sid = None) as Hnone.
  { apply disconnect_is_local_aux in Hexec. rewrite Hexec. apply lookup_delete_eq. }
  unfold exec. cbn [handler]. unfold handle_disconnect.
  rewrite bind_run. unfold SocketIO.rooms. cbn [fst snd]. rewrite Hnone.
  cbn [default from_option]. rewrite filter_cons_False by (intros H; by apply H).
  rewrite filter_nil. cbn.
  unfold SocketIO.close, set_sio_rooms. rewrite delete_id by done.
  by destruct w1.
Qed.

End OneRoom.

Lemma room_operations_are_local_witness :
  ∃ w' out,
    exec sample_clock sample_uuid4 0 "A" (on_leave_room (room_data "den"))
      (world_after call_started_in_den) = Some (w', out) ∧
    (∀ r, r ≠ "DEN" →
          active_rooms w' !! r = active_rooms (world_after call_started_in_den) !! r) ∧
    (∀ s, s ≠ "A" →
          sio_rooms w' !! s = sio_rooms (world_after call_started_in_den) !! s).
Proof.
  eexists _, _. split; [vm_compute; reflexivity|].
  eapply (room_operations_are_local sample_clock sample_uuid4 0 "A"
            (on_leave_room (room_data "den")) "DEN"
            (world_after call_started_in_den) _ _).
  - vm_compute. reflexivity.
  - vm_compute. reflexivity.
Defined.

Lemma room_events_stay_within_witness :
  ∃ w' out,
    exec sample_clock sample_uuid4 0 "A" (on_leave_room (room_data "den"))
      (world_after call_started_in_den) = Some (w', out) ∧
    Forall (stays_within "A" "DEN") out.
Proof.
  eexists _, _. split; [vm_compute; reflexivity|].
  eapply (room_events_stay_within sample_clock sample_uuid4 0 "A"
            (on_leave_room (room_data "den")) "DEN"
            (world_after call_started_in_den) _ _).
  - vm_compute. reflexivity.
  - vm_compute. reflexivity.
Defined.

Lemma disconnect_is_local_witness :
  ∃ w' out,
    exec sample_clock sample_uuid4 0 "A" on_disconnect
      (world_after call_started_in_den) = Some (w', out) ∧
    (∀ r, r ∉ default [] (sio_rooms (world_after call_started_in_den) !! "A")
          ∨ r = "A" →
          active_rooms w' !! r = active_rooms (world_after call_started_in_den) !! r) ∧
    sio_rooms w' = delete "A" (sio_rooms (world_after call_started_in_den)) ∧
    Forall (λ e, ∃ r,
              r ∈ default [] (sio_rooms (world_after call_started_in_den) !! "A") ∧
              r ≠ "A" ∧ ev_to e = to_room r None) out.
Proof.
  eexists _, _. split; [vm_compute; reflexivity|].
  eapply (disconnect_is_local sample_clock sample_uuid4 0 "A"
            (world_after call_started_in_den) _ _).
  vm_compute. reflexivity.
Defined.

Lemma disconnect_is_idempotent_witness :
  ∃ w1 out1,
    exec sample_clock sample_uuid4 0 "A" on_disconnect
      (world_after call_started_in_den) = Some (w1, out1) ∧
    exec sample_clock sample_uuid4 0 "A" on_disconnect w1 = Some (w1, []).
Proof.
  eexists _, _. split; [vm_compute; reflexivity|].
  eapply (disconnect_is_idempotent sample_clock sample_uuid4 0 "A"
            (world_after call_started_in_den) _ _).
  vm_compute. reflexivity.
Defined.

(* ===================================================================== *)
(** ** The video call *)

Lemma elem_of_other_participants sid room pid pname :
  (pid, pname) ∈ other_participants sid room ↔
  pid ∈ participants (video_call room) ∧ pid ≠ sid ∧
  Py.dict_get pid (users room) = Some pname.
Proof.
  unfold other_participants. rewrite list_elem_of_omap. split.
  - intros (p & Hin & Hf).
    destruct (bool_decide (p ≠ sid)) eqn:Hne; [|done].
    apply bool_decide_eq_true in Hne. cbn in Hf.
    destruct (Py.dict_mem p (users room)); [|done].
    destruct (Py.dict_get p (users room)) as [n|] eqn:Hn; [|done].
    cbn in Hf. by simplify_eq.
  - intros (Hin & Hne & Hn). exists pid. split; [done|].
    rewrite bool_decide_eq_true_2 by done. cbn.
    assert (Py.dict_mem pid (users room) = true) as -> by (apply dict_mem_true; eauto).
    by rewrite Hn.
Qed.

Lemma participants_add_participant sid room p :
  p ∈ participants (video_call (add_participant sid room)) ↔
  p = sid ∨ p ∈ participants (video_call room).
Proof.
  unfold add_participant.
  destruct (Py.contains sid (participants (video_call room))) eqn:Hc; cbn.
  - apply contains_true in Hc. split; [auto|]. by intros [->|].
  - rewrite elem_of_app, list_elem_of_singleton. tauto.
Qed.

Lemma NoDup_add_participant sid room :
  NoDup (participants (video_call room)) →
  NoDup (participants (video_call (add_participant sid room))).
Proof.
  intros Hnd. unfold add_participant.
  destruct (Py.contains sid (participants (video_call room))) eqn:Hc; cbn; [done|].
  apply contains_false in Hc. apply NoDup_app. split_and!; [done| |apply NoDup_singleton].
  intros x Hx ->%list_elem_of_singleton. done.
Qed.

Lemma other_participants_add sid room pid pname :
  (pid, pname) ∈ other_participants sid (add_participant sid room) ↔
  pid ∈ participants (video_call room) ∧ pid ≠ sid ∧
  Py.dict_get pid (users room) = Some pname.
Proof.
  rewrite elem_of_other_participants, participants_add_participant,
    users_add_participant.
  split; [intros ([->|] & ? & ?); done|intros (? & ? & ?); auto].
Qed.

Lemma call_leave_facts now t0 sid name room :
  let room' := room_after_call_leave now t0 sid name room in
  let drained := call_drained (prune_participant sid room) in
  users room' = users room ∧
  (if Py.contains sid (participants (video_call room))
   then Py.remove sid (participants (video_call room))
        = Some (participants (video_call room'))
   else participants (video_call room') = participants (video_call room)) ∧
  active (video_call room') =
    (if drained then false else active (video_call room)) ∧
  (length (participants (video_call room')) =? 0) = drained.
Proof.
  cbv zeta. unfold room_after_call_leave, end_call_if_drained, call_drained,
    prune_participant.
  destruct (Py.contains sid (participants (video_call room))) eqn:Hc.
  - destruct (remove_is_Some sid (participants (video_call room))) as [ps Hps];
      [by apply contains_true|].
    rewrite Hps. cbn [default]. cbn.
    destruct (length ps =? 0) eqn:Hl; cbn; by rewrite ?Hl.
  - destruct (length (participants (video_call room)) =? 0) eqn:Hl; cbn;
      by rewrite ?Hl.
Qed.

Lemma lookup_tick_store n r room w :
  active_rooms (tick n (store r room w)) !! r = Some room.
Proof. cbn. apply lookup_insert_eq. Qed.

Section VideoCall.
Context {lib : StrLib}.
Variables now uuid4 : nat → string.

(** X19.  A member who joins the call is told who is in it: the first event
    of [join_video_call] goes to the requester and lists, with their names,
    exactly the sessions that were participants of the call, are members of
    the room and are not the requester. *)
Theorem join_video_call_lists_the_others fuel sid data w w' out room name :
  active_rooms w !! get_room_id data = Some room →
  Py.dict_get sid (users room) = Some name →
  exec now uuid4 fuel sid (on_join_video_call data) w = Some (w', out) →
  ∃ listed rest,
    out = to_requester sid (existing_participants listed) :: rest ∧
    ∀ pid pname,
      (pid, pname) ∈ listed ↔
      pid ∈ participants (video_call room) ∧ pid ≠ sid ∧
      Py.dict_get pid (users room) = Some pname.
Proof.
  intros Hr Hn. unfold exec. cbn [handler].
  erewrite join_video_call_member by done. intros [= <- <-].
  eexists _, _. split; [reflexivity|]. apply other_participants_add.
Qed.

(** X20.  [join_video_call] never lists a session twice: when the
    participants of the call are distinct before a member joins they are
    distinct afterwards, the joiner is among them, nobody was taken out, and
    neither the members nor the flag of the call have changed. *)
Theorem join_video_call_keeps_participants_distinct
    fuel sid data w w' out room name :
  active_rooms w !! get_room_id data = Some room →
  Py.dict_get sid (users room) = Some name →
  NoDup (participants (video_call room)) →
  exec now uuid4 fuel sid (on_join_video_call data) w = Some (w', out) →
  ∃ room',
    active_rooms w' !! get_room_id data = Some room' ∧
    NoDup (participants (video_call room')) ∧
    (∀ p, p ∈ participants (video_call room') ↔
          p = sid ∨ p ∈ participants (video_call room)) ∧
    users room' = users room ∧
    active (video_call room') = active (video_call room).
Proof.
  intros Hr Hn Hnd. unfold exec. cbn [handler].
  erewrite join_video_call_member by done. intros [= <- <-].
  eexists. split.
  { apply lookup_tick_store. }
  split_and!.
  - by apply NoDup_add_participant.
  - apply participants_add_participant.
  - cbn. apply users_add_participant.
  - cbn. unfold add_participant. by destruct (Py.contains _ _).
Qed.

(** X21.  [leave_video_call] by a member ends the call exactly when it leaves
    nobody in it: the requester is taken out of the participants once; if the
    list is then empty the flag is cleared and [video_call_ended] goes to the
    room, otherwise the flag is kept and no [video_call_ended] is sent.  The
    members stay as they are. *)
Theorem leave_video_call_ends_an_empty_call fuel sid data w w' out room name :
  active_rooms w !! get_room_id data = Some room →
  Py.dict_get sid (users room) = Some name →
  exec now uuid4 fuel sid (on_leave_video_call data) w = Some (w', out) →
  ∃ room',
    active_rooms w' !! get_room_id data = Some room' ∧
    users room' = users room ∧
    (if Py.contains sid (participants (video_call room))
     then Py.remove sid (participants (video_call room))
          = Some (participants (video_call room'))
     else participants (video_call room') = participants (video_call room)) ∧
    (if length (participants (video_call room')) =? 0
     then active (video_call room') = false ∧
          to_all (get_room_id data) video_call_ended ∈ out
     else active (video_call room') = active (video_call room) ∧
          to_all (get_room_id data) video_call_ended ∉ out).
Proof.
  intros Hr Hn. unfold exec. cbn [handler].
  erewrite leave_video_call_member by done. cbn zeta.
  destruct (call_leave_facts now (clock_reads w) sid name room)
    as (Hu & Hps & Hact & Hlen).
  destruct (call_drained (prune_participant sid room)) eqn:Hd;
    intros [= <- <-]; eexists; (split; [apply lookup_tick_store|]);
    rewrite Hlen; (split_and!; [done|done|done|]).
  - apply list_elem_of_here.
  - intros Hin. repeat (apply elem_of_cons in Hin as [Hin|Hin]; [done|]).
    by apply elem_of_nil in Hin.
Qed.

(** X22.  Who starts a call is introduced to who joins it: when a member
    starts a call and another member of the room joins it next, the joiner
    is sent the starter, under its name, among the existing participants. *)
Theorem starter_is_listed_to_joiner
    fuel sid data w w1 out1 room name sid' data' name' w2 out2 :
  active_rooms w !! get_room_id data = Some room →
  Py.dict_get sid (users room) = Some name →
  Py.dict_get sid' (users room) = Some name' →
  sid' ≠ sid →
  get_room_id data' = get_room_id data →
  exec now uuid4 fuel sid (on_start_video_call data) w = Some (w1, out1) →
  exec now uuid4 fuel sid' (on_join_video_call data') w1 = Some (w2, out2) →
  ∃ listed rest,
    out2 = to_requester sid' (existing_participants listed) :: rest ∧
    (sid, name) ∈ listed.
Proof.
  intros Hr Hn Hn' Hne Hsame. unfold exec. cbn [handler].
  erewrite start_video_call_member by done. intros [= <- <-].
  erewrite (join_video_call_member _ _ _ _
              (room_after_call_start sid name (now (clock_reads w)) room) name').
  - intros [= <- <-]. eexists _, _. split; [reflexivity|].
    apply other_participants_add. cbn. split_and!; [|done|done].
    apply elem_of_app. right. apply list_elem_of_here.
  - rewrite Hsame. apply lookup_tick_store.
  - done.
Qed.

End VideoCall.

(* ===================================================================== *)
(** ** In and out of a room *)

Lemma dict_get_None_keys {V} k (d : Py.dict V) :
  Py.dict_get k d = None ↔ k ∉ Py.dict_keys d.
Proof.
  unfold Py.dict_keys. induction d as [|[k' v'] d IH]; cbn.
  - split; [intros _; apply not_elem_of_nil|done].
  - rewrite not_elem_of_cons. destruct (decide (k' = k)) as [->|Hne].
    + split; [done|]. by intros [? _].
    + rewrite IH. split; [by intros ?; split|by intros [_ ?]].
Qed.

Lemma dict_mem_false {V} k (d : Py.dict V) :
  Py.dict_mem k d = false ↔ Py.dict_get k d = None.
Proof. unfold Py.dict_mem. by destruct (Py.dict_get k d). Qed.

Lemma dict_del_set_new {V} k (v : V) (d : Py.dict V) :
  Py.dict_get k d = None → Py.dict_del k (Py.dict_set k v d) = Some d.
Proof.
  induction d as [|[k' v'] d IH]; cbn.
  - by rewrite decide_True.
  - destruct (decide (k' = k)) as [->|Hne]; [done|]. intros Hn. cbn.
    rewrite decide_False by done. by rewrite IH.
Qed.

Lemma dict_get_del_same {V} k (d d' : Py.dict V) :
  NoDup (Py.dict_keys d) → Py.dict_del k d = Some d' → Py.dict_get k d' = None.
Proof.
  unfold Py.dict_keys. revert d'.
  induction d as [|[k' v'] d IH]; intros d'; cbn; [done|].
  intros [Hnin Hnd]%NoDup_cons. destruct (decide (k' = k)) as [->|Hne].
  - intros [= <-]. by apply dict_get_None_keys.
  - destruct (Py.dict_del k d) as [r|]; [|done]. intros [= <-]. cbn.
    rewrite decide_False by done. by apply IH.
Qed.

Lemma dict_set_keys_distinct {V} k (v : V) (d : Py.dict V) :
  NoDup (Py.dict_keys d) → NoDup (Py.dict_keys (Py.dict_set k v d)).
Proof.
  intros Hnd. destruct (Py.dict_get k d) as [old|] eqn:Hg.
  - by rewrite (dict_set_keys_known k v old d Hg).
  - rewrite dict_set_new by done. unfold Py.dict_keys in *.
    rewrite fmap_app. cbn. apply NoDup_app. split_and!; [done| |apply NoDup_singleton].
    intros x Hx ->%list_elem_of_singleton.
    by apply dict_get_None_keys in Hg.
Qed.

Lemma drop_user_gone sid room :
  keys_distinct room → Py.dict_mem sid (users (drop_user sid room)) = false.
Proof.
  intros Hnd. unfold drop_user.
  destruct (Py.dict_mem sid (users room)) eqn:Hm; [|done].
  destruct (dict_del_is_Some sid (users room)) as [us Hus]; [by apply dict_mem_true|].
  rewrite Hus. cbn. apply dict_mem_false. by eapply dict_get_del_same.
Qed.

Lemma prune_participant_absent sid room :
  sid ∉ participants (video_call room) → prune_participant sid room = room.
Proof.
  intros Hnin. unfold prune_participant.
  by rewrite (proj2 (contains_false _ _) Hnin).
Qed.

Section InAndOut.
Context {lib : StrLib}.
Variables now uuid4 : nat → string.

(** X23.  Joining a room and leaving it at once undoes the join: a session
    that was not a member and joins under a free name, then leaves, leaves
    the room with the members it had, in their order, its history longer by
    the line of the join and the line of the departure, and its call as it
    was when the session was no stale participant of it.  A room that had no
    member (one just created) is deleted by the departure. *)
Theorem join_then_leave_restores_members
    fuel sid data data' w w1 out1 w2 out2 room name :
  get_room_id data ≠ "" →
  str_strip (default "Anonymous" (k_username data)) = name → name ≠ "" →
  active_rooms w !! get_room_id data = Some room →
  Py.dict_get sid (users room) = None →
  str_lower name ∉ lowered_names room →
  get_room_id data' = get_room_id data →
  exec now uuid4 fuel sid (on_join_room data) w = Some (w1, out1) →
  exec now uuid4 fuel sid (on_leave_room data') w1 = Some (w2, out2) →
  (users room = [] → active_rooms w2 !! get_room_id data = None) ∧
  (users room ≠ [] →
   ∃ room2,
     active_rooms w2 !! get_room_id data = Some room2 ∧
     users room2 = users room ∧
     messages room2 =
       messages room ++
       [system_msg (name +:+ " has joined the room") (now (clock_reads w));
        system_msg (name +:+ " has left the room") (now (2 + clock_reads w))] ∧
     (sid ∉ participants (video_call room) → video_call room2 = video_call room)).
Proof.
  set (r := get_room_id data).
  intros Hr <- Hname Hroom Hnone Hfree Hsame.
  set (name := str_strip (default "Anonymous" (k_username data))) in *.
  unfold exec. cbn [handler].
  pose proof (join_room_success now sid data w) as Hjoin. cbv zeta in Hjoin.
  fold r name in Hjoin. rewrite Hroom in Hjoin. cbn [default from_option id] in Hjoin.
  rewrite (Hjoin Hr Hname Hfree). clear Hjoin. intros [= <- <-].
  set (room1 := room_after_join sid name (now (clock_reads w)) room).
  assert (Py.dict_get sid (users room1) = Some name) as Hn1.
  { subst room1. cbn. apply dict_get_set. }
  pose proof (leave_room_member now sid data'
                (tick 2 (store r room1 (SocketIO.entered sid r w))) room1 name) as Hleave.
  cbv zeta in Hleave. rewrite Hsame in Hleave.
  rewrite Hleave; [|apply lookup_tick_store|done]. clear Hleave.
  intros [= <- <-].
  assert (users (room_after_leave sid (now (2 + clock_reads w)) room1) = users room)
    as Husers.
  { rewrite users_room_after_leave. unfold drop_user.
    assert (Py.dict_mem sid (users room1) = true) as -> by (apply dict_mem_true; eauto).
    subst room1. cbn. by rewrite dict_del_set_new. }
  cbn [tick clock_reads store set_active_rooms SocketIO.entered set_sio_rooms
       SocketIO.left active_rooms].
  rewrite lookup_store_or_discard, decide_True by done.
  cbn [tick clock_reads store set_active_rooms SocketIO.entered set_sio_rooms
       SocketIO.left active_rooms].
  change (2 + clock_reads w) with (S (S (clock_reads w))) in *.
  rewrite Husers. split.
  - intros ->. reflexivity.
  - intros Hne. destruct (users room) as [|u us] eqn:Hu; [done|]. cbn [length Nat.eqb].
    eexists. split; [reflexivity|]. split_and!.
    + by rewrite Husers.
    + rewrite messages_room_after_leave. subst room1. cbn.
      unfold display_name. cbn. rewrite dict_get_set. cbn.
      by rewrite <- app_assoc.
    + intros Hnin. unfold room_after_leave. cbn.
      unfold drop_user. rewrite users_prune_participant.
      rewrite prune_participant_absent by (subst room1; done).
      destruct (Py.dict_mem sid (users room1)); by subst room1.
Qed.

End InAndOut.

Lemma join_then_leave_restores_members_witness :
  ∃ w1 out1 w2 out2,
    exec sample_clock sample_uuid4 0 "C" (on_join_room (join_data "den" "carol"))
      (world_after call_started_in_den) = Some (w1, out1) ∧
    exec sample_clock sample_uuid4 0 "C" (on_leave_room (room_data "den")) w1
      = Some (w2, out2) ∧
    (users den_with_call = [] → active_rooms w2 !! "DEN" = None) ∧
    (users den_with_call ≠ [] →
     ∃ room2,
       active_rooms w2 !! "DEN" = Some room2 ∧
       users room2 = users den_with_call ∧
       messages room2 =
         messages den_with_call ++
         [system_msg "carol has joined the room" "10:00";
          system_msg "carol has left the room" "10:00"] ∧
       (("C" : string) ∉ participants (video_call den_with_call) →
        video_call room2 = video_call den_with_call)).
Proof.
  eexists _, _, _, _.
  split; [vm_compute; reflexivity|]. split; [vm_compute; reflexivity|].
  refine (join_then_leave_restores_members sample_clock sample_uuid4 0 "C"
            (join_data "den" "carol") (room_data "den")
            (world_after call_started_in_den) _ _ _ _ den_with_call "carol"
            _ _ _ _ _ _ _ _ _).
  - discriminate.
  - vm_compute. reflexivity.
  - discriminate.
  - vm_compute. reflexivity.
  - vm_compute. reflexivity.
  - vm_compute. intros Hin.
    repeat (apply elem_of_cons in Hin as [Hin|Hin]; [discriminate Hin|]).
    by apply elem_of_nil in Hin.
  - vm_compute. reflexivity.
  - vm_compute. reflexivity.
  - vm_compute. reflexivity.
Defined.

(* ===================================================================== *)
(** ** Signalling *)

Section Signalling.
Context {lib : StrLib}.
Variables now uuid4 : nat → string.

Lemma run_app fuel before : ∀ after w,
  run now uuid4 fuel (before ++ after) w =
  match run now uuid4 fuel before w with
  | Some (w1, out1) =>
      match run now uuid4 fuel after w1 with
      | Some (w2, out2) => Some (w2, out1 ++ out2)
      | None => None
      end
  | None => None
  end.
Proof.
  induction before as [|[sid op] before IH]; intros after w; cbn.
  - by destruct (run now uuid4 fuel after w) as [[w2 out2]|].
  - destruct (exec now uuid4 fuel sid op w) as [[w1 out1]|]; [|done].
    rewrite IH.
    destruct (run now uuid4 fuel before w1) as [[w2 out2]|]; [|done].
    destruct (run now uuid4 fuel after w2) as [[w3 out3]|]; [|done].
    by rewrite app_assoc.
Qed.

Lemma signal_exec fuel sid op events w :
  signal sid op = Some events →
  exec now uuid4 fuel sid op w = Some (w, events).
Proof. destruct op; try done; by intros [= <-]. Qed.

(** X24.  Signalling does not interfere with the chat: a [connect] or a
    WebRTC relay ([webrtc_offer], [webrtc_answer], [webrtc_ice_candidate])
    served anywhere in a sequence of requests leaves every later request
    with the world it would have found without it, and adds to the events
    only its own: the one event forwarded to the target peer, stamped with
    the session of the sender; [connect] adds none. *)
Theorem signalling_does_not_interfere fuel sid op events before after w :
  signal sid op = Some events →
  run now uuid4 fuel (before ++ (sid, op) :: after) w =
  match run now uuid4 fuel before w with
  | Some (w1, out1) =>
      match run now uuid4 fuel after w1 with
      | Some (w2, out2) => Some (w2, out1 ++ events ++ out2)
      | None => None
      end
  | None => None
  end.
Proof.
  intros Hs. rewrite run_app.
  destruct (run now uuid4 fuel before w) as [[w1 out1]|]; [|done].
  cbn [run]. rewrite (signal_exec _ _ _ _ _ Hs).
  by destruct (run now uuid4 fuel after w1) as [[w2 out2]|].
Qed.

End Signalling.

(* ===================================================================== *)
(** ** Closing a connection leaves every room *)

Lemma keys_distinct_sublist room room' :
  users room' `sublist_of` users room → keys_distinct room → keys_distinct room'.
Proof.
  unfold keys_distinct, Py.dict_keys. intros Hsub Hnd.
  eapply sublist_NoDup; [done|]. by apply fmap_sublist.
Qed.

Lemma members_step_keys_distinct {lib : StrLib} r room room' :
  members_step r room room' → keys_distinct room → keys_distinct room'.
Proof.
  destruct 1; [by apply keys_distinct_sublist|].
  unfold keys_distinct. cbn. apply dict_set_keys_distinct.
Qed.

Lemma left_room_gone sid ts room :
  keys_distinct room →
  Py.dict_mem sid (users (room_after_leave sid ts room)) = false.
Proof. intros Hnd. rewrite users_room_after_leave. by apply drop_user_gone. Qed.

Lemma dict_mem_get_eq {V} k (d d' : Py.dict V) :
  Py.dict_get k d' = Py.dict_get k d → Py.dict_mem k d' = Py.dict_mem k d.
Proof. unfold Py.dict_mem. by intros ->. Qed.

Lemma left_room_others sid s ts room :
  s ≠ sid →
  Py.dict_mem s (users (room_after_leave sid ts room)) = Py.dict_mem s (users room).
Proof.
  intros Hne. rewrite users_room_after_leave. apply dict_mem_get_eq.
  by apply dict_get_drop_user_other.
Qed.

Lemma sits_entered sid r0 w s r :
  r ∈ default [] (sio_rooms w !! s) →
  r ∈ default [] (sio_rooms (SocketIO.entered sid r0 w) !! s).
Proof.
  intros Hin. unfold SocketIO.entered. cbn.
  destruct (decide (s = sid)) as [->|Hne];
    [rewrite lookup_insert_eq|by rewrite lookup_insert_ne].
  cbn. destruct (Py.contains _ _); [done|]. apply elem_of_app. by left.
Qed.

Lemma sits_left sid r0 w s r :
  r ≠ r0 ∨ s ≠ sid →
  r ∈ default [] (sio_rooms w !! s) →
  r ∈ default [] (sio_rooms (SocketIO.left sid r0 w) !! s).
Proof.
  intros Hor Hin. unfold SocketIO.left. cbn.
  destruct (decide (s = sid)) as [->|Hne];
    [rewrite lookup_insert_eq|by rewrite lookup_insert_ne].
  cbn. apply list_elem_of_filter. split; [|done]. by destruct Hor.
Qed.

Lemma leave_steps_members_before sid s o o' :
  leave_steps sid o o' → s ≠ sid →
  ∀ room', o' = Some room' → Py.dict_mem s (users room') = true →
  ∃ room, o = Some room ∧ Py.dict_mem s (users room) = true.
Proof.
  intros Hsteps Hne.
  induction Hsteps as [o|room ts Hl|room ts o Hl Hs IH]; intros room' Ho' Hm.
  - eauto.
  - done.
  - destruct (IH room' Ho' Hm) as (room1 & [= <-] & Hm1).
    eexists. split; [done|]. by rewrite left_room_others in Hm1.
Qed.

Lemma effect_members_before {lib : StrLib} now sid r op o o' news room' s :
  effect now sid r op o o' news → o' = Some room' → s ≠ sid →
  Py.dict_mem s (users room') = true →
  ∃ room, o = Some room ∧ Py.dict_mem s (users room) = true.
Proof.
  intros He Ho' Hne Hm. destruct He; simplify_eq; eauto.
  - cbn in Hm. rewrite (dict_mem_get_eq s (users (default new_room o))) in Hm
      by (by apply dict_get_set_other).
    destruct o as [room|]; [eauto|done].
  - rewrite left_room_others in Hm by done. eauto.
  - by eapply leave_steps_members_before.
  - cbn in Hm. rewrite users_add_participant in Hm. eauto.
  - cbn in Hm. rewrite users_end_call_if_drained, users_prune_participant in Hm.
    eauto.
Qed.

Section Closing.
Context {lib : StrLib}.
Variables now uuid4 : nat → string.

Lemma room_operation_shape fuel sid op r0 w w' out :
  named_room op = Some r0 →
  exec now uuid4 fuel sid op w = Some (w', out) →
  w' = w ∨
  (∃ room room' n,
      active_rooms w !! r0 = Some room ∧
      Py.dict_mem sid (users room) = true ∧
      users room' = users room ∧ w' = tick n (store r0 room' w)) ∨
  (∃ name ts,
      w' = tick 2 (store r0 (room_after_join sid name ts
                               (default new_room (active_rooms w !! r0)))
                     (SocketIO.entered sid r0 w))) ∨
  (∃ room ts,
      active_rooms w !! r0 = Some room ∧
      w' = tick 2 (store_or_discard r0 (room_after_leave sid ts room)
                     (SocketIO.left sid r0 w))).
Proof.
  intros Hop Hexec. apply (named_exec _ _ _ _ _ r0) in Hexec; [|done].
  revert Hop Hexec.
  destruct op as [| |data|data|data|data|data|data|data|data|data|data|data];
    try done; intros [= <-]; cbn [handler].
  - (* join_room *)
    set (r0 := get_room_id data).
    set (name := str_strip (default "Anonymous" (k_username data))).
    destruct (decide (r0 = "")) as [Hr0|Hr0].
    { rewrite join_room_no_room_id by done. intros [= <- <-]. by left. }
    destruct (decide (name = "")) as [Hn|Hn].
    { rewrite join_room_no_username by done. intros [= <- <-]. by left. }
    destruct (decide (str_lower name ∈
                lowered_names (default new_room (active_rooms w !! r0)))) as [Hin|Hin].
    { destruct (active_rooms w !! r0) as [room|] eqn:Hroom;
        [|by apply elem_of_nil in Hin].
      erewrite join_room_name_taken by done. intros [= <- <-]. by left. }
    rewrite join_room_success by done. intros [= <- <-].
    right. right. left. eauto.
  - (* leave_room *)
    destruct (member_cases w sid (get_room_id data)) as [Hs|(room & name & Hr & Hn)].
    { rewrite leave_room_stranger by done. intros [= <- <-]. by left. }
    erewrite leave_room_member by done. intros [= <- <-].
    right. right. right. eauto.
  - (* send_message *)
    destruct (decide (str_strip (default "" (k_message data)) = "")) as [Hb|Hb].
    { rewrite send_message_blank by done. intros [= <- <-]. by left. }
    destruct (member_cases w sid (get_room_id data)) as [Hs|(room & name & Hr & Hn)].
    { rewrite send_message_stranger by done. intros [= <- <-]. by left. }
    erewrite send_message_member by done. intros [= <- <-].
    right. left. eexists room, _, _.
    split; [done|]. split; [apply dict_mem_true; eauto|]. by split; [|reflexivity].
  - (* send_voice_note *)
    destruct (k_audio_data data) as [audio|] eqn:Ha;
      [|rewrite voice_no_audio by auto; intros [= <- <-]; by left].
    destruct (decide (audio = "")) as [->|Haudio];
      [rewrite voice_no_audio by auto; intros [= <- <-]; by left|].
    destruct (member_cases w sid (get_room_id data)) as [Hs|(room & name & Hr & Hn)].
    { erewrite voice_stranger by done. intros [= <- <-]. by left. }
    destruct (decide (Py.len audio > max_voice_note_size)%Z) as [Hbig|Hok].
    { erewrite voice_too_large by eauto using member_intro.
      intros [= <- <-]. by left. }
    erewrite voice_member by (done || lia). intros [= <- <-].
    right. left. eexists room, _, _.
    split; [done|]. split; [apply dict_mem_true; eauto|]. by split; [|reflexivity].
  - (* start_video_call *)
    destruct (member_cases w sid (get_room_id data)) as [Hs|(room & name & Hr & Hn)].
    { rewrite start_video_call_stranger by done. intros [= <- <-]. by left. }
    erewrite start_video_call_member by done. intros [= <- <-].
    right. left. eexists room, _, _.
    split; [done|]. split; [apply dict_mem_true; eauto|]. by split; [|reflexivity].
  - (* join_video_call *)
    destruct (member_cases w sid (get_room_id data)) as [Hs|(room & name & Hr & Hn)].
    { rewrite join_video_call_stranger by done. intros [= <- <-]. by left. }
    erewrite join_video_call_member by done. intros [= <- <-].
    right. left. eexists room, _, _.
    split; [done|]. split; [apply dict_mem_true; eauto|]. split; [|reflexivity].
    cbn. apply users_add_participant.
  - (* leave_video_call *)
    destruct (member_cases w sid (get_room_id data)) as [Hs|(room & name & Hr & Hn)].
    { rewrite leave_video_call_stranger by done. intros [= <- <-]. by left. }
    erewrite leave_video_call_member by done. cbn zeta. intros [= <- <-].
    right. left. eexists room, _, _.
    split; [done|]. split; [apply dict_mem_true; eauto|]. split; [|reflexivity].
    cbn. by rewrite users_end_call_if_drained, users_prune_participant.
Qed.

Lemma room_operations_local_sessions fuel sid op r0 w w' out :
  named_room op = Some r0 →
  exec now uuid4 fuel sid op w = Some (w', out) →
  ∀ s, s ≠ sid → sio_rooms w' !! s = sio_rooms w !! s.
Proof.
  intros Hop Hexec. apply (named_exec _ _ _ _ _ r0) in Hexec; [|done].
  destruct (room_operation_summary now uuid4 fuel sid op r0 w Hop)
    as (w1 & out1 & Hrun & _ & Hsio & _).
  rewrite Hrun in Hexec. by injection Hexec as <- <-.
Qed.

Lemma exec_keys_distinct fuel sid op w w' out :
  (∀ r room, active_rooms w !! r = Some room → keys_distinct room) →
  exec now uuid4 fuel sid op w = Some (w', out) →
  ∀ r room, active_rooms w' !! r = Some room → keys_distinct room.
Proof.
  intros Hok Hexec r room' Hr'.
  eapply members_step_keys_distinct; [by eapply exec_members|].
  destruct (active_rooms w !! r) as [room|] eqn:Hr; [by eapply Hok|].
  apply NoDup_nil_2.
Qed.

Lemma leave_on_disconnect_leaves sid r0 w :
  (∀ r room, active_rooms w !! r = Some room → keys_distinct room) →
  ∃ w' out,
    leave_on_disconnect now sid r0 w = (Ok tt, w', out) ∧
    (∀ r, r ≠ r0 → active_rooms w' !! r = active_rooms w !! r) ∧
    (∀ room', active_rooms w' !! r0 = Some room' →
              Py.dict_mem sid (users room') = false) ∧
    (∀ r room, active_rooms w' !! r = Some room → keys_distinct room).
Proof.
  intros Hok. destruct (active_rooms w !! r0) as [room|] eqn:Hr.
  - eexists _, _. split; [by apply leave_on_disconnect_present|].
    assert (∀ r, r ≠ r0 →
              active_rooms (tick 2 (store_or_discard r0
                  (room_after_leave sid (now (clock_reads w)) room) w)) !! r
              = active_rooms w !! r) as Hother.
    { intros r Hne. cbn [tick active_rooms].
      by rewrite lookup_other_store_or_discard. }
    assert (∀ room',
              active_rooms (tick 2 (store_or_discard r0
                  (room_after_leave sid (now (clock_reads w)) room) w)) !! r0
              = Some room' →
              room' = room_after_leave sid (now (clock_reads w)) room) as Hsame.
    { intros room'. cbn [tick active_rooms].
      rewrite lookup_store_or_discard, decide_True by done.
      destruct (length _ =? 0); [done|]. by intros [= <-]. }
    split_and!; [done| |].
    + intros room' Heq. apply Hsame in Heq as ->.
      apply left_room_gone. by eapply Hok.
    + intros r room' Hr'. destruct (decide (r = r0)) as [->|Hne].
      * apply Hsame in Hr' as ->.
        eapply keys_distinct_sublist; [|by eapply Hok].
        rewrite users_room_after_leave. apply users_drop_user_sublist.
      * rewrite Hother in Hr' by done. by eapply Hok.
  - eexists _, _. split; [by apply leave_on_disconnect_absent|].
    split_and!; [done| |done]. intros room'. by rewrite Hr.
Qed.

Lemma disconnect_loop_leaves sid l : ∀ w,
  (∀ r room, active_rooms w !! r = Some room → keys_distinct room) →
  ∃ w' out,
    for_each l (leave_on_disconnect now sid) w = (Ok tt, w', out) ∧
    (∀ r room', active_rooms w' !! r = Some room' →
                Py.dict_mem sid (users room') = true →
                (r ∉ l) ∧ active_rooms w !! r = Some room').
Proof.
  induction l as [|r0 l IH]; intros w Hok.
  - eexists _, _. split; [reflexivity|]. intros r room' Hr' _.
    split; [apply not_elem_of_nil|done].
  - destruct (leave_on_disconnect_leaves sid r0 w Hok)
      as (w1 & out1 & Hrun1 & Hother & Hgone & Hok1).
    destruct (IH w1 Hok1) as (w2 & out2 & Hrun2 & Hleft).
    eexists _, _. split.
    { cbn [for_each]. rewrite bind_run, Hrun1, Hrun2. reflexivity. }
    intros r room' Hr' Hm. destruct (Hleft r room' Hr' Hm) as [Hnin Hr1].
    destruct (decide (r = r0)) as [->|Hne].
    + apply Hgone in Hr1. congruence.
    + split; [by apply not_elem_of_cons|]. by rewrite <- Hother.
Qed.

Lemma disconnect_leaves fuel sid w w' out :
  sessions_ok w →
  exec now uuid4 fuel sid on_disconnect w = Some (w', out) →
  ∀ r room', r ≠ sid → active_rooms w' !! r = Some room' →
             Py.dict_mem sid (users room') = false.
Proof.
  intros [Hkeys Hsit]. unfold exec. cbn [handler]. unfold handle_disconnect.
  rewrite bind_run. unfold SocketIO.rooms. cbn [fst snd].
  match goal with |- context [for_each ?l _ _] =>
    destruct (disconnect_loop_leaves sid l w Hkeys) as (w1 & out1 & -> & Hleft)
  end.
  intros [= <- <-] r room' Hne Hr'. cbn in Hr'.
  destruct (Py.dict_mem sid (users room')) eqn:Hm; [|done].
  destruct (Hleft r room' Hr' Hm) as [Hnin Hr].
  exfalso. apply Hnin. apply list_elem_of_filter. split; [done|].
  apply list_elem_of_further. by eapply Hsit.
Qed.

Lemma exec_members_sit fuel sid op w w' out :
  sessions_ok w →
  exec now uuid4 fuel sid op w = Some (w', out) →
  members_sit w'.
Proof.
  intros Hok Hexec s r room' Hrs Hr' Hm.
  pose proof Hok as [Hkeys Hsit].
  destruct (decide (s = sid)) as [->|Hne].
  - (* the session of the request *)
    destruct (named_room op) as [r0|] eqn:Hop.
    + destruct (room_operation_shape fuel sid op r0 w w' out Hop Hexec)
        as [->|[(room & room1 & n & Hr & Hmem & Hu & ->)
               |[(name & ts & ->)|(room & ts & Hr & ->)]]].
      * by eapply Hsit.
      * cbn [tick sio_rooms store set_active_rooms].
        cbn [tick active_rooms] in Hr'. rewrite lookup_store in Hr'.
        destruct (decide (r0 = r)) as [<-|Hr0]; [by eapply Hsit|by eapply Hsit].
      * cbn [tick sio_rooms store set_active_rooms].
        cbn [tick active_rooms] in Hr'. rewrite lookup_store in Hr'.
        destruct (decide (r0 = r)) as [<-|Hr0]; [apply entered_sits|].
        apply sits_entered. by eapply Hsit.
      * cbn [tick sio_rooms]. rewrite sio_store_or_discard.
        cbn [tick active_rooms] in Hr'. rewrite lookup_store_or_discard in Hr'.
        destruct (decide (r0 = r)) as [<-|Hr0].
        -- destruct (length _ =? 0); [done|]. injection Hr' as <-.
           rewrite left_room_gone in Hm by (by eapply Hkeys). done.
        -- apply sits_left; [auto|]. by eapply Hsit.
    + destruct op; try done.
      * injection Hexec as <- <-. by eapply Hsit.
      * by rewrite (disconnect_leaves fuel sid w w' out Hok Hexec r room' Hrs Hr')
          in Hm.
      * apply create_room_returns in Hexec as (r0 & n & Hfresh & -> & _).
        rewrite lookup_store in Hr'. destruct (decide (r0 = r)) as [<-|Hr0].
        -- by injection Hr' as <-.
        -- by eapply Hsit.
      * injection Hexec as <- <-. by eapply Hsit.
      * injection Hexec as <- <-. by eapply Hsit.
      * injection Hexec as <- <-. by eapply Hsit.
  - (* another session *)
    pose proof (exec_effect now uuid4 fuel sid op w w' out "" r Hexec) as He.
    destruct (effect_members_before _ _ _ _ _ _ _ room' s He Hr' Hne Hm)
      as (room & Hr & Hmem).
    assert (sio_rooms w' !! s = sio_rooms w !! s) as ->; [|by eapply Hsit].
    destruct (named_room op) as [r0|] eqn:Hop.
    + by apply (room_operations_local_sessions fuel sid op r0 w w' out).
    + destruct op; try done.
      * by injection Hexec as <- <-.
      * apply disconnect_is_local_aux in Hexec. rewrite Hexec.
        by apply lookup_delete_ne.
      * by apply create_room_returns in Hexec as (r0 & n & Hfresh & -> & _).
      * by injection Hexec as <- <-.
      * by injection Hexec as <- <-.
      * by injection Hexec as <- <-.
Qed.

Lemma exec_sessions_ok fuel sid op w w' out :
  sessions_ok w →
  exec now uuid4 fuel sid op w = Some (w', out) →
  sessions_ok w'.
Proof.
  intros Hok Hexec. split.
  - eapply exec_keys_distinct; [apply Hok|done].
  - by eapply exec_members_sit.
Qed.

Lemma reachable_sessions_ok w : reachable now uuid4 w → sessions_ok w.
Proof.
  induction 1 as [|fuel sid op w w' out _ IH Hexec].
  - split.
    + intros r room Hr. unfold initial_world in Hr. cbn in Hr.
      by rewrite lookup_empty in Hr.
    + intros s r room _ Hr. unfold initial_world in Hr. cbn in Hr.
      by rewrite lookup_empty in Hr.
  - by eapply exec_sessions_ok.
Qed.

(** X25.  Closing a connection takes the session out of every room: in a
    world the server can reach, after [disconnect] the session is a member
    of no room of the store, a room named like the session itself apart
    (the one [handle_disconnect] skips). *)
Theorem disconnect_leaves_every_room fuel sid w w' out :
  reachable now uuid4 w →
  exec now uuid4 fuel sid on_disconnect w = Some (w', out) →
  ∀ r room, r ≠ sid → active_rooms w' !! r = Some room →
            Py.dict_mem sid (users room) = false.
Proof.
  intros Hw Hexec. eapply disconnect_leaves; [|done].
  by apply reachable_sessions_ok.
Qed.

(** X26.  In every world the server can reach, the sessions of a room are
    listed once each, and every member of a room sits in the socket.io room
    of that name, so that what is sent to the room reaches it (a room named
    like the session itself apart). *)
Theorem members_sit_in_their_rooms w :
  reachable now uuid4 w →
  (∀ r room, active_rooms w !! r = Some room →
             NoDup (Py.dict_keys (users room))) ∧
  (∀ s r room, r ≠ s → active_rooms w !! r = Some room →
               Py.dict_mem s (users room) = true →
               r ∈ default [] (sio_rooms w !! s)).
Proof. apply reachable_sessions_ok. Qed.

End Closing.

Lemma join_video_call_lists_the_others_witness :
  ∃ w' out,
    exec sample_clock sample_uuid4 0 "B" (on_join_video_call (room_data "den"))
      (world_after call_started_in_den) = Some (w', out) ∧
    ∃ listed rest,
      out = to_requester "B" (existing_participants listed) :: rest ∧
      ∀ pid pname,
        (pid, pname) ∈ listed ↔
        pid ∈ participants (video_call den_with_call) ∧ pid ≠ "B" ∧
        Py.dict_get pid (users den_with_call) = Some pname.
Proof.
  eexists _, _. split; [vm_compute; reflexivity|].
  eapply (join_video_call_lists_the_others sample_clock sample_uuid4 0 "B"
            (room_data "den") (world_after call_started_in_den) _ _
            den_with_call "bob").
  - vm_compute. reflexivity.
  - vm_compute. reflexivity.
  - vm_compute. reflexivity.
Defined.

Lemma join_video_call_keeps_participants_distinct_witness :
  ∃ w' out,
    exec sample_clock sample_uuid4 0 "B" (on_join_video_call (room_data "den"))
      (world_after call_started_in_den) = Some (w', out) ∧
    ∃ room',
      active_rooms w' !! "DEN" = Some room' ∧
      NoDup (participants (video_call room')) ∧
      (∀ p, p ∈ participants (video_call room') ↔
            p = "B" ∨ p ∈ participants (video_call den_with_call)) ∧
      users room' = users den_with_call ∧
      active (video_call room') = active (video_call den_with_call).
Proof.
  eexists _, _. split; [vm_compute; reflexivity|].
  refine (join_video_call_keeps_participants_distinct sample_clock sample_uuid4
            0 "B" (room_data "den") (world_after call_started_in_den) _ _
            den_with_call "bob" _ _ _ _).
  - vm_compute. reflexivity.
  - vm_compute. reflexivity.
  - apply NoDup_singleton.
  - vm_compute. reflexivity.
Defined.

Lemma leave_video_call_ends_an_empty_call_witness :
  ∃ w' out,
    exec sample_clock sample_uuid4 0 "A" (on_leave_video_call (room_data "den"))
      (world_after call_started_in_den) = Some (w', out) ∧
    ∃ room',
      active_rooms w' !! "DEN" = Some room' ∧
      users room' = users den_with_call ∧
      (if Py.contains "A" (participants (video_call den_with_call))
       then Py.remove "A" (participants (video_call den_with_call))
            = Some (participants (video_call room'))
       else participants (video_call room')
            = participants (video_call den_with_call)) ∧
      (if length (participants (video_call room')) =? 0
       then active (video_call room') = false ∧
            to_all "DEN" video_call_ended ∈ out
       else active (video_call room') = active (video_call den_with_call) ∧
            to_all "DEN" video_call_ended ∉ out).
Proof.
  eexists _, _. split; [vm_compute; reflexivity|].
  refine (leave_video_call_ends_an_empty_call sample_clock sample_uuid4
            0 "A" (room_data "den") (world_after call_started_in_den) _ _
            den_with_call "alice" _ _ _).
  - vm_compute. reflexivity.
  - vm_compute. reflexivity.
  - vm_compute. reflexivity.
Defined.

Lemma starter_is_listed_to_joiner_witness :
  ∃ w1 out1 w2 out2,
    exec sample_clock sample_uuid4 0 "A" (on_start_video_call (room_data "den"))
      (world_after alice_and_bob_in_den) = Some (w1, out1) ∧
    exec sample_clock sample_uuid4 0 "B" (on_join_video_call (room_data " Den"))
      w1 = Some (w2, out2) ∧
    ∃ listed rest,
      out2 = to_requester "B" (existing_participants listed) :: rest ∧
      ("A", "alice") ∈ listed.
Proof.
  eexists _, _, _, _.
  split; [vm_compute; reflexivity|]. split; [vm_compute; reflexivity|].
  eapply (starter_is_listed_to_joiner sample_clock sample_uuid4 0 "A"
            (room_data "den") (world_after alice_and_bob_in_den) _ _
            den_of_two "alice" "B" (room_data " Den") "bob" _ _).
  - vm_compute. reflexivity.
  - vm_compute. reflexivity.
  - vm_compute. reflexivity.
  - discriminate.
  - vm_compute. reflexivity.
  - vm_compute. reflexivity.
  - vm_compute. reflexivity.
Defined.

Lemma signalling_does_not_interfere_witness :
  run sample_clock sample_uuid4 0
    (alice_and_bob_in_den ++
     ("A", on_webrtc_offer (offer_data "B" "sdp")) ::
     [("A", on_start_video_call (room_data "den"))]) initial_world =
  match run sample_clock sample_uuid4 0 alice_and_bob_in_den initial_world with
  | Some (w1, out1) =>
      match run sample_clock sample_uuid4 0
              [("A", on_start_video_call (room_data "den"))] w1 with
      | Some (w2, out2) =>
          Some (w2, out1 ++
                    [{| ev_body := webrtc_offer (Some "sdp") "A";
                        ev_to := to_room "B" None |}] ++ out2)
      | None => None
      end
  | None => None
  end.
Proof.
  apply (signalling_does_not_interfere sample_clock sample_uuid4 0 "A"
           (on_webrtc_offer (offer_data "B" "sdp"))).
  reflexivity.
Defined.

Lemma disconnect_leaves_every_room_witness :
  ∃ w' out,
    exec sample_clock sample_uuid4 0 "A" on_disconnect
      (world_after call_started_in_den) = Some (w', out) ∧
    ∀ r room, r ≠ "A" → active_rooms w' !! r = Some room →
              Py.dict_mem "A" (users room) = false.
Proof.
  eexists _, _. split; [vm_compute; reflexivity|].
  eapply (disconnect_leaves_every_room sample_clock sample_uuid4 0 "A"
            (world_after call_started_in_den) _ _).
  - apply world_after_reachable.
  - vm_compute. reflexivity.
Defined.

Lemma members_sit_in_their_rooms_witness :
  (∀ r room, active_rooms (world_after call_started_in_den) !! r = Some room →
             NoDup (Py.dict_keys (users room))) ∧
  (∀ s r room, r ≠ s →
               active_rooms (world_after call_started_in_den) !! r = Some room →
               Py.dict_mem s (users room) = true →
               r ∈ default [] (sio_rooms (world_after call_started_in_den) !! s)).
Proof.
  apply (members_sit_in_their_rooms sample_clock sample_uuid4
           (world_after call_started_in_den)).
  apply world_after_reachable.
Defined.

(* ===================================================================== *)
(** ** The last member leaves, and the room returns *)



